(** * eBPF-Test: the XDP classifier and the AF_XDP feature extractor

    A shallow embedding of the packet data path of the repository.

    Definitions:
    - [Wire]: how the C code reads a packet (byte loads on a little-endian
      host, [ntohs]/[ntohl], 64-bit wrap-around);
    - [XdpPreproc]: [src/xdp_preproc.c], the in-kernel classifier
      ([update_stat], [parse_ethernet], [parse_ipv4], [parse_udp],
      [xdp_packet_processor]);
    - [MlProcessor]: the AF_XDP user-space processor ([calculate_entropy],
      [extract_ml_features], [configure_xsk_umem], [configure_xsk_socket],
      the start-up of [main] and the body of the loop of
      [run_ml_processor]);
    - [Baseline]: the parsing functions of [benchmarks/baseline.c];
    - [Samples]: concrete frames and states;
    - [ClassifierSpec], [DrainerSpec]: vocabulary for statements about runs;
    - [BaselineLoop]: the statistics and the receive loop of the baseline;
    - [FeatureH], [MlExample]: the clock and the address printers of
      [include/feature.h] and of the processor, and its example callback;
    - [XdpMlFilter]: the sampling classifier [xdp_ml_filter.c];
    - [MoreSamples]: further frames and states.

    Properties: [WireFacts], [XdpPreprocFacts], [BaselineFacts],
    [MlProcessorFacts], [DrainerFacts], then [ClassifierRuns],
    [BaselineLoopFacts], [ReadBounds], [RingFacts], [PrinterFacts],
    [FilterFacts], [HashFacts].

    Pointers into a packet are byte offsets from the start of the packet;
    unsigned C integers are [Z] with their wrap-around written out; the
    kernel helpers and the libxdp ring primitives are modelled by their
    contract. *)

From Stdlib Require Import ZArith Lia Bool List Btauto.
From Stdlib Require Import Strings.Byte.
From Stdlib Require Import Sorting.Sorted.
From stdpp Require Import base numbers list strings pretty.

Local Open Scope Z_scope.

(** ** Reading the wire *)

Module Wire.

Definition wrap16 (x : Z) : Z := x mod 2 ^ 16.
Definition wrap32 (x : Z) : Z := x mod 2 ^ 32.
Definition wrap64 (x : Z) : Z := x mod 2 ^ 64.

(** [((uint8_t * )p)[off]].  The C code never reads below the start of the
    packet; a read past the end of the modelled memory yields 0. *)
Definition byte_at (mem : list byte) (off : Z) : Z :=
  if off <? 0 then 0
  else match mem !! Z.to_nat off with
       | Some b => Z.of_N (Byte.to_N b)
       | None => 0
       end.

(** [x++] on a [uint64_t]. *)
Definition incr64 (x : Z) : Z := wrap64 (x + 1).

(** A [__u16]/[__u32] field read as the (little-endian) host reads it: the
    value is still in network byte order. *)
Definition load16 (mem : list byte) (off : Z) : Z :=
  byte_at mem off + 2 ^ 8 * byte_at mem (off + 1).

Definition load32 (mem : list byte) (off : Z) : Z :=
  byte_at mem off + 2 ^ 8 * byte_at mem (off + 1)
  + 2 ^ 16 * byte_at mem (off + 2) + 2 ^ 24 * byte_at mem (off + 3).

(** The field as the sender wrote it (big-endian), used in statements. *)
Definition be16 (mem : list byte) (off : Z) : Z :=
  2 ^ 8 * byte_at mem off + byte_at mem (off + 1).

Definition be32 (mem : list byte) (off : Z) : Z :=
  2 ^ 24 * byte_at mem off + 2 ^ 16 * byte_at mem (off + 1)
  + 2 ^ 8 * byte_at mem (off + 2) + byte_at mem (off + 3).

(** [ntohs], [htons], [bpf_ntohs], [bpf_htons], [ntohl] on a little-endian
    host: a byte swap. *)
Definition bswap16 (x : Z) : Z :=
  (x mod 2 ^ 8) * 2 ^ 8 + (x / 2 ^ 8) mod 2 ^ 8.

Definition bswap32 (x : Z) : Z :=
  (x mod 2 ^ 8) * 2 ^ 24 + ((x / 2 ^ 8) mod 2 ^ 8) * 2 ^ 16
  + ((x / 2 ^ 16) mod 2 ^ 8) * 2 ^ 8 + (x / 2 ^ 24) mod 2 ^ 8.

Definition ntohs : Z -> Z := bswap16.
Definition htons : Z -> Z := bswap16.
Definition ntohl : Z -> Z := bswap32.

(** Constants of the Linux headers the sources include. *)
Definition ETH_P_IP : Z := 0x0800.
Definition IPPROTO_TCP : Z := 6.
Definition IPPROTO_UDP : Z := 17.
Definition sizeof_ethhdr : Z := 14.
Definition sizeof_iphdr : Z := 20.
Definition sizeof_udphdr : Z := 8.
Definition sizeof_tcphdr : Z := 20.

(** [struct ethhdr] *)
Definition eth_h_proto (mem : list byte) (eth : Z) : Z := load16 mem (eth + 12).

(** [struct iphdr]: [ihl] is the low and [version] the high nibble of the
    first byte. *)
Definition ip_ihl (mem : list byte) (ip : Z) : Z := byte_at mem ip mod 16.
Definition ip_version (mem : list byte) (ip : Z) : Z := byte_at mem ip / 16.
Definition ip_tot_len (mem : list byte) (ip : Z) : Z := load16 mem (ip + 2).
Definition ip_ttl (mem : list byte) (ip : Z) : Z := byte_at mem (ip + 8).
Definition ip_protocol (mem : list byte) (ip : Z) : Z := byte_at mem (ip + 9).
Definition ip_saddr (mem : list byte) (ip : Z) : Z := load32 mem (ip + 12).
Definition ip_daddr (mem : list byte) (ip : Z) : Z := load32 mem (ip + 16).

(** [struct udphdr] and [struct tcphdr] *)
Definition l4_source (mem : list byte) (l4 : Z) : Z := load16 mem l4.
Definition l4_dest (mem : list byte) (l4 : Z) : Z := load16 mem (l4 + 2).
Definition tcp_doff (mem : list byte) (tcp : Z) : Z := byte_at mem (tcp + 12) / 16.
Definition tcp_window (mem : list byte) (tcp : Z) : Z := load16 mem (tcp + 14).

(** Building test packets. *)
Definition byte_of_Z (z : Z) : byte :=
  match Byte.of_N (Z.to_N z) with
  | Some b => b
  | None => Byte.x00
  end.

Definition bytes_of (zs : list Z) : list byte := map byte_of_Z zs.

End Wire.

(** ** The in-kernel classifier, [src/xdp_preproc.c] *)

Module XdpPreproc.
Import Wire.

(** [struct feature] *)
Record feature := mk_feature {
  src_ip : Z;
  dst_ip : Z;
  src_port : Z;
  dst_port : Z;
  pkt_len : Z;
  timestamp : Z
}.

(** [enum xdp_action] of [linux/bpf.h] *)
Inductive xdp_action :=
| XDP_ABORTED | XDP_DROP | XDP_PASS | XDP_TX | XDP_REDIRECT.

(** [feature_rb]: the records submitted and not yet consumed; a reservation
    fails when the buffer has no room for another record. *)
Record ringbuf := mk_ringbuf {
  rb_capacity : nat;
  rb_records : list feature
}.

(** The maps of the program: [stats_map] (an array of [__u64]) and
    [feature_rb]. *)
Record xdp_maps := mk_maps {
  stats_map : list Z;
  feature_rb : ringbuf
}.

Definition STAT_PACKETS_TOTAL : nat := 0.
Definition STAT_PACKETS_UDP : nat := 1.
Definition STAT_PACKETS_DROPPED : nat := 2.
Definition STAT_PROCESSING_TIME : nat := 3.

(** [bpf_map_lookup_elem] on an array map returns NULL for a key past the
    end; [__sync_fetch_and_add] adds modulo 2^64. *)
Definition update_stat (index : nat) (value : Z) (stats : list Z) : list Z :=
  match stats !! index with
  | Some stat => <[index := wrap64 (stat + value)]> stats
  | None => stats
  end.

Definition parse_ethernet (mem : list byte) (data data_end : Z) : option Z :=
  let eth := data in
  if eth + sizeof_ethhdr >? data_end then None
  else if negb (eth_h_proto mem eth =? htons ETH_P_IP) then None
  else Some (eth + sizeof_ethhdr).

(** Returns [(next_header, src_ip, dst_ip, total_len)]. *)
Definition parse_ipv4 (mem : list byte) (data data_end : Z)
  : option (Z * Z * Z * Z) :=
  let ip := data in
  if ip + sizeof_iphdr >? data_end then None
  else if negb (ip_version mem ip =? 4) || (ip_ihl mem ip <? 5) then None
  else
    let ip_header_len := ip_ihl mem ip * 4 in
    if data + ip_header_len >? data_end then None
    else if negb (ip_protocol mem ip =? IPPROTO_UDP) then None
    else Some (data + ip_header_len,
               ip_saddr mem ip, ip_daddr mem ip, ntohs (ip_tot_len mem ip)).

(** Returns [(src_port, dst_port)]. *)
Definition parse_udp (mem : list byte) (data data_end : Z) : option (Z * Z) :=
  let udp := data in
  if udp + sizeof_udphdr >? data_end then None
  else Some (l4_source mem udp, l4_dest mem udp).

Definition bpf_ringbuf_reserve (rb : ringbuf) : bool :=
  Nat.ltb (length (rb_records rb)) (rb_capacity rb).

Definition bpf_ringbuf_submit (f : feature) (rb : ringbuf) : ringbuf :=
  mk_ringbuf (rb_capacity rb) (rb_records rb ++ [f]).

Definition stat_add (index : nat) (value : Z) (m : xdp_maps) : xdp_maps :=
  mk_maps (update_stat index value (stats_map m)) (feature_rb m).

(** One invocation on the frame [ctx]; [start_time] and [end_time] are the
    two readings of [bpf_ktime_get_ns]. *)
Definition xdp_packet_processor (start_time end_time : Z) (ctx : list byte)
    (m : xdp_maps) : xdp_action * xdp_maps :=
  let data := 0 in
  let data_end := Z.of_nat (length ctx) in
  let m := stat_add STAT_PACKETS_TOTAL 1 m in
  match parse_ethernet ctx data data_end with
  | None => (XDP_PASS, stat_add STAT_PACKETS_DROPPED 1 m)
  | Some next_header =>
    match parse_ipv4 ctx next_header data_end with
    | None => (XDP_PASS, stat_add STAT_PACKETS_DROPPED 1 m)
    | Some (next_header, src_ip, dst_ip, total_len) =>
      match parse_udp ctx next_header data_end with
      | None => (XDP_PASS, stat_add STAT_PACKETS_DROPPED 1 m)
      | Some (src_port, dst_port) =>
        if negb (bpf_ringbuf_reserve (feature_rb m))
        then (XDP_PASS, stat_add STAT_PACKETS_DROPPED 1 m)
        else
          let f := mk_feature src_ip dst_ip src_port dst_port total_len
                              start_time in
          let m := mk_maps (stats_map m) (bpf_ringbuf_submit f (feature_rb m)) in
          let m := stat_add STAT_PACKETS_UDP 1 m in
          let processing_time := wrap64 (end_time - start_time) in
          let m := stat_add STAT_PROCESSING_TIME processing_time m in
          (XDP_PASS, m)
      end
    end
  end.

(** A sequence of invocations, each with its clock readings and frame. *)
Record arrival := mk_arrival {
  a_start : Z;
  a_end : Z;
  a_frame : list byte
}.

Fixpoint run (arrivals : list arrival) (m : xdp_maps) : xdp_maps :=
  match arrivals with
  | [] => m
  | a :: rest =>
    run rest (snd (xdp_packet_processor (a_start a) (a_end a) (a_frame a) m))
  end.

Definition stat_read (index : nat) (m : xdp_maps) : Z :=
  default 0 (stats_map m !! index).

(** *** Vocabulary of the statements *)

(** The frame carries a complete IPv4 header: the Ethernet header is there
    with ethertype 0x0800, version is 4, [ihl] is at least 5 and the
    header with its options fits in the frame. *)
Definition wf_ipv4 (frame : list byte) : bool :=
  let n := Z.of_nat (length frame) in
  (sizeof_ethhdr + sizeof_iphdr <=? n)
  && (be16 frame 12 =? ETH_P_IP)
  && (ip_version frame 14 =? 4)
  && (5 <=? ip_ihl frame 14)
  && (14 + ip_ihl frame 14 * 4 <=? n).

Definition is_udp (frame : list byte) : bool :=
  ip_protocol frame 14 =? IPPROTO_UDP.

Definition udp_complete (frame : list byte) : bool :=
  14 + ip_ihl frame 14 * 4 + sizeof_udphdr <=? Z.of_nat (length frame).

(** Truncated Ethernet header, non-IPv4 ethertype, truncated IPv4 header,
    version other than 4, [ihl] below 5, truncated options, or a UDP
    datagram whose UDP header is truncated. *)
Definition malformed (frame : list byte) : bool :=
  let n := Z.of_nat (length frame) in
  (n <? sizeof_ethhdr)
  || negb (be16 frame 12 =? ETH_P_IP)
  || (n <? sizeof_ethhdr + sizeof_iphdr)
  || negb (ip_version frame 14 =? 4)
  || (ip_ihl frame 14 <? 5)
  || (n <? 14 + ip_ihl frame 14 * 4)
  || (is_udp frame && negb (udp_complete frame)).

(** The frame is one the program turns into a record. *)
Definition accepted (frame : list byte) (rb : ringbuf) : bool :=
  wf_ipv4 frame && is_udp frame && udp_complete frame && bpf_ringbuf_reserve rb.

(** The maps after an invocation that ends in one of the four early
    returns, and after one that submits a record. *)
Definition dropped_maps (m : xdp_maps) : xdp_maps :=
  stat_add STAT_PACKETS_DROPPED 1 (stat_add STAT_PACKETS_TOTAL 1 m).

Definition accepted_maps (t0 t1 : Z) (frame : list byte) (m : xdp_maps) : xdp_maps :=
  let l4 := 14 + ip_ihl frame 14 * 4 in
  let f := mk_feature (ip_saddr frame 14) (ip_daddr frame 14)
                      (l4_source frame l4) (l4_dest frame l4)
                      (be16 frame 16) t0 in
  stat_add STAT_PROCESSING_TIME (wrap64 (t1 - t0))
    (stat_add STAT_PACKETS_UDP 1
       (mk_maps (stats_map (stat_add STAT_PACKETS_TOTAL 1 m))
                (bpf_ringbuf_submit f (feature_rb m)))).

(** The most one invocation can add to a counter. *)
Definition max_delta (index : nat) (a : arrival) : Z :=
  if Nat.eqb index STAT_PROCESSING_TIME then wrap64 (a_end a - a_start a) else 1.

Fixpoint budget (index : nat) (arrivals : list arrival) : Z :=
  match arrivals with
  | [] => 0
  | a :: rest => max_delta index a + budget index rest
  end.

End XdpPreproc.

(** ** The AF_XDP user-space processor ([extract_ml_features],
    [run_ml_processor]) *)

Module MlProcessor.
Import Wire.

(** [struct ml_feature] *)
Record ml_feature := mk_ml_feature {
  src_ip : Z;
  dst_ip : Z;
  src_port : Z;
  dst_port : Z;
  protocol : Z;
  pkt_len : Z;
  tcp_flags : Z;
  payload_len : Z;
  flow_hash : Z;
  timestamp : Z;
  traffic_class : Z;
  direction : Z;
  packet_entropy : Z;
  inter_arrival_time : Z;
  window_size : Z;
  ttl : Z
}.

(** [struct xdp_desc] of [linux/if_xdp.h] *)
Record xdp_desc := mk_desc {
  addr : Z;
  len : Z
}.

(** [struct stats_record] *)
Record stats_record := mk_stats {
  rx_packets : Z;
  rx_bytes : Z;
  tx_packets : Z;
  tx_bytes : Z;
  ml_features_extracted : Z;
  ml_predictions_made : Z;
  processing_time_ns : Z
}.

(** [struct xsk_socket_info], with the two rings the processor uses: [rx]
    holds the descriptors the kernel produced and the consumer has not yet
    released, [fq] the addresses submitted to the fill ring and not yet
    taken by the kernel ([fq_size] slots). *)
Record xsk_socket_info := mk_xsk {
  rx : list xdp_desc;
  fq : list Z;
  fq_size : nat;
  umem_buffer : list byte;
  umem_frame_addr : list Z;
  umem_frame_free : Z;
  stats : stats_record
}.

(** What the processor has done to the world besides its own structure: the
    number of clock readings taken and the records handed to the callback,
    oldest first. *)
Record world := mk_world {
  xsk : xsk_socket_info;
  ticks : nat;
  ml_calls : list ml_feature
}.

Definition NUM_FRAMES : nat := 4096.
Definition RX_BATCH_SIZE : nat := 64.

(** The ring primitives of libxdp ([xsk.h]), by their contract. *)
Definition xsk_ring_cons__peek (ring : list xdp_desc) (nb : nat) : list xdp_desc :=
  take nb ring.

Definition xsk_ring_cons__release (ring : list xdp_desc) (nb : nat) : list xdp_desc :=
  drop nb ring.

Definition xsk_ring_prod__reserve (ring : list Z) (size nb : nat) : nat :=
  if Nat.ltb (size - length ring) nb then 0%nat else nb.

Definition xsk_umem__get_data (buffer : list byte) (a : Z) : list byte :=
  drop (Z.to_nat a) buffer.

(** [(uint64_t)x << n] *)
Definition shl64 (x n : Z) : Z := wrap64 (Z.shiftl x n).

(** [XSK_RING_PROD__DEFAULT_NUM_DESCS] of [xsk.h]: the slots of a fill ring
    created without a configuration. *)
Definition XSK_RING_PROD__DEFAULT_NUM_DESCS : nat := 2048.

(** [struct xsk_socket_info xsk_info = {0}] in [main]. *)
Definition xsk_info_zero : xsk_socket_info :=
  {| rx := []; fq := []; fq_size := 0; umem_buffer := [];
     umem_frame_addr := replicate NUM_FRAMES 0; umem_frame_free := 0;
     stats := mk_stats 0 0 0 0 0 0 0 |}.

(** [xsk_umem__create], by its contract, when it succeeds: the UMEM covers
    [buffer] and its fill ring is empty, with [fill_size] slots. *)
Definition xsk_umem__create (fill_size : nat) (buffer : list byte)
    (xsk_info : xsk_socket_info) : xsk_socket_info :=
  {| rx := rx xsk_info; fq := []; fq_size := fill_size;
     umem_buffer := buffer;
     umem_frame_addr := umem_frame_addr xsk_info;
     umem_frame_free := umem_frame_free xsk_info;
     stats := stats xsk_info |}.

(** [configure_xsk_umem]: the configuration it passes is NULL, so the fill
    ring has the default number of slots. *)
Definition configure_xsk_umem (buffer : list byte)
    (xsk_info : xsk_socket_info) : xsk_socket_info :=
  xsk_umem__create XSK_RING_PROD__DEFAULT_NUM_DESCS buffer xsk_info.

Section Processor.

(** [XSK_UMEM__DEFAULT_FRAME_SIZE], from the libxdp headers. *)
Variable FRAME_SIZE : Z.

(** The floating-point part of [calculate_entropy]: the value of
    [(uint8_t)(entropy * 32)] for the given non-empty bytes. *)
Variable entropy_x32 : list byte -> Z.

(** [get_time_ns]: the n-th reading of the monotonic clock. *)
Variable get_time_ns : nat -> Z.

(** The callback, which may keep state of its own: its result may depend
    on the records it was given before. *)
Variable ml_func : list ml_feature -> ml_feature -> Z.

Definition calculate_entropy (data : list byte) (len : Z) : Z :=
  if len =? 0 then 0
  else entropy_x32 (take (Z.to_nat len) data).

(** [now] is the clock reading taken for [timestamp]; [None] is the
    return value -1. *)
Definition extract_ml_features (now : Z) (pkt_data : list byte) (pkt_len : Z)
  : option ml_feature :=
  let eth := 0 in
  if pkt_len <? sizeof_ethhdr then None
  else if negb (ntohs (eth_h_proto pkt_data eth) =? ETH_P_IP) then None
  else
    let ip := eth + sizeof_ethhdr in
    if ip + sizeof_iphdr >? pkt_len then None
    else
      let f_src_ip := ntohl (ip_saddr pkt_data ip) in
      let f_dst_ip := ntohl (ip_daddr pkt_data ip) in
      let f_protocol := ip_protocol pkt_data ip in
      let f_pkt_len := wrap16 pkt_len in
      let f_ttl := ip_ttl pkt_data ip in
      let transport_hdr := ip + ip_ihl pkt_data ip * 4 in
      let '(src_port, dst_port, tcp_flags, window_size) :=
        if ip_protocol pkt_data ip =? IPPROTO_TCP then
          let tcp := transport_hdr in
          if tcp + sizeof_tcphdr <=? pkt_len then
            (ntohs (l4_source pkt_data tcp), ntohs (l4_dest pkt_data tcp),
             byte_at pkt_data (tcp + 13), ntohs (tcp_window pkt_data tcp))
          else (0, 0, 0, 0)
        else if ip_protocol pkt_data ip =? IPPROTO_UDP then
          let udp := transport_hdr in
          if udp + sizeof_udphdr <=? pkt_len then
            (ntohs (l4_source pkt_data udp), ntohs (l4_dest pkt_data udp), 0, 0)
          else (0, 0, 0, 0)
        else (0, 0, 0, 0) in
      let f_flow_hash :=
        Z.lxor (Z.lxor (Z.lxor (Z.lxor f_src_ip (shl64 f_dst_ip 32))
                               (shl64 src_port 16))
                       (shl64 dst_port 48))
               (shl64 f_protocol 8) in
      let header_len := transport_hdr - 0 in
      let header_len :=
        if ip_protocol pkt_data ip =? IPPROTO_TCP then
          header_len + tcp_doff pkt_data transport_hdr * 4
        else if ip_protocol pkt_data ip =? IPPROTO_UDP then
          header_len + sizeof_udphdr
        else header_len in
      let '(f_payload_len, f_packet_entropy) :=
        if header_len <? pkt_len then
          let pl := wrap16 (pkt_len - header_len) in
          (pl, calculate_entropy (drop (Z.to_nat header_len) pkt_data) pl)
        else (0, 0) in
      let f_traffic_class :=
        if (src_port =? 22) || (dst_port =? 22) ||
           (src_port =? 53) || (dst_port =? 53) ||
           (src_port =? 80) || (dst_port =? 80) ||
           (src_port =? 443) || (dst_port =? 443) then 2
        else if ((src_port >? 49152) && (dst_port >? 49152)) ||
                (negb (ip_protocol pkt_data ip =? IPPROTO_TCP) &&
                 negb (ip_protocol pkt_data ip =? IPPROTO_UDP)) then 1
        else 0 in
      let f_direction := if src_port >? dst_port then 1 else 0 in
      Some {| src_ip := f_src_ip; dst_ip := f_dst_ip;
              src_port := src_port; dst_port := dst_port;
              protocol := f_protocol; pkt_len := f_pkt_len;
              tcp_flags := tcp_flags; payload_len := f_payload_len;
              flow_hash := f_flow_hash; timestamp := now;
              traffic_class := f_traffic_class; direction := f_direction;
              packet_entropy := f_packet_entropy; inter_arrival_time := 0;
              window_size := window_size; ttl := f_ttl |}.

(** [configure_xsk_socket], after [xsk_socket__create] has succeeded:
    the frame table is initialised and every frame is put on the fill
    ring; [None] is the return value -1. *)
Definition frame_table : list Z :=
  map (fun i : nat => wrap32 (Z.of_nat i * FRAME_SIZE)) (seq 0 NUM_FRAMES).

Definition configure_xsk_socket (xsk_info : xsk_socket_info)
  : option xsk_socket_info :=
  let ret := xsk_ring_prod__reserve (fq xsk_info) (fq_size xsk_info) NUM_FRAMES in
  if negb (Nat.eqb ret NUM_FRAMES) then None
  else
    Some {| rx := rx xsk_info;
            fq := fq xsk_info ++ frame_table;
            fq_size := fq_size xsk_info;
            umem_buffer := umem_buffer xsk_info;
            umem_frame_addr := frame_table;
            umem_frame_free := Z.of_nat NUM_FRAMES;
            stats := stats xsk_info |}.

(** [main] from [configure_xsk_umem] to the call of [run_ml_processor]:
    the socket the loop starts with, or [None] for the jump to [cleanup]
    that skips the loop. *)
Definition main_setup (umem_buffer : list byte) : option xsk_socket_info :=
  configure_xsk_socket (configure_xsk_umem umem_buffer xsk_info_zero).

(** The body of the [for] loop over the peeked descriptors
    ([run_ml_processor], lines 351-377), for one descriptor. *)
Definition process_desc (w : world) (d : xdp_desc) : world :=
  let x := xsk w in
  let pkt_data := xsk_umem__get_data (umem_buffer x) (addr d) in
  let '(st, n, calls) :=
    match extract_ml_features (get_time_ns (ticks w)) pkt_data (len d) with
    | Some feature =>
      let start_time := get_time_ns (S (ticks w)) in
      let ml_result := ml_func (ml_calls w) feature in
      let processing_time :=
        wrap64 (get_time_ns (S (S (ticks w))) - start_time) in
      let st := stats x in
      ({| rx_packets := rx_packets st;
          rx_bytes := rx_bytes st;
          tx_packets := tx_packets st;
          tx_bytes := tx_bytes st;
          ml_features_extracted := wrap64 (ml_features_extracted st + 1);
          ml_predictions_made :=
            if ml_result =? 0 then ml_predictions_made st
            else wrap64 (ml_predictions_made st + 1);
          processing_time_ns :=
            wrap64 (processing_time_ns st + processing_time) |},
       S (S (S (ticks w))), ml_calls w ++ [feature])
    | None => (stats x, ticks w, ml_calls w)
    end in
  let st :=
    {| rx_packets := wrap64 (rx_packets st + 1);
       rx_bytes := wrap64 (rx_bytes st + len d);
       tx_packets := tx_packets st;
       tx_bytes := tx_bytes st;
       ml_features_extracted := ml_features_extracted st;
       ml_predictions_made := ml_predictions_made st;
       processing_time_ns := processing_time_ns st |} in
  {| xsk := {| rx := rx x; fq := fq x; fq_size := fq_size x;
               umem_buffer := umem_buffer x;
               umem_frame_addr := umem_frame_addr x;
               umem_frame_free := umem_frame_free x;
               stats := st |};
     ticks := n;
     ml_calls := calls |}.

(** Lines 343-379: peek a batch, process each descriptor, release the
    batch from the RX ring.  Returns the number of descriptors peeked. *)
Definition process_rx_batch (w : world) : nat * world :=
  let batch := xsk_ring_cons__peek (rx (xsk w)) RX_BATCH_SIZE in
  let rcvd := length batch in
  if Nat.eqb rcvd 0 then (rcvd, w)
  else
    let w := fold_left process_desc batch w in
    let x := xsk w in
    (rcvd,
     {| xsk := {| rx := xsk_ring_cons__release (rx x) rcvd;
                  fq := fq x; fq_size := fq_size x;
                  umem_buffer := umem_buffer x;
                  umem_frame_addr := umem_frame_addr x;
                  umem_frame_free := umem_frame_free x;
                  stats := stats x |};
        ticks := ticks w;
        ml_calls := ml_calls w |}).

(** The loop of lines 385-388: [ret] times
    [umem_frame_addr[--umem_frame_free]].  [None]: the index is outside
    the array (undefined behaviour in C). *)
Fixpoint take_frames (ret : nat) (frame_addr : list Z) (frame_free : Z)
  : option (list Z * Z) :=
  match ret with
  | O => Some ([], frame_free)
  | S ret' =>
    let frame_free := wrap32 (frame_free - 1) in
    match frame_addr !! Z.to_nat frame_free with
    | None => None
    | Some a =>
      match take_frames ret' frame_addr frame_free with
      | None => None
      | Some (l, frame_free') => Some (a :: l, frame_free')
      end
    end
  end.

(** Lines 381-390: return frames to the fill queue. *)
Definition refill_fq (rcvd : nat) (x : xsk_socket_info) : option xsk_socket_info :=
  let ret := xsk_ring_prod__reserve (fq x) (fq_size x) rcvd in
  match take_frames ret (umem_frame_addr x) (umem_frame_free x) with
  | None => None
  | Some (addrs, frame_free) =>
    Some {| rx := rx x; fq := fq x ++ addrs; fq_size := fq_size x;
            umem_buffer := umem_buffer x;
            umem_frame_addr := umem_frame_addr x;
            umem_frame_free := frame_free;
            stats := stats x |}
  end.

(** One iteration of the [while] loop of [run_ml_processor] in which
    [poll] reported the socket readable. *)
Definition run_ml_processor_iteration (w : world) : option world :=
  let '(rcvd, w) := process_rx_batch w in
  if Nat.eqb rcvd 0 then Some w
  else
    match refill_fq rcvd (xsk w) with
    | None => None
    | Some x => Some {| xsk := x; ticks := ticks w; ml_calls := ml_calls w |}
    end.

End Processor.

(** *** Vocabulary of the statements *)

Definition FLOW_NORMAL : Z := 0.
Definition FLOW_SUSPICIOUS : Z := 1.
Definition FLOW_PRIORITY : Z := 2.

Definition service_port (p : Z) : bool :=
  (p =? 22) || (p =? 53) || (p =? 80) || (p =? 443).

(** The tagging rule with the bound the code uses: a port counts as high
    when it is above 49152. *)
Definition traffic_class_rule (sport dport proto : Z) : Z :=
  if service_port sport || service_port dport then FLOW_PRIORITY
  else if ((49152 <? sport) && (49152 <? dport))
          || negb ((proto =? IPPROTO_TCP) || (proto =? IPPROTO_UDP))
       then FLOW_SUSPICIOUS
       else FLOW_NORMAL.

(** The rule as the specification words it: ephemeral means above 49151. *)
Definition traffic_class_rule_spec (sport dport proto : Z) : Z :=
  if service_port sport || service_port dport then FLOW_PRIORITY
  else if ((49151 <? sport) && (49151 <? dport))
          || negb ((proto =? IPPROTO_TCP) || (proto =? IPPROTO_UDP))
       then FLOW_SUSPICIOUS
       else FLOW_NORMAL.

(** The flow identifier as a function of the five fields alone. *)
Definition flow_hash_of (proto sip dip sport dport : Z) : Z :=
  Z.lxor (Z.lxor (Z.lxor (Z.lxor sip (shl64 dip 32)) (shl64 sport 16))
                 (shl64 dport 48))
         (shl64 proto 8).

(** Offset of the transport header and the header bytes the extractor
    consumes: Ethernet, IPv4 with options, and the TCP header ([doff]
    words) or the UDP header. *)
Definition l4_offset (pkt : list byte) : Z :=
  sizeof_ethhdr + ip_ihl pkt 14 * 4.

Definition headers_consumed (pkt : list byte) : Z :=
  l4_offset pkt +
  (if ip_protocol pkt 14 =? IPPROTO_TCP then tcp_doff pkt (l4_offset pkt) * 4
   else if ip_protocol pkt 14 =? IPPROTO_UDP then sizeof_udphdr
   else 0).

(** The transport header the extractor reads ports from is inside the
    frame. *)
Definition l4_present (pkt : list byte) (pkt_len : Z) : bool :=
  ((ip_protocol pkt 14 =? IPPROTO_TCP)
   && (l4_offset pkt + sizeof_tcphdr <=? pkt_len))
  || ((ip_protocol pkt 14 =? IPPROTO_UDP)
      && (l4_offset pkt + sizeof_udphdr <=? pkt_len)).

(** The frame re-parses: Ethernet header present, ethertype IPv4, room
    for a 20-byte IPv4 header. *)
Definition reparses (pkt : list byte) (pkt_len : Z) : bool :=
  (sizeof_ethhdr <=? pkt_len)
  && (be16 pkt 12 =? ETH_P_IP)
  && (sizeof_ethhdr + sizeof_iphdr <=? pkt_len).

Definition desc_reparses (buffer : list byte) (d : xdp_desc) : bool :=
  reparses (xsk_umem__get_data buffer (addr d)) (len d).

(** The record [f] is what the extractor makes of the frame of [d]. *)
Definition extracted_from (entropy_x32 : list byte -> Z) (buffer : list byte)
    (f : ml_feature) (d : xdp_desc) : Prop :=
  exists now,
    extract_ml_features entropy_x32 now (xsk_umem__get_data buffer (addr d)) (len d)
    = Some f.

End MlProcessor.

(** ** The user-space baseline, [benchmarks/baseline.c] *)

Module Baseline.
Import Wire.

(** [feature_t] of [include/feature.h]; its comments give addresses and
    ports as network byte order. *)
Record feature_t := mk_feature_t {
  src_ip : Z;
  dst_ip : Z;
  src_port : Z;
  dst_port : Z;
  pkt_len : Z;
  timestamp : Z
}.

(** [len] is an [int] compared with a [size_t]: it is converted to an
    unsigned 64-bit value.  Returns [eth_offset]. *)
Definition parse_ethernet (packet : list byte) (len : Z) : option Z :=
  if wrap64 len <? sizeof_ethhdr then None
  else
    let eth := 0 in
    let eth_offset := sizeof_ethhdr in
    if negb (ntohs (eth_h_proto packet eth) =? ETH_P_IP) then None
    else Some eth_offset.

(** [now] is the reading of [get_time_ns]. *)
Definition parse_ip_udp (now : Z) (packet : list byte) (len eth_offset : Z)
  : option feature_t :=
  if wrap64 len <? eth_offset + sizeof_iphdr then None
  else
    let ip := eth_offset in
    if negb (ip_version packet ip =? 4) || (ip_ihl packet ip <? 5) then None
    else
      let ip_header_len := ip_ihl packet ip * 4 in
      if wrap64 len <? eth_offset + ip_header_len + sizeof_udphdr then None
      else if negb (ip_protocol packet ip =? IPPROTO_UDP) then None
      else
        let udp := eth_offset + ip_header_len in
        Some {| src_ip := ip_saddr packet ip;
                dst_ip := ip_daddr packet ip;
                src_port := l4_source packet udp;
                dst_port := l4_dest packet udp;
                pkt_len := ntohs (ip_tot_len packet ip);
                timestamp := now |}.

(** The record the loop of [main] hands to [process_feature] for a packet
    of [len] bytes, if any. *)
Definition received_feature (now : Z) (buffer : list byte) (len : Z)
  : option feature_t :=
  match parse_ethernet buffer len with
  | None => None
  | Some eth_offset => parse_ip_udp now buffer len eth_offset
  end.

End Baseline.

(** ** Sample frames *)

Module Samples.
Import Wire.

Definition eth_ipv4 : list Z :=
  [0x02; 0; 0; 0; 0; 0x02;  0x02; 0; 0; 0; 0; 0x01;  0x08; 0x00].

(** UDP 10.0.0.1:40000 -> 10.0.0.2:53, 100 bytes of 0x41 (142 bytes). *)
Definition udp_dns : list byte :=
  bytes_of (eth_ipv4
    ++ [0x45; 0; 0; 128;  0; 0; 0; 0;  64; 17; 0; 0;  10; 0; 0; 1;  10; 0; 0; 2]
    ++ [0x9C; 0x40;  0; 53;  0; 108;  0; 0]
    ++ repeat 0x41 100).

(** The same flow with another TTL and another payload (46 bytes). *)
Definition udp_dns_short : list byte :=
  bytes_of (eth_ipv4
    ++ [0x45; 0; 0; 32;  0; 0; 0; 0;  9; 17; 0; 0;  10; 0; 0; 1;  10; 0; 0; 2]
    ++ [0x9C; 0x40;  0; 53;  0; 12;  0; 0]
    ++ [1; 2; 3; 4]).

(** TCP SYN 10.0.0.1:49152 -> 10.0.0.2:49152 (54 bytes). *)
Definition tcp_syn : list byte :=
  bytes_of (eth_ipv4
    ++ [0x45; 0; 0; 40;  0; 0; 0; 0;  64; 6; 0; 0;  10; 0; 0; 1;  10; 0; 0; 2]
    ++ [0xC0; 0x00;  0xC0; 0x00;  0; 0; 0; 1;  0; 0; 0; 0;
        0x50; 0x02;  0xFF; 0xFF;  0; 0;  0; 0]).

(** ICMP echo request 10.0.0.1 -> 10.0.0.2 (42 bytes). *)
Definition icmp_echo : list byte :=
  bytes_of (eth_ipv4
    ++ [0x45; 0; 0; 28;  0; 0; 0; 0;  64; 1; 0; 0;  10; 0; 0; 1;  10; 0; 0; 2]
    ++ [8; 0; 0; 0;  0; 1; 0; 1]).

(** An ARP request (42 bytes): not IPv4. *)
Definition arp_request : list byte :=
  bytes_of ([0xFF; 0xFF; 0xFF; 0xFF; 0xFF; 0xFF;  0x02; 0; 0; 0; 0; 0x01;  0x08; 0x06]
    ++ repeat 0 28).

Definition no_entropy (_ : list byte) : Z := 0.

Definition empty_maps : XdpPreproc.xdp_maps :=
  XdpPreproc.mk_maps [0; 0; 0; 0] (XdpPreproc.mk_ringbuf 8 []).

Definition full_maps : XdpPreproc.xdp_maps :=
  XdpPreproc.mk_maps [0; 0; 0; 0] (XdpPreproc.mk_ringbuf 0 []).

(** [n] ARP requests in a row. *)
Definition arp_burst (n : nat) : list XdpPreproc.arrival :=
  replicate n (XdpPreproc.mk_arrival 0 0 arp_request).

(** What [extract_ml_features] makes of [udp_dns], [udp_dns_short] and
    [tcp_syn] at clock reading 7. *)
Definition udp_dns_feature : MlProcessor.ml_feature :=
  {| MlProcessor.src_ip := 0x0A000001; MlProcessor.dst_ip := 0x0A000002;
     MlProcessor.src_port := 40000; MlProcessor.dst_port := 53;
     MlProcessor.protocol := 17; MlProcessor.pkt_len := 142;
     MlProcessor.tcp_flags := 0; MlProcessor.payload_len := 100;
     MlProcessor.flow_hash := 735494125255659777; MlProcessor.timestamp := 7;
     MlProcessor.traffic_class := 2; MlProcessor.direction := 1;
     MlProcessor.packet_entropy := 0; MlProcessor.inter_arrival_time := 0;
     MlProcessor.window_size := 0; MlProcessor.ttl := 64 |}.

Definition udp_dns_short_feature : MlProcessor.ml_feature :=
  {| MlProcessor.src_ip := 0x0A000001; MlProcessor.dst_ip := 0x0A000002;
     MlProcessor.src_port := 40000; MlProcessor.dst_port := 53;
     MlProcessor.protocol := 17; MlProcessor.pkt_len := 46;
     MlProcessor.tcp_flags := 0; MlProcessor.payload_len := 4;
     MlProcessor.flow_hash := 735494125255659777; MlProcessor.timestamp := 7;
     MlProcessor.traffic_class := 2; MlProcessor.direction := 1;
     MlProcessor.packet_entropy := 0; MlProcessor.inter_arrival_time := 0;
     MlProcessor.window_size := 0; MlProcessor.ttl := 9 |}.

Definition tcp_syn_feature : MlProcessor.ml_feature :=
  {| MlProcessor.src_ip := 0x0A000001; MlProcessor.dst_ip := 0x0A000002;
     MlProcessor.src_port := 49152; MlProcessor.dst_port := 49152;
     MlProcessor.protocol := 6; MlProcessor.pkt_len := 54;
     MlProcessor.tcp_flags := 2; MlProcessor.payload_len := 0;
     MlProcessor.flow_hash := 14555634007640376833; MlProcessor.timestamp := 7;
     MlProcessor.traffic_class := 0; MlProcessor.direction := 0;
     MlProcessor.packet_entropy := 0; MlProcessor.inter_arrival_time := 0;
     MlProcessor.window_size := 65535; MlProcessor.ttl := 64 |}.

Definition icmp_echo_feature : MlProcessor.ml_feature :=
  {| MlProcessor.src_ip := 0x0A000001; MlProcessor.dst_ip := 0x0A000002;
     MlProcessor.src_port := 0; MlProcessor.dst_port := 0;
     MlProcessor.protocol := 1; MlProcessor.pkt_len := 42;
     MlProcessor.tcp_flags := 0; MlProcessor.payload_len := 8;
     MlProcessor.flow_hash := 720575949136986369; MlProcessor.timestamp := 7;
     MlProcessor.traffic_class := 1; MlProcessor.direction := 0;
     MlProcessor.packet_entropy := 0; MlProcessor.inter_arrival_time := 0;
     MlProcessor.window_size := 0; MlProcessor.ttl := 64 |}.

(** What the baseline makes of [udp_dns] at clock reading 7: addresses
    and ports as a little-endian host loads them from the wire. *)
Definition udp_dns_baseline_feature : Baseline.feature_t :=
  {| Baseline.src_ip := 0x0100000A; Baseline.dst_ip := 0x0200000A;
     Baseline.src_port := 0x409C; Baseline.dst_port := 0x3500;
     Baseline.pkt_len := 128; Baseline.timestamp := 7 |}.

Definition zero_stats : MlProcessor.stats_record :=
  MlProcessor.mk_stats 0 0 0 0 0 0 0.

(** The kernel side of the rings: it takes the first address off the fill
    ring, writes a frame of [n] bytes there and publishes the descriptor on
    the RX ring. *)
Definition kernel_rx (n : Z) (x : MlProcessor.xsk_socket_info)
  : MlProcessor.xsk_socket_info :=
  match MlProcessor.fq x with
  | [] => x
  | a :: rest =>
    {| MlProcessor.rx := MlProcessor.rx x ++ [MlProcessor.mk_desc a n];
       MlProcessor.fq := rest;
       MlProcessor.fq_size := MlProcessor.fq_size x;
       MlProcessor.umem_buffer := MlProcessor.umem_buffer x;
       MlProcessor.umem_frame_addr := MlProcessor.umem_frame_addr x;
       MlProcessor.umem_frame_free := MlProcessor.umem_frame_free x;
       MlProcessor.stats := MlProcessor.stats x |}
  end.

Definition quiet_callback (_ : list MlProcessor.ml_feature)
    (_ : MlProcessor.ml_feature) : Z := 0.

Definition clock (n : nat) : Z := 1000 * Z.of_nat n.

End Samples.


(** ** Statements about runs of the classifier *)

Module ClassifierSpec.
Import Wire XdpPreproc.

(** The three packet counters are 64-bit values with
    total = udp + dropped modulo 2^64. *)
Definition balanced (stats : list Z) : Prop :=
  exists total udp dropped,
    stats !! STAT_PACKETS_TOTAL = Some total /\
    stats !! STAT_PACKETS_UDP = Some udp /\
    stats !! STAT_PACKETS_DROPPED = Some dropped /\
    0 <= total < 2 ^ 64 /\ 0 <= udp < 2 ^ 64 /\ 0 <= dropped < 2 ^ 64 /\
    wrap64 total = wrap64 (udp + dropped).

(** The frame passes the three parsing steps. *)
Definition parses (frame : list byte) : bool :=
  wf_ipv4 frame && is_udp frame && udp_complete frame.

(** The record the program builds from a frame it accepts. *)
Definition feature_of (start_time : Z) (frame : list byte) : feature :=
  let l4 := 14 + ip_ihl frame 14 * 4 in
  mk_feature (ip_saddr frame 14) (ip_daddr frame 14)
             (l4_source frame l4) (l4_dest frame l4)
             (be16 frame 16) start_time.

Definition arrival_feature (a : arrival) : feature :=
  feature_of (a_start a) (a_frame a).

Definition arrival_parses (a : arrival) : bool := parses (a_frame a).

(** The ring buffer never holds more than its capacity. *)
Definition ring_ok (rb : ringbuf) : Prop :=
  (length (rb_records rb) <= rb_capacity rb)%nat.

(** The record of the baseline with the same fields. *)
Definition to_feature_t (f : feature) : Baseline.feature_t :=
  Baseline.mk_feature_t (src_ip f) (dst_ip f) (src_port f) (dst_port f)
                        (pkt_len f) (timestamp f).

End ClassifierSpec.

(** ** The loop of the baseline, [benchmarks/baseline.c] *)

Module BaselineLoop.
Import Wire.

(** [perf_stats_t] of [include/feature.h] *)
Record perf_stats_t := mk_perf_stats {
  packets_processed : Z;
  packets_dropped : Z;
  total_processing_time_ns : Z;
  min_processing_time_ns : Z;
  max_processing_time_ns : Z;
  start_time_ns : Z;
  end_time_ns : Z
}.

Definition UINT64_MAX : Z := 2 ^ 64 - 1.

(** [now] is the reading of [get_time_ns]. *)
Definition init_stats (now : Z) : perf_stats_t :=
  {| packets_processed := 0; packets_dropped := 0;
     total_processing_time_ns := 0;
     min_processing_time_ns := UINT64_MAX;
     max_processing_time_ns := 0;
     start_time_ns := now; end_time_ns := 0 |}.

Definition update_stats (stats : perf_stats_t) (processing_time_ns : Z)
  : perf_stats_t :=
  let min :=
    if processing_time_ns <? min_processing_time_ns stats
    then processing_time_ns else min_processing_time_ns stats in
  let max :=
    if processing_time_ns >? max_processing_time_ns stats
    then processing_time_ns else max_processing_time_ns stats in
  {| packets_processed := incr64 (packets_processed stats);
     packets_dropped := packets_dropped stats;
     total_processing_time_ns :=
       wrap64 (total_processing_time_ns stats + processing_time_ns);
     min_processing_time_ns := min;
     max_processing_time_ns := max;
     start_time_ns := start_time_ns stats;
     end_time_ns := end_time_ns stats |}.

Definition drop_packet (stats : perf_stats_t) : perf_stats_t :=
  {| packets_processed := packets_processed stats;
     packets_dropped := incr64 (packets_dropped stats);
     total_processing_time_ns := total_processing_time_ns stats;
     min_processing_time_ns := min_processing_time_ns stats;
     max_processing_time_ns := max_processing_time_ns stats;
     start_time_ns := start_time_ns stats;
     end_time_ns := end_time_ns stats |}.

(** What one call of [recv] gives the loop: a failure (interrupted by a
    signal or not), or [len] bytes in the buffer, with the three clock
    readings the iteration takes. *)
Inductive recv_event :=
| Recv_failed (eintr : bool)
| Recv_packet (buffer : list byte) (len : Z) (t_start t_stamp t_end : Z).

(** The body of the [while] loop of [main]; [None] is [break]. *)
Definition main_loop_body (ev : recv_event) (stats : perf_stats_t)
  : option perf_stats_t :=
  match ev with
  | Recv_failed true => None
  | Recv_failed false => Some (drop_packet stats)
  | Recv_packet buffer len t_start t_stamp t_end =>
    match Baseline.parse_ethernet buffer len with
    | None => Some (drop_packet stats)
    | Some eth_offset =>
      match Baseline.parse_ip_udp t_stamp buffer len eth_offset with
      | None => Some (drop_packet stats)
      | Some feature => Some (update_stats stats (wrap64 (t_end - t_start)))
      end
    end
  end.

(** The loop over the calls of [recv] made while [running] is set. *)
Fixpoint main_loop (events : list recv_event) (stats : perf_stats_t)
  : perf_stats_t :=
  match events with
  | [] => stats
  | ev :: rest =>
    match main_loop_body ev stats with
    | None => stats
    | Some stats' => main_loop rest stats'
    end
  end.

(** *** Vocabulary of the statements *)

(** The calls of [recv] the loop gets through: those before the first
    interruption. *)
Fixpoint handled (events : list recv_event) : list recv_event :=
  match events with
  | [] => []
  | Recv_failed true :: _ => []
  | ev :: rest => ev :: handled rest
  end.

(** The call of [recv] delivers a packet the baseline turns into a record. *)
Definition yields_feature (ev : recv_event) : bool :=
  match ev with
  | Recv_failed _ => false
  | Recv_packet buffer len _ t_stamp _ =>
    bool_decide (is_Some (Baseline.received_feature t_stamp buffer len))
  end.

Definition duration (ev : recv_event) : Z :=
  match ev with
  | Recv_failed _ => 0
  | Recv_packet _ _ t_start _ t_end => wrap64 (t_end - t_start)
  end.

End BaselineLoop.

(** ** Statements about the processing loop *)

Module DrainerSpec.
Import MlProcessor.

(** [g] was stamped no earlier than [f]. *)
Definition by_timestamp (f g : ml_feature) : Prop :=
  timestamp f <= timestamp g.

End DrainerSpec.

(** ** The helpers of [include/feature.h] *)

Module FeatureH.
Import Wire.

(** [get_time_ns] from the [struct timespec] that [clock_gettime] filled
    in: [(uint64_t)ts.tv_sec * 1000000000ULL + ts.tv_nsec]. *)
Definition get_time_ns (tv_sec tv_nsec : Z) : Z :=
  wrap64 (wrap64 (wrap64 tv_sec * 1000000000) + wrap64 tv_nsec).

(** [sprintf(str, "%d.%d.%d.%d", ...)] *)
Definition dotted (a b c d : Z) : string :=
  pretty a +:+ "." +:+ pretty b +:+ "." +:+ pretty c +:+ "." +:+ pretty d.

Definition ip_to_str (ip : Z) : string :=
  dotted (Z.land (Z.shiftr ip 24) 0xFF)
         (Z.land (Z.shiftr ip 16) 0xFF)
         (Z.land (Z.shiftr ip 8) 0xFF)
         (Z.land ip 0xFF).

End FeatureH.

(** ** The example callback of the AF_XDP processor *)

Module MlExample.
Import Wire MlProcessor.

(** [ip_to_str] of the processor: the low byte is printed first. *)
Definition ip_to_str (ip : Z) : string :=
  FeatureH.dotted (Z.land ip 0xFF)
                  (Z.land (Z.shiftr ip 8) 0xFF)
                  (Z.land (Z.shiftr ip 16) 0xFF)
                  (Z.land (Z.shiftr ip 24) 0xFF).

(** The line [example_ml_processor] prints for packet number [n]. *)
Definition report_line (n : Z) (feature : ml_feature) (is_anomaly : bool)
  : string :=
  "[ML] Packet #" +:+ pretty n +:+ ": "
  +:+ ip_to_str (src_ip feature) +:+ ":" +:+ pretty (src_port feature)
  +:+ " -> "
  +:+ ip_to_str (dst_ip feature) +:+ ":" +:+ pretty (dst_port feature)
  +:+ ", proto=" +:+ pretty (protocol feature)
  +:+ ", len=" +:+ pretty (pkt_len feature)
  +:+ ", entropy=" +:+ pretty (packet_entropy feature)
  +:+ ", class=" +:+ pretty (traffic_class feature)
  +:+ " " +:+ (if is_anomaly then "[ANOMALY]" else EmptyString)
  +:+ String (Ascii.ascii_of_nat 10) EmptyString.

(** [packet_count] is the [static] counter; the result is the return value,
    the new counter and the line printed, if any. *)
Definition example_ml_processor (packet_count : Z) (feature : ml_feature)
  : Z * Z * option string :=
  let packet_count := incr64 packet_count in
  let is_anomaly := false in
  let is_anomaly := if packet_entropy feature >? 200 then true else is_anomaly in
  let is_anomaly := if traffic_class feature =? 1 then true else is_anomaly in
  let is_anomaly :=
    if (pkt_len feature >? 1400) && (packet_entropy feature <? 50)
    then true else is_anomaly in
  let printed :=
    if is_anomaly || (packet_count mod 100 =? 0)
    then Some (report_line packet_count feature is_anomaly)
    else None in
  (if is_anomaly then 1 else 0, packet_count, printed).

End MlExample.

(** ** The sampling classifier, [xdp_ml_filter.c] *)

Module XdpMlFilter.
Import Wire.

(** [struct ml_config] *)
Record ml_config := mk_ml_config {
  sampling_rate : Z;
  max_ml_rate : Z;
  filter_mask : Z;
  queue_id : Z
}.

(** The state the program keeps between packets: [stats_map], the slot of
    [config_map] ([None] when the lookup yields NULL) and the [static]
    counter of [should_sample]. *)
Record ml_maps := mk_ml_maps {
  stats_map : list Z;
  config_map : option ml_config;
  counter : Z
}.

Definition STAT_TOTAL_PACKETS : nat := 0.
Definition STAT_FILTERED_PACKETS : nat := 1.
Definition STAT_SAMPLED_PACKETS : nat := 2.
Definition STAT_ML_PACKETS : nat := 3.
Definition STAT_DROPPED_PACKETS : nat := 4.
Definition STAT_TCP_PACKETS : nat := 5.
Definition STAT_UDP_PACKETS : nat := 6.
Definition STAT_PROCESSING_TIME : nat := 7.

Definition FLOW_NORMAL : Z := 0.
Definition FLOW_SUSPICIOUS : Z := 1.
Definition FLOW_PRIORITY : Z := 2.

Definition update_stat (key : nat) (value : Z) (stats : list Z) : list Z :=
  match stats !! key with
  | Some existing => <[key := wrap64 (existing + value)]> stats
  | None => stats
  end.

Definition classify_traffic (src_ip dst_ip src_port dst_port proto : Z) : Z :=
  if (src_port =? 22) || (dst_port =? 22) ||
     (src_port =? 53) || (dst_port =? 53) ||
     (src_port =? 80) || (dst_port =? 80) ||
     (src_port =? 443) || (dst_port =? 443) then FLOW_PRIORITY
  else if ((src_port >? 49152) && (dst_port >? 49152)) ||
          (negb (proto =? IPPROTO_TCP) && negb (proto =? IPPROTO_UDP))
       then FLOW_SUSPICIOUS
       else FLOW_NORMAL.

(** Returns the decision and the new value of the counter.  The remainder
    is the one of the BPF instruction: by 0 it is the dividend itself. *)
Definition should_sample (sampling_rate : Z) (counter : Z) : bool * Z :=
  let counter := wrap32 (counter + 1) in
  ((if sampling_rate =? 0 then counter else counter mod sampling_rate) =? 0,
   counter).

Definition parse_ethernet (mem : list byte) (data data_end : Z) : option Z :=
  let eth := data in
  if data + sizeof_ethhdr >? data_end then None
  else if negb (eth_h_proto mem eth =? htons ETH_P_IP) then None
  else Some (data + sizeof_ethhdr).

(** Returns [(next_hdr, src_ip, dst_ip, proto, total_len)]. *)
Definition parse_ip (mem : list byte) (data data_end : Z)
  : option (Z * Z * Z * Z * Z) :=
  let ip := data in
  if data + sizeof_iphdr >? data_end then None
  else if negb (ip_version mem ip =? 4) then None
  else Some (data + ip_ihl mem ip * 4,
             ip_saddr mem ip, ip_daddr mem ip, ip_protocol mem ip,
             ntohs (ip_tot_len mem ip)).

(** Returns [(src_port, dst_port, tcp_flags)]. *)
Definition parse_transport (mem : list byte) (data data_end proto : Z)
  : option (Z * Z * Z) :=
  if proto =? IPPROTO_TCP then
    let tcp := data in
    if data + sizeof_tcphdr >? data_end then None
    else Some (ntohs (l4_source mem tcp), ntohs (l4_dest mem tcp),
               byte_at mem (tcp + 13))
  else if proto =? IPPROTO_UDP then
    let udp := data in
    if data + sizeof_udphdr >? data_end then None
    else Some (ntohs (l4_source mem udp), ntohs (l4_dest mem udp), 0)
  else None.

Definition stat_add (key : nat) (value : Z) (m : ml_maps) : ml_maps :=
  mk_ml_maps (update_stat key value (stats_map m)) (config_map m) (counter m).

Section Program.

(** [bpf_redirect_map(&xsks_map, key, flags)]: the code the helper returns
    for a queue id, which depends on the sockets bound to [xsks_map]. *)
Variable bpf_redirect_map : Z -> Z -> XdpPreproc.xdp_action.

Definition xdp_ml_packet_processor (start_time end_time : Z) (ctx : list byte)
    (m : ml_maps) : XdpPreproc.xdp_action * ml_maps :=
  let data := 0 in
  let data_end := Z.of_nat (length ctx) in
  let m := stat_add STAT_TOTAL_PACKETS 1 m in
  match parse_ethernet ctx data data_end with
  | None => (XdpPreproc.XDP_PASS, stat_add STAT_DROPPED_PACKETS 1 m)
  | Some next_hdr =>
    match parse_ip ctx next_hdr data_end with
    | None => (XdpPreproc.XDP_PASS, stat_add STAT_DROPPED_PACKETS 1 m)
    | Some (next_hdr, src_ip, dst_ip, protocol, total_len) =>
      match parse_transport ctx next_hdr data_end protocol with
      | None => (XdpPreproc.XDP_PASS, stat_add STAT_DROPPED_PACKETS 1 m)
      | Some (src_port, dst_port, tcp_flags) =>
        let m :=
          if protocol =? IPPROTO_TCP then stat_add STAT_TCP_PACKETS 1 m
          else if protocol =? IPPROTO_UDP then stat_add STAT_UDP_PACKETS 1 m
          else m in
        let m := stat_add STAT_FILTERED_PACKETS 1 m in
        let config := config_map m in
        let rate :=
          match config with Some c => sampling_rate c | None => 100 end in
        let '(sample, n) := should_sample rate (counter m) in
        let m := mk_ml_maps (stats_map m) (config_map m) n in
        let processing_time := wrap64 (end_time - start_time) in
        if negb sample
        then (XdpPreproc.XDP_PASS, stat_add STAT_PROCESSING_TIME processing_time m)
        else
          let m := stat_add STAT_SAMPLED_PACKETS 1 m in
          let traffic_class :=
            classify_traffic src_ip dst_ip src_port dst_port protocol in
          if (traffic_class =? FLOW_PRIORITY) || (traffic_class =? FLOW_SUSPICIOUS)
          then
            let m := stat_add STAT_ML_PACKETS 1 m in
            let queue :=
              match config with Some c => queue_id c | None => 0 end in
            match bpf_redirect_map queue 0 with
            | XdpPreproc.XDP_REDIRECT =>
              (XdpPreproc.XDP_REDIRECT,
               stat_add STAT_PROCESSING_TIME processing_time m)
            | _ =>
              (XdpPreproc.XDP_PASS,
               stat_add STAT_PROCESSING_TIME processing_time m)
            end
          else (XdpPreproc.XDP_PASS,
                stat_add STAT_PROCESSING_TIME processing_time m)
      end
    end
  end.

(** A sequence of invocations: the verdicts, in order, and the final maps. *)
Fixpoint run (arrivals : list XdpPreproc.arrival) (m : ml_maps)
  : list XdpPreproc.xdp_action * ml_maps :=
  match arrivals with
  | [] => ([], m)
  | a :: rest =>
    let '(verdict, m) :=
      xdp_ml_packet_processor (XdpPreproc.a_start a) (XdpPreproc.a_end a)
                              (XdpPreproc.a_frame a) m in
    let '(verdicts, m) := run rest m in
    (verdict :: verdicts, m)
  end.

End Program.

(** *** Vocabulary of the statements *)

(** The three parsers in sequence:
    [(src_ip, dst_ip, src_port, dst_port, protocol)] of a frame the program
    does not count as dropped. *)
Definition parsed (ctx : list byte) : option (Z * Z * Z * Z * Z) :=
  let data_end := Z.of_nat (length ctx) in
  match parse_ethernet ctx 0 data_end with
  | None => None
  | Some next_hdr =>
    match parse_ip ctx next_hdr data_end with
    | None => None
    | Some (next_hdr, src_ip, dst_ip, protocol, _) =>
      match parse_transport ctx next_hdr data_end protocol with
      | None => None
      | Some (src_port, dst_port, _) =>
        Some (src_ip, dst_ip, src_port, dst_port, protocol)
      end
    end
  end.

(** The rate and the queue the program uses for a configuration slot. *)
Definition rate_of (config : option ml_config) : Z :=
  match config with Some c => sampling_rate c | None => 100 end.

Definition queue_of (config : option ml_config) : Z :=
  match config with Some c => queue_id c | None => 0 end.

(** The decisions of [n] calls of [should_sample] in a row. *)
Fixpoint sample_calls (rate : Z) (n : nat) (counter : Z) : list bool :=
  match n with
  | O => []
  | S n =>
    let '(decision, counter) := should_sample rate counter in
    decision :: sample_calls rate n counter
  end.

(** The accounting identities between the counters, modulo 2^64. *)
Definition books_balance (stats : list Z) : Prop :=
  exists total filtered dropped tcp udp,
    stats !! STAT_TOTAL_PACKETS = Some total /\
    stats !! STAT_FILTERED_PACKETS = Some filtered /\
    stats !! STAT_DROPPED_PACKETS = Some dropped /\
    stats !! STAT_TCP_PACKETS = Some tcp /\
    stats !! STAT_UDP_PACKETS = Some udp /\
    wrap64 total = wrap64 (dropped + filtered) /\
    wrap64 filtered = wrap64 (tcp + udp).

End XdpMlFilter.

(** ** More sample states *)

Module MoreSamples.
Import Wire MlProcessor.

(** A UMEM frame of 4096 bytes that starts with [bytes]. *)
Definition in_frame (bytes : list byte) : list byte :=
  bytes ++ replicate (4096 - length bytes) x00.

(** The first three frames of a UMEM: [udp_dns] in the frame at address 0,
    an ARP request at 4096 and [tcp_syn] at 8192. *)
Definition umem_three : list byte :=
  in_frame Samples.udp_dns ++ in_frame Samples.arp_request
  ++ in_frame Samples.tcp_syn.

(** Start-up over that UMEM when the fill ring has twice 4096 slots. *)
Definition roomy_start : option xsk_socket_info :=
  configure_xsk_socket 4096 (xsk_umem__create (2 * NUM_FRAMES) umem_three xsk_info_zero).

(** The processor after that start-up, when the kernel has delivered the
    three frames. *)
Definition three_frames : world :=
  {| xsk := match roomy_start with
            | Some x =>
              Samples.kernel_rx 54 (Samples.kernel_rx 42 (Samples.kernel_rx 142 x))
            | None => xsk_info_zero
            end;
     ticks := 0;
     ml_calls := [] |}.

(** UDP 10.1.0.1:40001 -> 10.0.0.2:53: another host and another port than
    [udp_dns], same length. *)
Definition udp_dns_twin : list byte :=
  bytes_of (Samples.eth_ipv4
    ++ [0x45; 0; 0; 128;  0; 0; 0; 0;  64; 17; 0; 0;  10; 1; 0; 1;  10; 0; 0; 2]
    ++ [0x9C; 0x41;  0; 53;  0; 108;  0; 0]
    ++ repeat 0x41 100).

(** What [extract_ml_features] makes of [udp_dns_twin] at clock reading 9. *)
Definition udp_dns_twin_feature : ml_feature :=
  {| src_ip := 0x0A010001; dst_ip := 0x0A000002; src_port := 40001;
     dst_port := 53; protocol := 17; pkt_len := 142; tcp_flags := 0;
     payload_len := 100; flow_hash := 735494125255659777; timestamp := 9;
     traffic_class := 2; direction := 1; packet_entropy := 0;
     inter_arrival_time := 0; window_size := 0; ttl := 64 |}.

(** The maps of the sampling classifier when the program is attached:
    array maps start zero-filled, so sixteen counters at 0 and a
    configuration slot of zeros; the sampling counter is at 0. *)
Definition filter_boot : XdpMlFilter.ml_maps :=
  XdpMlFilter.mk_ml_maps (replicate 16 0)
    (Some (XdpMlFilter.mk_ml_config 0 0 0 0)) 0.

(** An [xsks_map] with a socket bound to every queue. *)
Definition always_redirect (_ _ : Z) : XdpPreproc.xdp_action :=
  XdpPreproc.XDP_REDIRECT.

Definition mixed_traffic : list XdpPreproc.arrival :=
  [XdpPreproc.mk_arrival 100 150 Samples.udp_dns;
   XdpPreproc.mk_arrival 200 230 Samples.tcp_syn;
   XdpPreproc.mk_arrival 300 310 Samples.icmp_echo;
   XdpPreproc.mk_arrival 400 405 Samples.arp_request].

End MoreSamples.


(** * Properties *)

(** Boolean tests of the C code turned into arithmetic facts. *)
Ltac unbool :=
  repeat match goal with
  | H : negb _ = true |- _ => apply negb_true_iff in H
  | H : negb _ = false |- _ => apply negb_false_iff in H
  | H : _ && _ = true |- _ => apply andb_true_iff in H; destruct H
  | H : _ || _ = false |- _ => apply orb_false_iff in H; destruct H
  | H : _ && _ = false |- _ => apply andb_false_iff in H
  | H : _ || _ = true |- _ => apply orb_true_iff in H
  | H : (_ <=? _) = true |- _ => apply Z.leb_le in H
  | H : (_ <=? _) = false |- _ => apply Z.leb_gt in H
  | H : (_ <? _) = true |- _ => apply Z.ltb_lt in H
  | H : (_ <? _) = false |- _ => apply Z.ltb_ge in H
  | H : (_ >? _) = _ |- _ => rewrite Z.gtb_ltb in H
  | H : (_ =? _) = true |- _ => apply Z.eqb_eq in H
  | H : (_ =? _) = false |- _ => apply Z.eqb_neq in H
  end.

Ltac bool_crush := unbool; intuition (try lia; try congruence).

(** ** Facts about the wire helpers *)

Module WireFacts.
Import Wire.

Lemma byte_at_range mem off : 0 <= byte_at mem off < 256.
Proof.
  unfold byte_at. destruct (off <? 0); [lia|].
  destruct (mem !! Z.to_nat off) as [b|]; [|lia].
  pose proof (Byte.to_N_bounded b). lia.
Qed.

Lemma wrap64_range x : 0 <= wrap64 x < 2 ^ 64.
Proof. unfold wrap64. apply Z.mod_pos_bound. lia. Qed.

Lemma wrap64_small x : 0 <= x < 2 ^ 64 -> wrap64 x = x.
Proof. intros H. unfold wrap64. apply Z.mod_small. exact H. Qed.

Lemma wrap16_small x : 0 <= x < 2 ^ 16 -> wrap16 x = x.
Proof. intros H. unfold wrap16. apply Z.mod_small. exact H. Qed.

(** Converting a field the host loaded gives the number the sender wrote. *)
Lemma ntohs_load16 mem off : ntohs (load16 mem off) = be16 mem off.
Proof.
  unfold ntohs, bswap16, load16, be16.
  pose proof (byte_at_range mem off). pose proof (byte_at_range mem (off + 1)).
  change (2 ^ 8) with 256.
  Z.div_mod_to_equations. lia.
Qed.

Lemma ntohl_load32 mem off : ntohl (load32 mem off) = be32 mem off.
Proof.
  unfold ntohl, bswap32, load32, be32.
  pose proof (byte_at_range mem off). pose proof (byte_at_range mem (off + 1)).
  pose proof (byte_at_range mem (off + 2)). pose proof (byte_at_range mem (off + 3)).
  change (2 ^ 8) with 256. change (2 ^ 16) with 65536. change (2 ^ 24) with 16777216.
  Z.div_mod_to_equations. lia.
Qed.

(** The classifier compares the loaded ethertype with [htons ETH_P_IP]. *)
Lemma load16_is_htons mem off :
  (load16 mem off =? htons ETH_P_IP) = (be16 mem off =? ETH_P_IP).
Proof.
  change (htons ETH_P_IP) with 8. unfold ETH_P_IP, load16, be16.
  pose proof (byte_at_range mem off). pose proof (byte_at_range mem (off + 1)).
  destruct (Z.eqb_spec (byte_at mem off + 2 ^ 8 * byte_at mem (off + 1)) 8);
    destruct (Z.eqb_spec (2 ^ 8 * byte_at mem off + byte_at mem (off + 1)) 0x0800);
    try reflexivity; lia.
Qed.

Lemma ntohs_eth_proto pkt :
  (ntohs (eth_h_proto pkt 0) =? ETH_P_IP) = (be16 pkt 12 =? ETH_P_IP).
Proof. unfold eth_h_proto. rewrite ntohs_load16. reflexivity. Qed.

Lemma ip_ihl_range mem ip : 0 <= ip_ihl mem ip < 16.
Proof. unfold ip_ihl. apply Z.mod_pos_bound. lia. Qed.

Lemma tcp_doff_range mem tcp : 0 <= tcp_doff mem tcp < 16.
Proof.
  unfold tcp_doff. pose proof (byte_at_range mem (tcp + 12)).
  Z.div_mod_to_equations. lia.
Qed.

End WireFacts.

(** ** The classifier *)

Module XdpPreprocFacts.
Import Wire WireFacts XdpPreproc.

Section UpdateStat.
Variables (stats : list Z) (index : nat) (value : Z).

Lemma update_stat_length : length (update_stat index value stats) = length stats.
Proof.
  unfold update_stat. destruct (stats !! index); [apply length_insert | reflexivity].
Qed.

Lemma update_stat_eq old :
  stats !! index = Some old ->
  update_stat index value stats !! index = Some (wrap64 (old + value)).
Proof.
  intros Hold. unfold update_stat. rewrite Hold.
  apply list_lookup_insert_eq. eapply lookup_lt_Some, Hold.
Qed.

Lemma update_stat_ne j :
  index <> j -> update_stat index value stats !! j = stats !! j.
Proof.
  intros Hne. unfold update_stat.
  destruct (stats !! index); [by apply list_lookup_insert_ne | reflexivity].
Qed.

End UpdateStat.

(** The outcome of an invocation: a frame that is not accepted is passed
    and counted as dropped; an accepted one is passed, recorded, and
    counted as UDP. *)
Lemma xdp_packet_processor_rejects t0 t1 frame m :
  accepted frame (feature_rb m) = false ->
  xdp_packet_processor t0 t1 frame m = (XDP_PASS, dropped_maps m).
Proof.
  unfold accepted, wf_ipv4, is_udp, udp_complete, dropped_maps.
  unfold xdp_packet_processor, parse_ethernet, parse_ipv4, parse_udp, eth_h_proto.
  rewrite load16_is_htons. cbn [stat_add feature_rb].
  unfold sizeof_ethhdr, sizeof_iphdr, sizeof_udphdr, IPPROTO_UDP, ETH_P_IP.
  intros Hacc.
  repeat match goal with
         | |- context [if ?b then _ else _] => destruct b eqn:?; cbn [negb orb andb] in *
         | |- context [negb ?b] => destruct b eqn:?; cbn [negb orb andb] in *
         end; try reflexivity.
  exfalso. change (0 + 14) with 14 in *. change (0 + 12) with 12 in *.
  bool_crush.
Qed.

Lemma xdp_packet_processor_accepts t0 t1 frame m :
  accepted frame (feature_rb m) = true ->
  xdp_packet_processor t0 t1 frame m = (XDP_PASS, accepted_maps t0 t1 frame m).
Proof.
  unfold accepted, wf_ipv4, is_udp, udp_complete, accepted_maps.
  unfold xdp_packet_processor, parse_ethernet, parse_ipv4, parse_udp, eth_h_proto.
  rewrite load16_is_htons. cbn [stat_add feature_rb].
  unfold sizeof_ethhdr, sizeof_iphdr, sizeof_udphdr, IPPROTO_UDP, ETH_P_IP.
  change (0 + 14) with 14. change (0 + 12) with 12.
  intros Hacc.
  repeat match goal with
         | |- context [if ?b then _ else _] => destruct b eqn:?; cbn [negb orb andb] in *
         end;
    try (unfold ip_tot_len; rewrite ntohs_load16; reflexivity);
    exfalso; bool_crush.
Qed.

Lemma malformed_not_accepted frame rb :
  malformed frame = true -> accepted frame rb = false.
Proof.
  unfold malformed, accepted, wf_ipv4, udp_complete, is_udp.
  unfold sizeof_ethhdr, sizeof_iphdr, sizeof_udphdr, IPPROTO_UDP, ETH_P_IP.
  intros Hm. apply not_true_is_false. intros Hacc. bool_crush.
Qed.

Lemma ring_full_not_accepted frame rb :
  bpf_ringbuf_reserve rb = false -> accepted frame rb = false.
Proof. intros Hfull. unfold accepted. rewrite Hfull. apply andb_false_r. Qed.

Lemma not_udp_not_accepted frame rb :
  is_udp frame = false -> accepted frame rb = false.
Proof.
  intros Hudp. unfold accepted. rewrite Hudp.
  rewrite andb_false_r. reflexivity.
Qed.

Lemma dropped_maps_dropped m dropped :
  stats_map m !! STAT_PACKETS_DROPPED = Some dropped ->
  stats_map (dropped_maps m) !! STAT_PACKETS_DROPPED = Some (incr64 dropped).
Proof.
  intros Hd. unfold dropped_maps. cbn [stat_add stats_map].
  apply update_stat_eq. rewrite update_stat_ne by discriminate. exact Hd.
Qed.

Lemma dropped_maps_other m i :
  i <> STAT_PACKETS_TOTAL -> i <> STAT_PACKETS_DROPPED ->
  stats_map (dropped_maps m) !! i = stats_map m !! i.
Proof.
  intros H0 H2. unfold dropped_maps. cbn [stat_add stats_map].
  rewrite !update_stat_ne by congruence. reflexivity.
Qed.

Lemma accepted_maps_udp t0 t1 frame m udp :
  stats_map m !! STAT_PACKETS_UDP = Some udp ->
  stats_map (accepted_maps t0 t1 frame m) !! STAT_PACKETS_UDP
  = Some (incr64 udp).
Proof.
  intros Hu. unfold accepted_maps. cbn [stat_add stats_map].
  rewrite update_stat_ne by discriminate.
  apply update_stat_eq. rewrite update_stat_ne by discriminate. exact Hu.
Qed.

Lemma accepted_maps_dropped t0 t1 frame m :
  stats_map (accepted_maps t0 t1 frame m) !! STAT_PACKETS_DROPPED
  = stats_map m !! STAT_PACKETS_DROPPED.
Proof.
  unfold accepted_maps. cbn [stat_add stats_map].
  rewrite !update_stat_ne by discriminate. reflexivity.
Qed.

Lemma max_delta_nonneg i a : 0 <= max_delta i a.
Proof.
  unfold max_delta. destruct (Nat.eqb i STAT_PROCESSING_TIME); [|lia].
  apply wrap64_range.
Qed.

Lemma budget_nonneg i arrivals : 0 <= budget i arrivals.
Proof.
  induction arrivals as [|a rest IH]; cbn [budget]; [lia|].
  pose proof (max_delta_nonneg i a). lia.
Qed.

Lemma update_stat_lookup stats i v j old :
  stats !! j = Some old ->
  update_stat i v stats !! j
  = Some (if Nat.eqb i j then wrap64 (old + v) else old).
Proof.
  intros Hold. destruct (Nat.eqb_spec i j) as [->|Hne].
  - by apply update_stat_eq.
  - rewrite update_stat_ne by exact Hne. exact Hold.
Qed.

(** One invocation moves a counter up by at most [max_delta], as long as
    the 64-bit addition does not wrap. *)
Lemma step_counter a m i old :
  stats_map m !! i = Some old ->
  0 <= old -> old + max_delta i a < 2 ^ 64 ->
  exists new,
    stats_map (xdp_packet_processor (a_start a) (a_end a) (a_frame a) m).2 !! i
    = Some new /\ old <= new <= old + max_delta i a.
Proof.
  intros Hold Hpos Hroom.
  pose proof (wrap64_range (a_end a - a_start a)) as Hdt.
  destruct (accepted (a_frame a) (feature_rb m)) eqn:Hacc.
  - rewrite xdp_packet_processor_accepts by exact Hacc.
    unfold accepted_maps. cbn [snd stat_add stats_map].
    pose proof (update_stat_lookup _ STAT_PACKETS_TOTAL 1 _ _ Hold) as H1.
    pose proof (update_stat_lookup _ STAT_PACKETS_UDP 1 _ _ H1) as H2.
    rewrite (update_stat_lookup _ STAT_PROCESSING_TIME _ _ _ H2).
    eexists. split; [reflexivity|].
    unfold max_delta in *.
    destruct i as [|[|[|[|i]]]]; cbn [Nat.eqb STAT_PROCESSING_TIME STAT_PACKETS_UDP
      STAT_PACKETS_TOTAL] in *; rewrite ?wrap64_small by lia; lia.
  - rewrite xdp_packet_processor_rejects by exact Hacc.
    unfold dropped_maps. cbn [snd stat_add stats_map].
    pose proof (update_stat_lookup _ STAT_PACKETS_TOTAL 1 _ _ Hold) as H1.
    rewrite (update_stat_lookup _ STAT_PACKETS_DROPPED 1 _ _ H1).
    eexists. split; [reflexivity|].
    unfold max_delta in *.
    destruct i as [|[|[|[|i]]]]; cbn [Nat.eqb STAT_PROCESSING_TIME STAT_PACKETS_DROPPED
      STAT_PACKETS_TOTAL] in *; rewrite ?wrap64_small by lia; lia.
Qed.


(** C4. For every input frame the verdict of the classifier is [XDP_PASS],
    never [XDP_DROP]; and on a malformed frame (truncated Ethernet, IPv4 or
    UDP header, ethertype other than IPv4, version other than 4, [ihl]
    below 5) or when the ring buffer has no room, [dropped_packets] is
    incremented by exactly one (a 64-bit increment, which is the plain
    successor unless the counter holds the largest value). *)
Theorem classifier_always_passes t0 t1 frame m dropped :
  stats_map m !! STAT_PACKETS_DROPPED = Some dropped ->
  (xdp_packet_processor t0 t1 frame m).1 = XDP_PASS /\
  (malformed frame = true \/ bpf_ringbuf_reserve (feature_rb m) = false ->
   stats_map (xdp_packet_processor t0 t1 frame m).2 !! STAT_PACKETS_DROPPED
   = Some (incr64 dropped)
   /\ (0 <= dropped < 2 ^ 64 - 1 -> incr64 dropped = dropped + 1)).
Proof.
  intros Hd. split.
  - destruct (accepted frame (feature_rb m)) eqn:Hacc.
    + rewrite xdp_packet_processor_accepts by exact Hacc. reflexivity.
    + rewrite xdp_packet_processor_rejects by exact Hacc. reflexivity.
  - intros Hbad.
    assert (accepted frame (feature_rb m) = false) as Hacc.
    { destruct Hbad; [by apply malformed_not_accepted | by apply ring_full_not_accepted]. }
    rewrite xdp_packet_processor_rejects by exact Hacc. cbn [snd].
    split; [by apply dropped_maps_dropped |].
    intros Hr. apply wrap64_small. lia.
Qed.

(** An ARP request, and a UDP datagram that finds the ring buffer full, are
    passed and counted as dropped once. *)
Lemma classifier_always_passes_witness :
  malformed Samples.arp_request = true /\
  (xdp_packet_processor 0 0 Samples.arp_request Samples.empty_maps).1 = XDP_PASS /\
  stats_map (xdp_packet_processor 0 0 Samples.arp_request Samples.empty_maps).2
    !! STAT_PACKETS_DROPPED = Some 1 /\
  malformed Samples.udp_dns = false /\
  (xdp_packet_processor 0 0 Samples.udp_dns Samples.full_maps).1 = XDP_PASS /\
  stats_map (xdp_packet_processor 0 0 Samples.udp_dns Samples.full_maps).2
    !! STAT_PACKETS_DROPPED = Some 1.
Proof.
  destruct (classifier_always_passes 0 0 Samples.arp_request Samples.empty_maps 0)
    as [Hverdict Hdropped]; [reflexivity|].
  destruct (classifier_always_passes 0 0 Samples.udp_dns Samples.full_maps 0)
    as [Hverdict' Hdropped']; [reflexivity|].
  split; [reflexivity|]. split; [exact Hverdict|].
  split; [destruct Hdropped as [Hd _]; [left; reflexivity | exact Hd]|].
  split; [reflexivity|]. split; [exact Hverdict'|].
  destruct Hdropped' as [Hd _]; [right; reflexivity | exact Hd].
Defined.

(** C1, as the code has it.  The program keeps one protocol counter,
    [STAT_PACKETS_UDP].  For a well-formed IPv4 frame: a UDP datagram with a
    complete UDP header whose record is enqueued increments the UDP counter
    and leaves [dropped_packets] alone; a frame of any other IP protocol
    (TCP, ICMP, ...) increments [dropped_packets] and changes no counter
    besides it and the total. *)
Theorem only_udp_has_a_protocol_counter t0 t1 frame m udp dropped :
  stats_map m !! STAT_PACKETS_UDP = Some udp ->
  stats_map m !! STAT_PACKETS_DROPPED = Some dropped ->
  wf_ipv4 frame = true ->
  let m' := (xdp_packet_processor t0 t1 frame m).2 in
  (is_udp frame = true -> udp_complete frame = true ->
   bpf_ringbuf_reserve (feature_rb m) = true ->
   stats_map m' !! STAT_PACKETS_UDP = Some (incr64 udp) /\
   stats_map m' !! STAT_PACKETS_DROPPED = Some dropped) /\
  (is_udp frame = false ->
   stats_map m' !! STAT_PACKETS_DROPPED = Some (incr64 dropped) /\
   forall i, i <> STAT_PACKETS_TOTAL -> i <> STAT_PACKETS_DROPPED ->
             stats_map m' !! i = stats_map m !! i).
Proof.
  intros Hu Hd Hwf m'. subst m'. split.
  - intros Hudp Hcomplete Hroom.
    rewrite xdp_packet_processor_accepts
      by (unfold accepted; rewrite Hwf, Hudp, Hcomplete, Hroom; reflexivity).
    cbn [snd]. split; [by apply accepted_maps_udp |].
    rewrite accepted_maps_dropped. exact Hd.
  - intros Hudp.
    rewrite xdp_packet_processor_rejects by (by apply not_udp_not_accepted).
    cbn [snd]. split; [by apply dropped_maps_dropped |].
    intros i H0 H2. by apply dropped_maps_other.
Qed.

Lemma only_udp_has_a_protocol_counter_witness :
  wf_ipv4 Samples.udp_dns = true /\
  stats_map (xdp_packet_processor 100 150 Samples.udp_dns Samples.empty_maps).2
    !! STAT_PACKETS_UDP = Some 1 /\
  stats_map (xdp_packet_processor 100 150 Samples.udp_dns Samples.empty_maps).2
    !! STAT_PACKETS_DROPPED = Some 0.
Proof.
  destruct (only_udp_has_a_protocol_counter 100 150 Samples.udp_dns
              Samples.empty_maps 0 0) as [Hudp _];
    [reflexivity | reflexivity | reflexivity |].
  split; [reflexivity|].
  apply Hudp; reflexivity.
Defined.

(** C1 as stated fails: a well-formed TCP SYN and a well-formed ICMP echo
    request each leave the counters at total = 1, udp = 0, dropped = 1. *)
Lemma tcp_and_icmp_counted_as_dropped :
  wf_ipv4 Samples.tcp_syn = true /\
  ip_protocol Samples.tcp_syn 14 = IPPROTO_TCP /\
  stats_map (xdp_packet_processor 0 0 Samples.tcp_syn Samples.empty_maps).2
  = [1; 0; 1; 0] /\
  wf_ipv4 Samples.icmp_echo = true /\
  ip_protocol Samples.icmp_echo 14 = 1 /\
  stats_map (xdp_packet_processor 0 0 Samples.icmp_echo Samples.empty_maps).2
  = [1; 0; 1; 0].
Proof. vm_compute. repeat split. Qed.




(** A burst of frames that are not accepted moves the two counters it
    touches together, one step per frame. *)
Lemma run_rejected_burst a n : forall m total udp dropped time,
  accepted (a_frame a) (feature_rb m) = false ->
  stats_map m = [total; udp; dropped; time] ->
  stats_map (run (replicate n a) m)
  = [Nat.iter n incr64 total; udp; Nat.iter n incr64 dropped; time] /\
  feature_rb (run (replicate n a) m) = feature_rb m.
Proof.
  induction n as [|n IH]; intros m total udp dropped time Hrej Hstats.
  - cbn [replicate run Nat.iter]. by split.
  - cbn [replicate run]. rewrite (xdp_packet_processor_rejects _ _ _ _ Hrej).
    cbn [snd].
    destruct (IH (dropped_maps m) (incr64 total) udp (incr64 dropped) time)
      as [Hs Hrb].
    + exact Hrej.
    + unfold dropped_maps, stat_add, update_stat. cbn [stats_map feature_rb].
      rewrite Hstats. reflexivity.
    + rewrite Hs, Hrb, !Nat.iter_succ_r. by split.
Qed.

Lemma iter_incr64 n : Nat.iter n incr64 0 = wrap64 (Z.of_nat n).
Proof.
  induction n as [|n IH]; [reflexivity|].
  rewrite Nat.iter_succ, IH. unfold incr64, wrap64.
  rewrite Z.add_mod_idemp_l by lia. f_equal. lia.
Qed.

Lemma counter_wraps_after n :
  Z.of_nat n = 2 ^ 64 - 1 ->
  let earlier := run (Samples.arp_burst n) Samples.empty_maps in
  let later := run [mk_arrival 0 0 Samples.arp_request] earlier in
  stat_read STAT_PACKETS_TOTAL earlier = 2 ^ 64 - 1 /\
  stat_read STAT_PACKETS_TOTAL later = 0 /\
  stat_read STAT_PACKETS_TOTAL later < stat_read STAT_PACKETS_TOTAL earlier.
Proof.
  intros Hn earlier later.
  assert (accepted Samples.arp_request (feature_rb Samples.empty_maps) = false)
    as Hrej by (vm_compute; reflexivity).
  destruct (run_rejected_burst (mk_arrival 0 0 Samples.arp_request) n
              Samples.empty_maps 0 0 0 0 Hrej eq_refl) as [Hs Hrb].
  fold (Samples.arp_burst n) in Hs, Hrb. fold earlier in Hs, Hrb.
  destruct (run_rejected_burst (mk_arrival 0 0 Samples.arp_request) 1
              earlier _ _ _ _ ltac:(rewrite Hrb; exact Hrej) Hs) as [Hs' _].
  change (replicate 1 (mk_arrival 0 0 Samples.arp_request))
    with [mk_arrival 0 0 Samples.arp_request] in Hs'.
  fold later in Hs'.
  unfold stat_read, STAT_PACKETS_TOTAL. rewrite Hs, Hs'.
  change (Nat.iter 1 incr64 (Nat.iter n incr64 0))
    with (incr64 (Nat.iter n incr64 0)).
  rewrite iter_incr64, Hn.
  assert (wrap64 (2 ^ 64 - 1) = 2 ^ 64 - 1) as -> by reflexivity.
  assert (incr64 (2 ^ 64 - 1) = 0) as -> by reflexivity.
  repeat split.
Qed.


End XdpPreprocFacts.

(** ** The baseline *)

Module BaselineFacts.
Import Wire WireFacts Baseline.

(** The baseline stores addresses and ports as loaded: converting them
    gives the numbers on the wire. *)
Lemma received_feature_network_order now buffer len g :
  received_feature now buffer len = Some g ->
  ntohl (src_ip g) = be32 buffer 26 /\ ntohl (dst_ip g) = be32 buffer 30 /\
  ntohs (src_port g) = be16 buffer (14 + ip_ihl buffer 14 * 4) /\
  ntohs (dst_port g) = be16 buffer (14 + ip_ihl buffer 14 * 4 + 2) /\
  pkt_len g = be16 buffer 16.
Proof.
  unfold received_feature, parse_ethernet, parse_ip_udp. cbv zeta.
  unfold sizeof_ethhdr.
  repeat match goal with
         | |- context [if ?b then None else _] => destruct b; [discriminate|]
         end.
  intros [= <-]. cbn [src_ip dst_ip src_port dst_port pkt_len].
  unfold ip_saddr, ip_daddr, l4_source, l4_dest, ip_tot_len.
  rewrite !ntohl_load32, !ntohs_load16. repeat split; reflexivity.
Qed.

End BaselineFacts.

(** ** The feature extractor *)

Module MlProcessorFacts.
Import Wire WireFacts MlProcessor.

Section Extraction.

Variable entropy_x32 : list byte -> Z.

Lemma extract_ml_features_None now pkt len :
  reparses pkt len = false -> extract_ml_features entropy_x32 now pkt len = None.
Proof.
  unfold reparses, extract_ml_features. cbv zeta. rewrite ntohs_eth_proto.
  unfold sizeof_ethhdr, sizeof_iphdr. intros Hre.
  repeat match goal with
         | |- context [if ?b then None else _] => destruct b eqn:?; [reflexivity|]
         end.
  exfalso. change (0 + 14 + 20) with (14 + 20) in *. bool_crush.
Qed.

(** What a successful extraction stores, field by field. *)
Lemma extract_ml_features_Some now pkt len f :
  extract_ml_features entropy_x32 now pkt len = Some f ->
  reparses pkt len = true /\
  src_ip f = be32 pkt 26 /\ dst_ip f = be32 pkt 30 /\
  protocol f = ip_protocol pkt 14 /\ ttl f = ip_ttl pkt 14 /\
  pkt_len f = wrap16 len /\ timestamp f = now /\
  src_port f = (if l4_present pkt len then be16 pkt (l4_offset pkt) else 0) /\
  dst_port f = (if l4_present pkt len then be16 pkt (l4_offset pkt + 2) else 0) /\
  tcp_flags f = (if (ip_protocol pkt 14 =? IPPROTO_TCP) && l4_present pkt len
                 then byte_at pkt (l4_offset pkt + 13) else 0) /\
  window_size f = (if (ip_protocol pkt 14 =? IPPROTO_TCP) && l4_present pkt len
                   then be16 pkt (l4_offset pkt + 14) else 0) /\
  flow_hash f = flow_hash_of (protocol f) (src_ip f) (dst_ip f) (src_port f) (dst_port f) /\
  payload_len f = (if headers_consumed pkt <? len
                   then wrap16 (len - headers_consumed pkt) else 0) /\
  packet_entropy f = (if headers_consumed pkt <? len
                      then calculate_entropy entropy_x32
                             (drop (Z.to_nat (headers_consumed pkt)) pkt)
                             (wrap16 (len - headers_consumed pkt))
                      else 0) /\
  traffic_class f = traffic_class_rule (src_port f) (dst_port f) (protocol f) /\
  direction f = (if src_port f >? dst_port f then 1 else 0) /\
  inter_arrival_time f = 0.
Proof.
  unfold extract_ml_features. cbv zeta. rewrite ntohs_eth_proto.
  unfold reparses, l4_present, headers_consumed, l4_offset, tcp_window.
  unfold ip_saddr, ip_daddr, l4_source, l4_dest.
  rewrite !ntohl_load32, !ntohs_load16.
  unfold sizeof_ethhdr, sizeof_iphdr, sizeof_tcphdr, sizeof_udphdr.
  change (0 + 14) with 14. rewrite Z.sub_0_r.
  change (14 + 12) with 26. change (14 + 16) with 30.
  destruct (len <? 14) eqn:Hlen; [discriminate|].
  destruct (be16 pkt 12 =? ETH_P_IP) eqn:Hty; [|discriminate]. cbn [negb].
  destruct (14 + 20 >? len) eqn:Hip; [discriminate|].
  assert ((14 <=? len) && true && (14 + 20 <=? len) = true) as Hre by bool_crush.
  rewrite Hre. clear Hre.
  destruct (ip_protocol pkt 14 =? IPPROTO_TCP) eqn:Htcp;
    [assert ((ip_protocol pkt 14 =? IPPROTO_UDP) = false) as Hudp
       by (unfold IPPROTO_TCP, IPPROTO_UDP in *; bool_crush);
     rewrite Hudp;
     destruct (14 + ip_ihl pkt 14 * 4 + 20 <=? len) eqn:Hfit
    |destruct (ip_protocol pkt 14 =? IPPROTO_UDP) eqn:Hudp;
     [destruct (14 + ip_ihl pkt 14 * 4 + 8 <=? len) eqn:Hfit|]].
  all: cbn [andb orb negb]; rewrite ?Z.add_0_r.
  all: destruct (_ <? len) eqn:Hpay.
  all: intros [= <-].
  all: cbn [src_ip dst_ip src_port dst_port protocol pkt_len tcp_flags payload_len
            flow_hash timestamp traffic_class direction packet_entropy
            inter_arrival_time window_size ttl].
  all: repeat (split; [reflexivity|]).
  all: (split; [|split; reflexivity]).
  all: unfold traffic_class_rule, service_port, FLOW_PRIORITY, FLOW_SUSPICIOUS,
         FLOW_NORMAL; rewrite ?Htcp, ?Hudp, ?Z.gtb_ltb; cbn [andb orb negb].
  all: try reflexivity.
  all: match goal with
       | |- (if ?a then _ else if ?b then _ else _)
            = (if ?a' then _ else if ?b' then _ else _) =>
         replace a with a' by btauto; replace b with b' by btauto; reflexivity
       end.
Qed.

Lemma headers_consumed_lower pkt : 14 <= headers_consumed pkt.
Proof.
  unfold headers_consumed, l4_offset, sizeof_ethhdr, sizeof_udphdr.
  pose proof (ip_ihl_range pkt 14).
  pose proof (tcp_doff_range pkt (14 + ip_ihl pkt 14 * 4)).
  destruct (_ =? IPPROTO_TCP); [lia|]. destruct (_ =? IPPROTO_UDP); lia.
Qed.

(** C2, as the code has it.  The [pkt_len] of an extracted record is the
    length of the captured frame, Ethernet header included, as a 16-bit
    value: it equals the descriptor length whenever that fits in 16 bits,
    and so exceeds the IPv4 total length by the 14 bytes of the Ethernet
    header when the frame holds exactly the datagram. *)
Theorem pkt_len_is_frame_length now pkt len f :
  extract_ml_features entropy_x32 now pkt len = Some f ->
  pkt_len f = wrap16 len /\
  (len < 2 ^ 16 -> pkt_len f = len) /\
  (len < 2 ^ 16 -> len = sizeof_ethhdr + be16 pkt 16 ->
   pkt_len f = be16 pkt 16 + 14).
Proof.
  intros Hex. apply extract_ml_features_Some in Hex.
  destruct Hex as (Hre & _ & _ & _ & _ & Hlen & _).
  assert (14 <= len) as Hmin by (unfold reparses, sizeof_ethhdr in Hre; bool_crush).
  split; [exact Hlen|].
  split; intros Hsmall; [|intros Hexact];
    rewrite Hlen, wrap16_small by lia; unfold sizeof_ethhdr in *; lia.
Qed.

(** C5, as the code has it.  The tag follows the rule: a service port
    (22, 53, 80, 443) on either side gives PRIORITY; otherwise both ports
    above 49152, or a protocol that is neither TCP nor UDP, gives
    SUSPICIOUS; otherwise NORMAL.  A TCP or UDP packet with both ports
    equal to 49152 is NORMAL; with both ports above 49152 it is
    SUSPICIOUS. *)
Theorem traffic_class_follows_rule now pkt len f :
  extract_ml_features entropy_x32 now pkt len = Some f ->
  traffic_class f = traffic_class_rule (src_port f) (dst_port f) (protocol f) /\
  (src_port f = 49152 -> dst_port f = 49152 ->
   protocol f = IPPROTO_TCP \/ protocol f = IPPROTO_UDP ->
   traffic_class f = FLOW_NORMAL) /\
  (49152 < src_port f -> 49152 < dst_port f ->
   traffic_class f = FLOW_SUSPICIOUS).
Proof.
  intros Hex. apply extract_ml_features_Some in Hex.
  destruct Hex as (_ & _ & _ & _ & _ & _ & _ & _ & _ & _ & _ & _ & _ & _ & Hcls & _).
  split; [exact Hcls|]. rewrite Hcls. unfold traffic_class_rule, service_port.
  split.
  - intros -> -> [-> | ->]; reflexivity.
  - intros Hs Hd.
    destruct (Z.ltb_spec 49152 (src_port f)); [|lia].
    destruct (Z.ltb_spec 49152 (dst_port f)); [|lia].
    repeat match goal with
           | |- context [?x =? ?c] => destruct (Z.eqb_spec x c); [lia|]
           end.
    reflexivity.
Qed.

(** C6, as the code has it.  In the record the AF_XDP processor extracts,
    the addresses and ports are the numbers the wire fields denote (host
    byte order: the big-endian reading of the bytes of the frame), a port
    being 0 when no transport header was read; for a protocol that is
    neither TCP nor UDP the ports, the TCP flags and the window size are
    all 0. *)
Theorem addresses_and_ports_in_host_order now pkt len f :
  extract_ml_features entropy_x32 now pkt len = Some f ->
  src_ip f = be32 pkt 26 /\ dst_ip f = be32 pkt 30 /\
  src_port f = (if l4_present pkt len then be16 pkt (l4_offset pkt) else 0) /\
  dst_port f = (if l4_present pkt len then be16 pkt (l4_offset pkt + 2) else 0) /\
  (protocol f <> IPPROTO_TCP -> protocol f <> IPPROTO_UDP ->
   src_port f = 0 /\ dst_port f = 0 /\ tcp_flags f = 0 /\ window_size f = 0).
Proof.
  intros Hex. apply extract_ml_features_Some in Hex.
  destruct Hex as (_ & Hs & Hd & Hp & _ & _ & _ & Hsp & Hdp & Hfl & Hwin & _).
  repeat (split; [assumption|]).
  rewrite Hp. intros Htcp Hudp.
  assert (l4_present pkt len = false) as Hno.
  { unfold l4_present.
    destruct (Z.eqb_spec (ip_protocol pkt 14) IPPROTO_TCP); [contradiction|].
    destruct (Z.eqb_spec (ip_protocol pkt 14) IPPROTO_UDP); [contradiction|].
    reflexivity. }
  rewrite Hsp, Hdp, Hfl, Hwin, Hno, andb_false_r. repeat split; reflexivity.
Qed.


(** C9.  Two extracted records that agree on protocol, addresses and ports
    have the same flow hash, whatever the frames, their lengths and the
    clock readings were: the hash is [flow_hash_of] of the five fields. *)
Theorem flow_hash_depends_on_five_tuple_only now1 pkt1 len1 f1 now2 pkt2 len2 f2 :
  extract_ml_features entropy_x32 now1 pkt1 len1 = Some f1 ->
  extract_ml_features entropy_x32 now2 pkt2 len2 = Some f2 ->
  protocol f1 = protocol f2 ->
  src_ip f1 = src_ip f2 -> dst_ip f1 = dst_ip f2 ->
  src_port f1 = src_port f2 -> dst_port f1 = dst_port f2 ->
  flow_hash f1 = flow_hash f2 /\
  flow_hash f1
  = flow_hash_of (protocol f1) (src_ip f1) (dst_ip f1) (src_port f1) (dst_port f1).
Proof.
  intros Hex1 Hex2 Hp Hs Hd Hsp Hdp.
  apply extract_ml_features_Some in Hex1, Hex2.
  destruct Hex1 as (_ & _ & _ & _ & _ & _ & _ & _ & _ & _ & _ & Hh1 & _).
  destruct Hex2 as (_ & _ & _ & _ & _ & _ & _ & _ & _ & _ & _ & Hh2 & _).
  split; [|exact Hh1]. rewrite Hh1, Hh2, Hp, Hs, Hd, Hsp, Hdp. reflexivity.
Qed.

End Extraction.

Lemma pkt_len_is_frame_length_witness :
  pkt_len Samples.udp_dns_feature = 142 /\ be16 Samples.udp_dns 16 + 14 = 142.
Proof.
  destruct (pkt_len_is_frame_length Samples.no_entropy 7 Samples.udp_dns 142
              Samples.udp_dns_feature) as (_ & Hlen & _);
    [vm_compute; reflexivity|].
  split; [apply Hlen; lia | reflexivity].
Defined.

(** C2 as stated fails: for the 142-byte frame that carries a UDP datagram
    of total length 128, the record has [pkt_len] 142. *)
Lemma udp_dns_pkt_len_is_not_total_length :
  extract_ml_features Samples.no_entropy 7 Samples.udp_dns 142
  = Some Samples.udp_dns_feature /\
  pkt_len Samples.udp_dns_feature = 142 /\
  be16 Samples.udp_dns 16 = 128 /\
  pkt_len Samples.udp_dns_feature <> be16 Samples.udp_dns 16.
Proof. vm_compute. repeat split. discriminate. Qed.

Lemma traffic_class_follows_rule_witness :
  traffic_class Samples.udp_dns_feature = FLOW_PRIORITY /\
  traffic_class Samples.tcp_syn_feature = FLOW_NORMAL.
Proof.
  split.
  - destruct (traffic_class_follows_rule Samples.no_entropy 7 Samples.udp_dns 142
                Samples.udp_dns_feature) as (Hrule & _);
      [vm_compute; reflexivity|].
    rewrite Hrule. reflexivity.
  - destruct (traffic_class_follows_rule Samples.no_entropy 7 Samples.tcp_syn 54
                Samples.tcp_syn_feature) as (_ & Hnormal & _);
      [vm_compute; reflexivity|].
    apply Hnormal; [reflexivity | reflexivity | left; reflexivity].
Defined.

(** C5 as stated fails: a TCP packet with source and destination port
    49152 is tagged NORMAL, where the rule with the bound 49151 says
    SUSPICIOUS. *)
Lemma both_ports_49152_is_normal :
  extract_ml_features Samples.no_entropy 7 Samples.tcp_syn 54
  = Some Samples.tcp_syn_feature /\
  src_port Samples.tcp_syn_feature = 49152 /\
  dst_port Samples.tcp_syn_feature = 49152 /\
  traffic_class Samples.tcp_syn_feature = FLOW_NORMAL /\
  traffic_class_rule_spec 49152 49152 IPPROTO_TCP = FLOW_SUSPICIOUS.
Proof. vm_compute. repeat split. Qed.

Lemma addresses_and_ports_in_host_order_witness :
  src_ip Samples.udp_dns_feature = 10 * 2 ^ 24 + 1 /\
  dst_port Samples.udp_dns_feature = 53 /\
  src_port Samples.icmp_echo_feature = 0 /\
  window_size Samples.icmp_echo_feature = 0.
Proof.
  destruct (addresses_and_ports_in_host_order Samples.no_entropy 7 Samples.udp_dns
              142 Samples.udp_dns_feature) as (Hs & _ & _ & Hd & _);
    [vm_compute; reflexivity|].
  destruct (addresses_and_ports_in_host_order Samples.no_entropy 7 Samples.icmp_echo
              42 Samples.icmp_echo_feature) as (_ & _ & _ & _ & Hother);
    [vm_compute; reflexivity|].
  destruct Hother as (Hsp & _ & _ & Hwin); [discriminate | discriminate |].
  split; [rewrite Hs; reflexivity|].
  split; [rewrite Hd; reflexivity|].
  split; assumption.
Defined.

(** C6 as stated fails for the record of the baseline, which keeps the
    fields in network byte order: for 10.0.0.1:40000 -> 10.0.0.2:53 it
    stores the source address 0x0100000A and the source port 0x409C. *)
Lemma baseline_record_in_network_order :
  Baseline.received_feature 7 Samples.udp_dns 142
  = Some Samples.udp_dns_baseline_feature /\
  be32 Samples.udp_dns 26 = 0x0A000001 /\
  Baseline.src_ip Samples.udp_dns_baseline_feature <> 0x0A000001 /\
  be16 Samples.udp_dns 34 = 40000 /\
  Baseline.src_port Samples.udp_dns_baseline_feature <> 40000.
Proof. vm_compute. repeat split; discriminate. Qed.


(** Two datagrams of one flow with different TTL, length and payload. *)
Lemma flow_hash_depends_on_five_tuple_only_witness :
  ttl Samples.udp_dns_feature <> ttl Samples.udp_dns_short_feature /\
  payload_len Samples.udp_dns_feature <> payload_len Samples.udp_dns_short_feature /\
  flow_hash Samples.udp_dns_feature = flow_hash Samples.udp_dns_short_feature.
Proof.
  split; [discriminate|]. split; [discriminate|].
  apply (flow_hash_depends_on_five_tuple_only Samples.no_entropy
           7 Samples.udp_dns 142 Samples.udp_dns_feature
           7 Samples.udp_dns_short 46 Samples.udp_dns_short_feature);
    first [vm_compute; reflexivity | reflexivity].
Defined.

End MlProcessorFacts.


(** ** The processing loop *)

Module DrainerFacts.
Import Wire WireFacts MlProcessor MlProcessorFacts.

Section Batch.

Variable entropy_x32 : list byte -> Z.
Variable get_time_ns : nat -> Z.
Variable ml_func : list ml_feature -> ml_feature -> Z.

Lemma extract_reparses now pkt len :
  is_Some (extract_ml_features entropy_x32 now pkt len) <-> reparses pkt len = true.
Proof.
  split.
  - intros [f Hf]. by apply extract_ml_features_Some in Hf as [? _].
  - intros Hre. destruct (extract_ml_features entropy_x32 now pkt len) as [f|] eqn:Hex; [by eexists|].
    exfalso. unfold extract_ml_features in Hex. revert Hex.
    cbv zeta. rewrite ntohs_eth_proto.
    unfold reparses, sizeof_ethhdr, sizeof_iphdr in *.
    change (0 + 14 + 20) with (14 + 20).
    destruct (len <? 14) eqn:?; [intros _; bool_crush|].
    destruct (be16 pkt 12 =? ETH_P_IP) eqn:?; [|intros _; bool_crush].
    destruct (14 + 20 >? len) eqn:?; [intros _; bool_crush|].
    cbn [negb].
    repeat match goal with
           | |- context [let '(_, _) := ?p in _] => destruct p
           end.
    discriminate.
Qed.

(** One descriptor: the frame counter moves, the rings and the buffer do
    not, and the callback is called exactly when the frame re-parses. *)
Lemma process_desc_spec w d :
  let w' := process_desc entropy_x32 get_time_ns ml_func w d in
  rx_packets (stats (xsk w')) = incr64 (rx_packets (stats (xsk w))) /\
  rx (xsk w') = rx (xsk w) /\ fq (xsk w') = fq (xsk w) /\
  fq_size (xsk w') = fq_size (xsk w) /\
  umem_buffer (xsk w') = umem_buffer (xsk w) /\
  umem_frame_addr (xsk w') = umem_frame_addr (xsk w) /\
  umem_frame_free (xsk w') = umem_frame_free (xsk w) /\
  if desc_reparses (umem_buffer (xsk w)) d
  then (exists f, extracted_from entropy_x32 (umem_buffer (xsk w)) f d /\
                  ml_calls w' = ml_calls w ++ [f]) /\
       ml_features_extracted (stats (xsk w'))
       = incr64 (ml_features_extracted (stats (xsk w)))
  else ml_calls w' = ml_calls w /\
       ml_features_extracted (stats (xsk w'))
       = ml_features_extracted (stats (xsk w)).
Proof.
  unfold process_desc, desc_reparses.
  destruct (extract_ml_features entropy_x32 (get_time_ns (ticks w))
              (xsk_umem__get_data (umem_buffer (xsk w)) (addr d)) (len d))
    as [f|] eqn:Hex; cbn.
  - repeat (split; [reflexivity|]).
    replace (reparses _ _) with true
      by (symmetry; apply (extract_reparses (get_time_ns (ticks w))); by eexists).
    split; [|reflexivity]. exists f. split; [|reflexivity]. by eexists.
  - repeat (split; [reflexivity|]).
    destruct (reparses _ _) eqn:Hre; [|split; reflexivity].
    apply (extract_reparses (get_time_ns (ticks w))) in Hre.
    rewrite Hex in Hre. by destruct Hre.
Qed.

Lemma fold_process_desc_spec batch : forall w,
  let w' := fold_left (process_desc entropy_x32 get_time_ns ml_func) batch w in
  let parsed := List.filter (desc_reparses (umem_buffer (xsk w))) batch in
  rx_packets (stats (xsk w'))
  = Nat.iter (length batch) incr64 (rx_packets (stats (xsk w))) /\
  rx (xsk w') = rx (xsk w) /\ fq (xsk w') = fq (xsk w) /\
  fq_size (xsk w') = fq_size (xsk w) /\
  umem_buffer (xsk w') = umem_buffer (xsk w) /\
  umem_frame_addr (xsk w') = umem_frame_addr (xsk w) /\
  umem_frame_free (xsk w') = umem_frame_free (xsk w) /\
  ml_features_extracted (stats (xsk w'))
  = Nat.iter (length parsed) incr64 (ml_features_extracted (stats (xsk w))) /\
  exists new_calls,
    ml_calls w' = ml_calls w ++ new_calls /\
    Forall2 (extracted_from entropy_x32 (umem_buffer (xsk w))) new_calls parsed.
Proof.
  induction batch as [|d batch IH]; intros w.
  - cbn. repeat (split; [reflexivity|]). exists []. split; [by rewrite app_nil_r | constructor].
  - cbn [fold_left List.filter length].
    pose proof (process_desc_spec w d) as Hd. cbv zeta in Hd.
    destruct Hd as (Hrx & Hring & Hfq & Hsz & Hbuf & Haddr & Hfree & Hcall).
    specialize (IH (process_desc entropy_x32 get_time_ns ml_func w d)). cbv zeta in IH.
    destruct IH as (Irx & Iring & Ifq & Isz & Ibuf & Iaddr & Ifree & Iext & calls & Icalls & Iall).
    rewrite Hbuf in *.
    rewrite Irx, Iring, Ifq, Isz, Ibuf, Iaddr, Ifree, Iext, Icalls.
    rewrite Hrx, Hring, Hfq, Hsz, Haddr, Hfree.
    split; [by rewrite Nat.iter_succ_r|].
    repeat (split; [reflexivity|]).
    destruct (desc_reparses (umem_buffer (xsk w)) d).
    + destruct Hcall as [(f & Hf & Hcalls) Hext]. rewrite Hext, Hcalls.
      split; [by rewrite <- Nat.iter_succ_r|].
      exists (f :: calls). split; [by rewrite <- app_assoc | by constructor].
    + destruct Hcall as [Hcalls Hext]. rewrite Hext, Hcalls.
      split; [reflexivity|]. by exists calls.
Qed.

(** C10.  One batch: with [batch] the descriptors peeked (at most
    [RX_BATCH_SIZE]), the processor adds one to [rx_packets] for each of
    them and releases all of them from the RX ring, whether or not the
    extraction succeeded; it calls the callback, in ring order, exactly for
    the frames that re-parse as an IPv4 packet, each time with the record
    extracted from that frame; a frame that does not re-parse adds no call
    and no extracted feature, and the batch ends normally. *)
Theorem batch_consumes_every_descriptor w :
  let batch := take RX_BATCH_SIZE (rx (xsk w)) in
  let parsed := List.filter (desc_reparses (umem_buffer (xsk w))) batch in
  let w' := (process_rx_batch entropy_x32 get_time_ns ml_func w).2 in
  (process_rx_batch entropy_x32 get_time_ns ml_func w).1 = length batch /\
  rx_packets (stats (xsk w'))
  = Nat.iter (length batch) incr64 (rx_packets (stats (xsk w))) /\
  rx (xsk w') = drop (length batch) (rx (xsk w)) /\
  ml_features_extracted (stats (xsk w'))
  = Nat.iter (length parsed) incr64 (ml_features_extracted (stats (xsk w))) /\
  exists new_calls,
    ml_calls w' = ml_calls w ++ new_calls /\
    Forall2 (extracted_from entropy_x32 (umem_buffer (xsk w))) new_calls parsed.
Proof.
  cbv zeta. unfold process_rx_batch, xsk_ring_cons__peek, xsk_ring_cons__release.
  destruct (take RX_BATCH_SIZE (rx (xsk w))) as [|d batch] eqn:Hbatch.
  - cbn. repeat (split; [reflexivity|]). exists []. split; [by rewrite app_nil_r | constructor].
  - cbn [length Nat.eqb fst snd].
    pose proof (fold_process_desc_spec (d :: batch) w) as H. cbv zeta in H.
    destruct H as (Hrx & Hring & _ & _ & _ & _ & _ & Hext & Hcalls).
    cbn [xsk rx stats ml_calls length] in *.
    rewrite Hring. repeat (split; [first [reflexivity | assumption]|]). exact Hcalls.
Qed.

End Batch.

(** The refill loop hands out entries of the frame table, one per slot
    reserved, whatever the descriptors of the batch were. *)
Lemma take_frames_from_table table : forall ret frame_free addrs frame_free',
  take_frames ret table frame_free = Some (addrs, frame_free') ->
  length addrs = ret /\ Forall (fun a => a ∈ table) addrs.
Proof.
  induction ret as [|ret IH]; intros frame_free addrs frame_free' Htake.
  - injection Htake as <- <-. split; [reflexivity | constructor].
  - cbn [take_frames] in Htake.
    destruct (table !! Z.to_nat (wrap32 (frame_free - 1))) as [a|] eqn:Ha;
      [|discriminate].
    destruct (take_frames ret table (wrap32 (frame_free - 1))) as [[l fr]|] eqn:Hrest;
      [|discriminate].
    injection Htake as <- <-.
    destruct (IH _ _ _ Hrest) as [Hlen Hall].
    split; [cbn; by rewrite Hlen|].
    constructor; [|exact Hall]. eapply list_elem_of_lookup_2, Ha.
Qed.

(** Once the free counter has reached 0 the next refill indexes the frame
    table at 2^32 - 1, outside any table the program can hold. *)
Lemma take_frames_underflow table ret :
  Z.of_nat (length table) < 2 ^ 32 ->
  take_frames (S ret) table 0 = None.
Proof.
  intros Hlen. cbn [take_frames].
  change (wrap32 (0 - 1)) with (2 ^ 32 - 1).
  rewrite (lookup_ge_None_2 table (Z.to_nat (2 ^ 32 - 1))) by lia.
  reflexivity.
Qed.

(** A fill ring with fewer free slots than the pool has frames cannot be
    populated; one with room receives the whole frame table. *)
Lemma configure_xsk_socket_cases FRAME_SIZE x :
  configure_xsk_socket FRAME_SIZE x
  = if bool_decide (NUM_FRAMES <= fq_size x - length (fq x))%nat
    then Some {| rx := rx x; fq := fq x ++ frame_table FRAME_SIZE;
                 fq_size := fq_size x; umem_buffer := umem_buffer x;
                 umem_frame_addr := frame_table FRAME_SIZE;
                 umem_frame_free := Z.of_nat NUM_FRAMES;
                 stats := stats x |}
    else None.
Proof.
  unfold configure_xsk_socket, xsk_ring_prod__reserve.
  destruct (Nat.ltb_spec (fq_size x - length (fq x)) NUM_FRAMES) as [Hlt|Hge].
  - rewrite bool_decide_eq_false_2 by lia. reflexivity.
  - rewrite bool_decide_eq_true_2 by lia. by rewrite Nat.eqb_refl.
Qed.

Section Iteration.

Variable entropy_x32 : list byte -> Z.
Variable get_time_ns : nat -> Z.
Variable ml_func : list ml_feature -> ml_feature -> Z.

(** An iteration that finds one descriptor and a free slot: the descriptor
    leaves the RX ring and the fill ring receives the table entry below the
    free counter. *)
Lemma iteration_one_descriptor w d a :
  rx (xsk w) = [d] ->
  (length (fq (xsk w)) < fq_size (xsk w))%nat ->
  umem_frame_addr (xsk w) !! Z.to_nat (wrap32 (umem_frame_free (xsk w) - 1))
  = Some a ->
  exists w',
    run_ml_processor_iteration entropy_x32 get_time_ns ml_func w = Some w' /\
    rx (xsk w') = [] /\ fq (xsk w') = fq (xsk w) ++ [a].
Proof.
  intros Hrx Hroom Ha.
  unfold run_ml_processor_iteration, process_rx_batch, xsk_ring_cons__peek,
    xsk_ring_cons__release.
  rewrite Hrx. change (take RX_BATCH_SIZE [d]) with [d].
  cbn [length Nat.eqb].
  pose proof (fold_process_desc_spec entropy_x32 get_time_ns ml_func [d] w) as H.
  cbv zeta in H.
  destruct H as (_ & Hring & Hfq & Hsz & _ & Haddr & Hfree & _).
  unfold refill_fq, xsk_ring_prod__reserve.
  cbn [xsk rx fq fq_size umem_buffer umem_frame_addr umem_frame_free stats].
  rewrite Hring, Hfq, Hsz, Haddr, Hfree, Hrx.
  replace (_ <? 1)%nat with false by (symmetry; apply Nat.ltb_ge; lia).
  cbn [take_frames]. rewrite Ha.
  eexists. split; [reflexivity|]. by split.
Qed.

(** C3.  [main] creates the UMEM without a configuration, so the fill ring
    has the 2048 slots of the library default: [configure_xsk_socket]
    cannot reserve room for the 4096 frames of the pool, start-up ends with
    -1 and [run_ml_processor] is never entered, with no frame on the fill
    ring.  So it is for every fill ring of fewer than 4096 slots.  With a
    larger one start-up succeeds, and then in the first batch (the kernel
    has moved address 0 to the RX ring, with a frame of any length and
    content) the loop peeks address 0 but puts [umem_frame_addr[4095]] on
    the fill ring: address 0 is then on neither ring and address
    4095 * 4096 is on the fill ring twice.  Whatever the size of the fill
    ring, the frames on the rings are not the frames of the pool. *)
Theorem pool_frames_are_not_conserved buffer fill_size n :
  main_setup 4096 buffer = None /\
  match configure_xsk_socket 4096
          (xsk_umem__create fill_size buffer xsk_info_zero) with
  | None => (fill_size < NUM_FRAMES)%nat
  | Some x =>
    (NUM_FRAMES <= fill_size)%nat /\
    match run_ml_processor_iteration entropy_x32 get_time_ns ml_func
            {| xsk := Samples.kernel_rx n x; ticks := 0; ml_calls := [] |} with
    | Some w =>
      map addr (xsk_ring_cons__peek (rx (Samples.kernel_rx n x)) RX_BATCH_SIZE)
      = [0] /\
      rx (xsk w) = [] /\
      length (fq (xsk w)) = NUM_FRAMES /\
      last (fq (xsk w)) = Some 16773120 /\
      count_occ Z.eq_dec (fq (xsk w)) 0 = 0%nat /\
      count_occ Z.eq_dec (fq (xsk w)) 16773120 = 2%nat
    | None => False
    end
  end.
Proof.
  split.
  { unfold main_setup. rewrite configure_xsk_socket_cases. reflexivity. }
  rewrite configure_xsk_socket_cases.
  cbn [xsk_umem__create fq fq_size length]. rewrite Nat.sub_0_r.
  destruct (decide (NUM_FRAMES <= fill_size)%nat) as [Hge|Hlt];
    [rewrite bool_decide_eq_true_2 by exact Hge
    |rewrite bool_decide_eq_false_2 by exact Hlt; lia].
  split; [exact Hge|].
  assert (frame_table 4096 = 0 :: tail (frame_table 4096)) as Hhead
    by (vm_compute; reflexivity).
  assert (frame_table 4096 !! 4095%nat = Some 16773120) as Htop
    by (vm_compute; reflexivity).
  assert (length (tail (frame_table 4096)) = 4095%nat) as Hlen
    by (vm_compute; reflexivity).
  assert (length (tail (frame_table 4096) ++ [16773120]) = NUM_FRAMES
          /\ last (tail (frame_table 4096) ++ [16773120]) = Some 16773120
          /\ count_occ Z.eq_dec (tail (frame_table 4096) ++ [16773120]) 0 = 0%nat
          /\ count_occ Z.eq_dec (tail (frame_table 4096) ++ [16773120]) 16773120
             = 2%nat) as Hring
    by (vm_compute; repeat split).
  remember (frame_table 4096) as table eqn:Htable.
  destruct table as [|a table']; [discriminate|].
  cbn [tail] in Hhead, Hlen, Hring. injection Hhead as ->.
  unfold Samples.kernel_rx.
  cbn [fq rx fq_size umem_buffer umem_frame_addr umem_frame_free stats app
       xsk_umem__create xsk_info_zero].
  destruct (iteration_one_descriptor
              {| xsk := {| rx := [mk_desc 0 n];
                           fq := table';
                           fq_size := fill_size;
                           umem_buffer := buffer;
                           umem_frame_addr := 0 :: table';
                           umem_frame_free := Z.of_nat NUM_FRAMES;
                           stats := mk_stats 0 0 0 0 0 0 0 |};
                 ticks := 0; ml_calls := [] |}
              (mk_desc 0 n) 16773120) as (w & Hw & Hrx & Hfq).
  - reflexivity.
  - cbn [xsk fq fq_size]. rewrite Hlen. unfold NUM_FRAMES in Hge. lia.
  - exact Htop.
  - rewrite Hw, Hrx, Hfq. cbn [xsk fq].
    split; [reflexivity|]. split; [reflexivity|]. exact Hring.
Qed.

End Iteration.

End DrainerFacts.

(** ** Runs of the classifier *)

Module ClassifierRuns.
Import Wire WireFacts XdpPreproc XdpPreprocFacts ClassifierSpec.

Lemma parses_accepted frame rb :
  accepted frame rb = parses frame && bpf_ringbuf_reserve rb.
Proof. reflexivity. Qed.

Lemma accepted_maps_ring t0 t1 frame m :
  feature_rb (accepted_maps t0 t1 frame m)
  = bpf_ringbuf_submit (feature_of t0 frame) (feature_rb m).
Proof. reflexivity. Qed.

Lemma wrap64_idem x : wrap64 (wrap64 x) = wrap64 x.
Proof. unfold wrap64. apply Z.mod_mod. lia. Qed.

Lemma balanced_step t0 t1 frame m :
  balanced (stats_map m) ->
  balanced (stats_map (xdp_packet_processor t0 t1 frame m).2).
Proof.
  intros (t & u & d & Ht & Hu & Hd & Rt & Ru & Rd & Hbal).
  pose proof (wrap64_range (t + 1)) as Rt'.
  pose proof (wrap64_range (u + 1)) as Ru'.
  pose proof (wrap64_range (d + 1)) as Rd'.
  destruct (accepted frame (feature_rb m)) eqn:Hacc.
  - rewrite xdp_packet_processor_accepts by exact Hacc.
    exists (wrap64 (t + 1)), (wrap64 (u + 1)), d.
    unfold accepted_maps. cbn [snd stat_add stats_map].
    rewrite (update_stat_ne _ STAT_PROCESSING_TIME) by discriminate.
    rewrite (update_stat_ne _ STAT_PROCESSING_TIME) by discriminate.
    rewrite (update_stat_ne _ STAT_PROCESSING_TIME) by discriminate.
    rewrite (update_stat_ne _ STAT_PACKETS_UDP _ STAT_PACKETS_TOTAL) by discriminate.
    rewrite (update_stat_ne _ STAT_PACKETS_UDP _ STAT_PACKETS_DROPPED) by discriminate.
    rewrite (update_stat_ne _ STAT_PACKETS_TOTAL _ STAT_PACKETS_DROPPED) by discriminate.
    rewrite (update_stat_eq _ STAT_PACKETS_UDP 1 u)
      by (rewrite update_stat_ne by discriminate; exact Hu).
    rewrite (update_stat_eq _ STAT_PACKETS_TOTAL 1 t) by exact Ht.
    repeat (split; [first [reflexivity | assumption | lia]|]).
    unfold wrap64 in *. Z.div_mod_to_equations. lia.
  - rewrite xdp_packet_processor_rejects by exact Hacc.
    exists (wrap64 (t + 1)), u, (wrap64 (d + 1)).
    unfold dropped_maps. cbn [snd stat_add stats_map].
    rewrite (update_stat_ne _ STAT_PACKETS_DROPPED _ STAT_PACKETS_TOTAL) by discriminate.
    rewrite (update_stat_ne _ STAT_PACKETS_DROPPED _ STAT_PACKETS_UDP) by discriminate.
    rewrite (update_stat_ne _ STAT_PACKETS_TOTAL _ STAT_PACKETS_UDP) by discriminate.
    rewrite (update_stat_eq _ STAT_PACKETS_DROPPED 1 d)
      by (rewrite update_stat_ne by discriminate; exact Hd).
    rewrite (update_stat_eq _ STAT_PACKETS_TOTAL 1 t) by exact Ht.
    repeat (split; [first [reflexivity | assumption | lia]|]).
    unfold wrap64 in *. Z.div_mod_to_equations. lia.
Qed.

(** X1.  Every frame is counted once as UDP or once as dropped: over any
    sequence of invocations the counters keep
    total = udp + dropped (modulo 2^64), and exactly so while udp + dropped
    stays below 2^64. *)
Theorem counters_stay_balanced arrivals m :
  balanced (stats_map m) ->
  balanced (stats_map (run arrivals m)) /\
  (stat_read STAT_PACKETS_UDP (run arrivals m)
   + stat_read STAT_PACKETS_DROPPED (run arrivals m) < 2 ^ 64 ->
   stat_read STAT_PACKETS_TOTAL (run arrivals m)
   = stat_read STAT_PACKETS_UDP (run arrivals m)
     + stat_read STAT_PACKETS_DROPPED (run arrivals m)).
Proof.
  intros Hbal.
  assert (balanced (stats_map (run arrivals m))) as Hrun.
  { revert m Hbal. induction arrivals as [|a rest IH]; intros m Hbal; [exact Hbal|].
    cbn [run]. apply IH. by apply balanced_step. }
  split; [exact Hrun|].
  destruct Hrun as (t & u & d & Ht & Hu & Hd & Rt & Ru & Rd & Heq).
  unfold stat_read. rewrite Ht, Hu, Hd. simpl. intros Hsmall.
  rewrite (wrap64_small t), (wrap64_small (u + d)) in Heq by lia. exact Heq.
Qed.

Lemma counters_stay_balanced_witness :
  stat_read STAT_PACKETS_TOTAL
    (run [mk_arrival 100 150 Samples.udp_dns; mk_arrival 200 230 Samples.tcp_syn;
          mk_arrival 300 310 Samples.arp_request] Samples.empty_maps)
  = stat_read STAT_PACKETS_UDP
      (run [mk_arrival 100 150 Samples.udp_dns; mk_arrival 200 230 Samples.tcp_syn;
            mk_arrival 300 310 Samples.arp_request] Samples.empty_maps)
    + stat_read STAT_PACKETS_DROPPED
        (run [mk_arrival 100 150 Samples.udp_dns; mk_arrival 200 230 Samples.tcp_syn;
              mk_arrival 300 310 Samples.arp_request] Samples.empty_maps).
Proof.
  apply (counters_stay_balanced
           [mk_arrival 100 150 Samples.udp_dns; mk_arrival 200 230 Samples.tcp_syn;
            mk_arrival 300 310 Samples.arp_request] Samples.empty_maps).
  - exists 0, 0, 0. repeat split; first [reflexivity | lia].
  - vm_compute. reflexivity.
Defined.

(** X2.  A frame the program does not accept leaves the ring buffer alone
    and changes no counter besides the total and the dropped count: the
    processing time is accumulated for accepted frames only. *)
Theorem rejected_frame_is_only_counted t0 t1 frame m :
  accepted frame (feature_rb m) = false ->
  let m' := (xdp_packet_processor t0 t1 frame m).2 in
  feature_rb m' = feature_rb m /\
  stats_map m' !! STAT_PROCESSING_TIME = stats_map m !! STAT_PROCESSING_TIME /\
  stats_map m' !! STAT_PACKETS_UDP = stats_map m !! STAT_PACKETS_UDP /\
  forall i, i <> STAT_PACKETS_TOTAL -> i <> STAT_PACKETS_DROPPED ->
            stats_map m' !! i = stats_map m !! i.
Proof.
  intros Hacc m'. subst m'.
  rewrite xdp_packet_processor_rejects by exact Hacc. cbn [snd].
  split; [reflexivity|].
  split; [by apply dropped_maps_other|].
  split; [by apply dropped_maps_other|].
  intros i H0 H2. by apply dropped_maps_other.
Qed.

Lemma rejected_frame_is_only_counted_witness :
  feature_rb (xdp_packet_processor 100 150 Samples.tcp_syn Samples.empty_maps).2
  = feature_rb Samples.empty_maps /\
  stats_map (xdp_packet_processor 100 150 Samples.tcp_syn Samples.empty_maps).2
    !! STAT_PROCESSING_TIME = Some 0.
Proof.
  destruct (rejected_frame_is_only_counted 100 150 Samples.tcp_syn Samples.empty_maps)
    as (Hring & Htime & _); [reflexivity|].
  split; [exact Hring | exact Htime].
Defined.

(** X3.  An accepted frame appends exactly one record, at the tail of the
    ring: its addresses and ports are the wire fields as loaded (network
    byte order: [ntohl]/[ntohs] give the numbers on the wire), its [pkt_len]
    is the IPv4 total length in host order and its timestamp the clock
    reading taken on entry. *)
Theorem accepted_frame_appends_its_record t0 t1 frame m :
  accepted frame (feature_rb m) = true ->
  let m' := (xdp_packet_processor t0 t1 frame m).2 in
  let f := feature_of t0 frame in
  rb_records (feature_rb m') = rb_records (feature_rb m) ++ [f] /\
  rb_capacity (feature_rb m') = rb_capacity (feature_rb m) /\
  ntohl (src_ip f) = be32 frame 26 /\ ntohl (dst_ip f) = be32 frame 30 /\
  ntohs (src_port f) = be16 frame (14 + ip_ihl frame 14 * 4) /\
  ntohs (dst_port f) = be16 frame (14 + ip_ihl frame 14 * 4 + 2) /\
  pkt_len f = be16 frame 16 /\ timestamp f = t0.
Proof.
  intros Hacc m' f. subst m' f.
  rewrite xdp_packet_processor_accepts by exact Hacc. cbn [snd].
  rewrite accepted_maps_ring. unfold feature_of.
  cbn [bpf_ringbuf_submit rb_records rb_capacity src_ip dst_ip src_port dst_port
       pkt_len timestamp].
  unfold ip_saddr, ip_daddr, l4_source, l4_dest.
  rewrite !ntohl_load32, !ntohs_load16. repeat split; reflexivity.
Qed.

Lemma accepted_frame_appends_its_record_witness :
  rb_records (feature_rb
    (xdp_packet_processor 100 150 Samples.udp_dns Samples.empty_maps).2)
  = [feature_of 100 Samples.udp_dns] /\
  ntohl (src_ip (feature_of 100 Samples.udp_dns)) = 0x0A000001 /\
  pkt_len (feature_of 100 Samples.udp_dns) = 128.
Proof.
  destruct (accepted_frame_appends_its_record 100 150 Samples.udp_dns
              Samples.empty_maps) as (Hrec & _ & Hsrc & _ & _ & _ & Hlen & _);
    [reflexivity|].
  split; [exact Hrec|]. split; [rewrite Hsrc; reflexivity | rewrite Hlen; reflexivity].
Defined.

Lemma ring_step a m :
  ring_ok (feature_rb m) ->
  let m' := (xdp_packet_processor (a_start a) (a_end a) (a_frame a) m).2 in
  ring_ok (feature_rb m') /\
  rb_capacity (feature_rb m') = rb_capacity (feature_rb m) /\
  rb_records (feature_rb m')
  = rb_records (feature_rb m)
    ++ (if accepted (a_frame a) (feature_rb m) then [arrival_feature a] else []) /\
  stats_map m' !! STAT_PACKETS_UDP
  = (if accepted (a_frame a) (feature_rb m) then incr64 else id)
      <$> stats_map m !! STAT_PACKETS_UDP.
Proof.
  intros Hok m'. subst m'. unfold ring_ok in *.
  destruct (accepted (a_frame a) (feature_rb m)) eqn:Hacc.
  - rewrite xdp_packet_processor_accepts by exact Hacc. cbn [snd].
    rewrite accepted_maps_ring.
    cbn [bpf_ringbuf_submit rb_records rb_capacity].
    assert (bpf_ringbuf_reserve (feature_rb m) = true) as Hroom.
    { unfold accepted in Hacc. apply andb_true_iff in Hacc. tauto. }
    unfold bpf_ringbuf_reserve in Hroom. apply Nat.ltb_lt in Hroom.
    rewrite length_app. cbn [length].
    split; [lia|]. split; [reflexivity|]. split; [reflexivity|].
    destruct (stats_map m !! STAT_PACKETS_UDP) as [u|] eqn:Hu.
    + by apply accepted_maps_udp.
    + unfold accepted_maps. cbn [stat_add stats_map fmap option_fmap option_map].
      rewrite update_stat_ne by discriminate.
      unfold update_stat at 1.
      rewrite update_stat_ne by discriminate. rewrite Hu. 
      rewrite update_stat_ne by discriminate. exact Hu.
  - rewrite xdp_packet_processor_rejects by exact Hacc. cbn [snd].
    split; [exact Hok|]. split; [reflexivity|].
    split; [by rewrite app_nil_r|].
    rewrite dropped_maps_other by discriminate.
    by destruct (stats_map m !! STAT_PACKETS_UDP).
Qed.

(** X4.  Over any sequence of invocations the ring buffer never exceeds its
    capacity and is only appended to; the records added are features of
    arriving frames that parse, in arrival order; and the UDP counter is
    incremented once per record added. *)
Theorem ring_only_grows_by_parsed_frames arrivals : forall m udp,
  ring_ok (feature_rb m) ->
  stats_map m !! STAT_PACKETS_UDP = Some udp ->
  exists new,
    rb_records (feature_rb (run arrivals m)) = rb_records (feature_rb m) ++ new /\
    rb_capacity (feature_rb (run arrivals m)) = rb_capacity (feature_rb m) /\
    ring_ok (feature_rb (run arrivals m)) /\
    new `sublist_of` (arrival_feature <$> List.filter arrival_parses arrivals) /\
    stats_map (run arrivals m) !! STAT_PACKETS_UDP
    = Some (Nat.iter (length new) incr64 udp).
Proof.
  induction arrivals as [|a rest IH]; intros m udp Hok Hudp.
  - exists []. cbn [run]. rewrite app_nil_r. repeat split; try done.
  - cbn [run].
    pose proof (ring_step a m Hok) as Hstep. cbv zeta in Hstep.
    destruct Hstep as (Hok' & Hcap & Hrec & Hu'). rewrite Hudp in Hu'.
    cbn [fmap option_fmap option_map] in Hu'.
    destruct (IH _ _ Hok' Hu') as (new & Hnew & Hcap' & Hok'' & Hsub & Hcount).
    rewrite Hnew, Hcap', Hrec, Hcap, Hcount.
    cbn [List.filter]. unfold arrival_parses at 1.
    destruct (accepted (a_frame a) (feature_rb m)) eqn:Hacc.
    + exists (arrival_feature a :: new). rewrite <- app_assoc.
      assert (parses (a_frame a) = true) as ->.
      { rewrite parses_accepted in Hacc. apply andb_true_iff in Hacc. tauto. }
      cbn [fmap list_fmap]. repeat split; try done.
      * by apply sublist_skip.
      * cbn [length]. by rewrite Nat.iter_succ_r.
    + exists new. rewrite app_nil_r. repeat split; try done.
      destruct (parses (a_frame a)); [|exact Hsub].
      cbn [fmap list_fmap]. by apply sublist_cons.
Qed.

Lemma ring_only_grows_by_parsed_frames_witness :
  exists new,
    rb_records (feature_rb
      (run [mk_arrival 100 150 Samples.udp_dns; mk_arrival 200 230 Samples.tcp_syn]
           Samples.empty_maps)) = [] ++ new /\
    length new = 1%nat.
Proof.
  destruct (ring_only_grows_by_parsed_frames
              [mk_arrival 100 150 Samples.udp_dns; mk_arrival 200 230 Samples.tcp_syn]
              Samples.empty_maps 0) as (new & Hnew & _);
    [unfold ring_ok; cbn; lia | reflexivity |].
  exists new. split; [exact Hnew|].
  assert (length (rb_records (feature_rb
            (run [mk_arrival 100 150 Samples.udp_dns;
                  mk_arrival 200 230 Samples.tcp_syn] Samples.empty_maps))) = 1%nat)
    as Hlen by reflexivity.
  rewrite Hnew in Hlen. exact Hlen.
Defined.

(** X5.  While the ring buffer has room for every arriving frame, the
    records added are exactly the features of the frames that parse, in
    arrival order. *)
Theorem ring_holds_every_parsed_frame arrivals : forall m,
  (length (rb_records (feature_rb m)) + length arrivals
   <= rb_capacity (feature_rb m))%nat ->
  rb_records (feature_rb (run arrivals m))
  = rb_records (feature_rb m)
    ++ (arrival_feature <$> List.filter arrival_parses arrivals).
Proof.
  induction arrivals as [|a rest IH]; intros m Hroom.
  - cbn. by rewrite app_nil_r.
  - cbn [run length List.filter] in *.
    assert (ring_ok (feature_rb m)) as Hok by (unfold ring_ok; lia).
    pose proof (ring_step a m Hok) as Hstep. cbv zeta in Hstep.
    destruct Hstep as (_ & Hcap & Hrec & _).
    assert (accepted (a_frame a) (feature_rb m) = parses (a_frame a)) as Hacc.
    { rewrite parses_accepted. unfold bpf_ringbuf_reserve.
      replace (_ <? _)%nat with true by (symmetry; apply Nat.ltb_lt; lia).
      apply andb_true_r. }
    rewrite Hacc in Hrec. rewrite IH.
    + rewrite Hrec. unfold arrival_parses at 2.
      destruct (parses (a_frame a)); cbn [fmap list_fmap];
        by rewrite <- app_assoc.
    + rewrite Hcap, Hrec, length_app.
      destruct (parses (a_frame a)); cbn [length]; lia.
Qed.

Lemma ring_holds_every_parsed_frame_witness :
  rb_records (feature_rb
    (run [mk_arrival 100 150 Samples.udp_dns; mk_arrival 200 230 Samples.tcp_syn;
          mk_arrival 300 310 Samples.udp_dns_short] Samples.empty_maps))
  = [feature_of 100 Samples.udp_dns; feature_of 300 Samples.udp_dns_short].
Proof.
  rewrite (ring_holds_every_parsed_frame
             [mk_arrival 100 150 Samples.udp_dns; mk_arrival 200 230 Samples.tcp_syn;
              mk_arrival 300 310 Samples.udp_dns_short] Samples.empty_maps)
    by (cbn; lia).
  reflexivity.
Defined.



End ClassifierRuns.

(** ** The loop of the baseline *)

Module BaselineLoopFacts.
Import Wire WireFacts Baseline BaselineLoop.

Lemma main_loop_body_cases ev stats :
  main_loop_body ev stats
  = match ev with
    | Recv_failed true => None
    | Recv_failed false => Some (drop_packet stats)
    | Recv_packet _ _ _ _ _ =>
      if yields_feature ev then Some (update_stats stats (duration ev))
      else Some (drop_packet stats)
    end.
Proof.
  destruct ev as [[|]|buffer len t0 ts t1]; try reflexivity.
  unfold main_loop_body, yields_feature, received_feature, duration.
  destruct (parse_ethernet buffer len) as [off|].
  - destruct (parse_ip_udp ts buffer len off) as [f|].
    + rewrite bool_decide_eq_true_2 by (by eexists). reflexivity.
    + rewrite bool_decide_eq_false_2 by (by intros [? ?]). reflexivity.
  - rewrite bool_decide_eq_false_2 by (by intros [? ?]). reflexivity.
Qed.

(** X7.  Every call of [recv] the loop gets through is counted exactly once:
    as processed when the packet yields a record, as dropped otherwise
    (failed [recv], non-IPv4, malformed or non-UDP packet).  Nothing else
    changes the two counters. *)
Theorem every_recv_counted_once events : forall stats,
  let yes := List.filter yields_feature (handled events) in
  let no := List.filter (fun ev => negb (yields_feature ev)) (handled events) in
  packets_processed (main_loop events stats)
  = Nat.iter (length yes) incr64 (packets_processed stats) /\
  packets_dropped (main_loop events stats)
  = Nat.iter (length no) incr64 (packets_dropped stats) /\
  (length yes + length no = length (handled events))%nat.
Proof.
  induction events as [|ev rest IH]; intros stats; [by cbn|].
  cbn [main_loop]. rewrite main_loop_body_cases.
  destruct ev as [[|]|buffer len t0 ts t1].
  - by cbn.
  - cbn [handled List.filter yields_feature negb length].
    specialize (IH (drop_packet stats)). cbv zeta in IH.
    destruct IH as (Hp & Hd & Hlen). rewrite Hp, Hd.
    cbn [drop_packet packets_processed packets_dropped].
    split; [reflexivity|]. split; [by rewrite Nat.iter_succ_r | lia].
  - cbn [handled List.filter length].
    destruct (yields_feature (Recv_packet buffer len t0 ts t1)) eqn:Hy;
      cbn [negb length].
    + specialize (IH (update_stats stats (duration (Recv_packet buffer len t0 ts t1)))).
      cbv zeta in IH. destruct IH as (Hp & Hd & Hlen). rewrite Hp, Hd.
      cbn [update_stats packets_processed packets_dropped].
      split; [by rewrite Nat.iter_succ_r|]. split; [reflexivity | lia].
    + specialize (IH (drop_packet stats)). cbv zeta in IH.
      destruct IH as (Hp & Hd & Hlen). rewrite Hp, Hd.
      cbn [drop_packet packets_processed packets_dropped].
      split; [reflexivity|]. split; [by rewrite Nat.iter_succ_r | lia].
Qed.

Lemma foldr_min_init t lo ts :
  foldr Z.min (Z.min t lo) ts = Z.min t (foldr Z.min lo ts).
Proof. induction ts as [|u ts IH]; cbn [foldr]; [reflexivity | rewrite IH; lia]. Qed.

Lemma foldr_max_init t hi ts :
  foldr Z.max (Z.max t hi) ts = Z.max t (foldr Z.max hi ts).
Proof. induction ts as [|u ts IH]; cbn [foldr]; [reflexivity | rewrite IH; lia]. Qed.

Lemma foldr_min_le lo ts : foldr Z.min lo ts <= lo /\ Forall (fun t => foldr Z.min lo ts <= t) ts.
Proof.
  induction ts as [|u ts [IH1 IH2]]; cbn [foldr]; [split; [lia | constructor]|].
  split; [lia|]. constructor; [lia|].
  eapply Forall_impl; [exact IH2|]. cbn. intros; lia.
Qed.

Lemma foldr_max_ge hi ts : hi <= foldr Z.max hi ts /\ Forall (fun t => t <= foldr Z.max hi ts) ts.
Proof.
  induction ts as [|u ts [IH1 IH2]]; cbn [foldr]; [split; [lia | constructor]|].
  split; [lia|]. constructor; [lia|].
  eapply Forall_impl; [exact IH2|]. cbn. intros; lia.
Qed.

Lemma foldr_min_elem lo ts : foldr Z.min lo ts = lo \/ foldr Z.min lo ts ∈ ts.
Proof.
  induction ts as [|u ts IH]; cbn [foldr]; [by left|].
  destruct (Z.min_spec u (foldr Z.min lo ts)) as [[_ ->]|[_ ->]].
  - right. apply list_elem_of_here.
  - destruct IH; [by left | right; by apply list_elem_of_further].
Qed.

Lemma foldr_max_elem hi ts : foldr Z.max hi ts = hi \/ foldr Z.max hi ts ∈ ts.
Proof.
  induction ts as [|u ts IH]; cbn [foldr]; [by left|].
  destruct (Z.max_spec u (foldr Z.max hi ts)) as [[_ ->]|[_ ->]].
  - destruct IH; [by left | right; by apply list_elem_of_further].
  - right. apply list_elem_of_here.
Qed.

Lemma fold_update_stats_min_max ts : forall stats,
  let s := fold_left update_stats ts stats in
  min_processing_time_ns s = foldr Z.min (min_processing_time_ns stats) ts /\
  max_processing_time_ns s = foldr Z.max (max_processing_time_ns stats) ts /\
  packets_processed s = Nat.iter (length ts) incr64 (packets_processed stats) /\
  packets_dropped s = packets_dropped stats.
Proof.
  induction ts as [|t ts IH]; intros stats; [by cbn|].
  cbn [fold_left foldr length]. specialize (IH (update_stats stats t)).
  cbv zeta in IH. destruct IH as (Hmin & Hmax & Hn & Hd). rewrite Hmin, Hmax, Hn, Hd.
  cbn [update_stats min_processing_time_ns max_processing_time_ns
       packets_processed packets_dropped].
  rewrite Z.gtb_ltb, <- foldr_min_init, <- foldr_max_init.
  split; [f_equal; destruct (Z.ltb_spec t (min_processing_time_ns stats)); lia|].
  split; [f_equal; destruct (Z.ltb_spec (max_processing_time_ns stats) t); lia|].
  split; [by rewrite Nat.iter_succ_r | reflexivity].
Qed.

(** X8.  After any non-empty series of [update_stats] on freshly
    initialised statistics, with 64-bit samples, the minimum and maximum
    reported are the least and the greatest sample: both are samples, every
    sample lies between them, and min <= max.  With no sample at all the
    minimum still reads [UINT64_MAX] and the maximum 0. *)
Theorem min_max_are_the_extreme_samples now ts :
  Forall (fun t => 0 <= t <= UINT64_MAX) ts ->
  let s := fold_left update_stats ts (init_stats now) in
  (ts = [] -> min_processing_time_ns s = UINT64_MAX /\ max_processing_time_ns s = 0) /\
  (ts <> [] ->
   min_processing_time_ns s ∈ ts /\ max_processing_time_ns s ∈ ts /\
   min_processing_time_ns s <= max_processing_time_ns s /\
   Forall (fun t => min_processing_time_ns s <= t <= max_processing_time_ns s) ts).
Proof.
  intros Hts s. subst s.
  destruct (fold_update_stats_min_max ts (init_stats now)) as (Hmin & Hmax & _).
  rewrite Hmin, Hmax. cbn [init_stats min_processing_time_ns max_processing_time_ns].
  split; [by intros ->|]. intros Hne.
  destruct (foldr_min_le UINT64_MAX ts) as [Hlo Hlo'].
  destruct (foldr_max_ge 0 ts) as [Hhi Hhi'].
  destruct ts as [|t0 ts']; [done|].
  assert (foldr Z.min UINT64_MAX (t0 :: ts') ∈ t0 :: ts') as Hmin_in.
  { destruct (foldr_min_elem UINT64_MAX (t0 :: ts')) as [Heq|]; [|done].
    inversion Hts as [|? ? Ht0 _]; subst. inversion Hlo' as [|? ? Hle _]; subst.
    assert (t0 = foldr Z.min UINT64_MAX (t0 :: ts')) as Ht by lia.
    rewrite <- Ht at 1. apply list_elem_of_here. }
  assert (foldr Z.max 0 (t0 :: ts') ∈ t0 :: ts') as Hmax_in.
  { destruct (foldr_max_elem 0 (t0 :: ts')) as [Heq|]; [|done].
    inversion Hts as [|? ? Ht0 _]; subst. inversion Hhi' as [|? ? Hle _]; subst.
    assert (t0 = foldr Z.max 0 (t0 :: ts')) as Ht by lia.
    rewrite <- Ht at 1. apply list_elem_of_here. }
  split; [exact Hmin_in|]. split; [exact Hmax_in|].
  split.
  - inversion Hlo' as [|? ? Hle _]; subst. inversion Hhi' as [|? ? Hge _]; subst. lia.
  - apply Forall_forall. intros t Ht.
    rewrite Forall_forall in Hlo', Hhi'. split; [by apply Hlo' | by apply Hhi'].
Qed.

Lemma min_max_are_the_extreme_samples_witness :
  min_processing_time_ns (fold_left update_stats [500; 120; 900] (init_stats 0)) = 120 /\
  max_processing_time_ns (fold_left update_stats [500; 120; 900] (init_stats 0)) = 900.
Proof.
  destruct (min_max_are_the_extreme_samples 0 [500; 120; 900]) as [_ H].
  { repeat constructor; unfold UINT64_MAX; lia. }
  destruct H as (_ & _ & _ & _); [discriminate|].
  split; reflexivity.
Defined.

End BaselineLoopFacts.

(** ** Which bytes the parsers read *)

Module ReadBounds.
Import Wire WireFacts.

Section Take.
Variables (mem : list byte) (n : Z).

Lemma byte_at_take off :
  off < n -> byte_at (take (Z.to_nat n) mem) off = byte_at mem off.
Proof.
  intros Hoff. unfold byte_at. destruct (Z.ltb_spec off 0); [reflexivity|].
  rewrite lookup_take_lt by lia. reflexivity.
Qed.

Lemma load16_take off :
  off + 2 <= n -> load16 (take (Z.to_nat n) mem) off = load16 mem off.
Proof. intros H. unfold load16. rewrite !byte_at_take by lia. reflexivity. Qed.

Lemma load32_take off :
  off + 4 <= n -> load32 (take (Z.to_nat n) mem) off = load32 mem off.
Proof. intros H. unfold load32. rewrite !byte_at_take by lia. reflexivity. Qed.

Lemma be16_take off :
  off + 2 <= n -> be16 (take (Z.to_nat n) mem) off = be16 mem off.
Proof. intros H. unfold be16. rewrite !byte_at_take by lia. reflexivity. Qed.

End Take.

(** X9.  The baseline reads no byte at or beyond [len]: what it extracts
    from a buffer depends on the first [len] bytes only, whatever older
    data the rest of the receive buffer holds. *)
Theorem baseline_reads_within_len now buffer len :
  0 <= len < 2 ^ 64 ->
  Baseline.received_feature now buffer len
  = Baseline.received_feature now (take (Z.to_nat len) buffer) len.
Proof.
  intros Hlen.
  unfold Baseline.received_feature, Baseline.parse_ethernet. cbv zeta.
  rewrite wrap64_small by lia. unfold sizeof_ethhdr.
  destruct (Z.ltb_spec len 14) as [|Heth]; [reflexivity|].
  unfold eth_h_proto. rewrite (load16_take buffer len) by lia.
  destruct (negb _); [reflexivity|].
  unfold Baseline.parse_ip_udp. cbv zeta.
  rewrite wrap64_small by lia. unfold sizeof_iphdr, sizeof_udphdr.
  destruct (Z.ltb_spec len (14 + 20)) as [|Hip]; [reflexivity|].
  unfold ip_version, ip_ihl, ip_protocol, ip_saddr, ip_daddr, ip_tot_len,
    l4_source, l4_dest.
  rewrite !(byte_at_take buffer len) by lia.
  destruct (_ || _); [reflexivity|].
  destruct (Z.ltb_spec len (14 + byte_at buffer 14 mod 16 * 4 + 8)) as [|Hudp];
    [reflexivity|].
  destruct (negb _); [reflexivity|].
  assert (0 <= byte_at buffer 14 mod 16) by (apply Z.mod_pos_bound; lia).
  rewrite !(load32_take buffer len), !(load16_take buffer len) by lia.
  reflexivity.
Qed.

Lemma baseline_reads_within_len_witness :
  Baseline.received_feature 7 (Samples.udp_dns ++ Samples.tcp_syn) 142
  = Baseline.received_feature 7 Samples.udp_dns 142.
Proof.
  rewrite (baseline_reads_within_len 7 (Samples.udp_dns ++ Samples.tcp_syn) 142)
    by lia.
  reflexivity.
Defined.

Section Extract.
Import MlProcessor.
Variable entropy_x32 : list byte -> Z.

Lemma calculate_entropy_take buffer n h pl :
  0 <= h -> 0 <= pl -> h + pl <= n ->
  calculate_entropy entropy_x32 (drop (Z.to_nat h) (take (Z.to_nat n) buffer)) pl
  = calculate_entropy entropy_x32 (drop (Z.to_nat h) buffer) pl.
Proof.
  intros Hh Hpl Hn. unfold calculate_entropy.
  destruct (pl =? 0); [reflexivity|]. f_equal.
  rewrite !take_drop_commute, take_take. f_equal. f_equal. lia.
Qed.

Lemma extract_ml_features_take now buffer len n :
  len <= n ->
  (ip_protocol buffer 14 = IPPROTO_TCP -> l4_offset buffer + 13 <= n) ->
  extract_ml_features entropy_x32 now (take (Z.to_nat n) buffer) len
  = extract_ml_features entropy_x32 now buffer len.
Proof.
  intros Hn Hdoff. unfold extract_ml_features. cbv zeta.
  unfold sizeof_ethhdr, sizeof_iphdr, sizeof_tcphdr, sizeof_udphdr.
  destruct (Z.ltb_spec len 14) as [|Heth]; [reflexivity|].
  unfold eth_h_proto. rewrite (load16_take buffer n) by lia.
  destruct (negb _); [reflexivity|].
  change (0 + 14) with 14. rewrite Z.gtb_ltb.
  destruct (Z.ltb_spec len (14 + 20)) as [|Hip]; [reflexivity|].
  unfold l4_offset, sizeof_ethhdr in Hdoff.
  unfold ip_saddr, ip_daddr, ip_protocol, ip_ttl, ip_ihl, tcp_doff, tcp_window,
    l4_source, l4_dest in *.
  rewrite !(load32_take buffer n) by lia.
  rewrite !(byte_at_take buffer n 14), !(byte_at_take buffer n (14 + 9)),
    !(byte_at_take buffer n (14 + 8)) by lia.
  assert (0 <= byte_at buffer 14 mod 16 < 16) as Hihl by (apply Z.mod_pos_bound; lia).
  set (l4 := 14 + byte_at buffer 14 mod 16 * 4) in *.
  rewrite Z.sub_0_r.
  destruct (Z.eqb_spec (byte_at buffer (14 + 9)) IPPROTO_TCP) as [Htcp|Hntcp].
  - rewrite (byte_at_take buffer n (l4 + 12)) by (specialize (Hdoff Htcp); lia).
    pose proof (byte_at_range buffer (l4 + 12)) as Hb.
    assert (0 <= byte_at buffer (l4 + 12) / 16 < 16) as Hd
      by (Z.div_mod_to_equations; lia).
    destruct (Z.leb_spec (l4 + 20) len) as [Hfit|Hcut].
    + rewrite !(load16_take buffer n), (byte_at_take buffer n (l4 + 13)) by lia.
      destruct (Z.ltb_spec (l4 + byte_at buffer (l4 + 12) / 16 * 4) len) as [Hpay|];
        [|reflexivity].
      rewrite calculate_entropy_take; [reflexivity | lia | apply Z.mod_pos_bound; lia |].
      unfold wrap16. pose proof (Z.mod_le (len - (l4 + byte_at buffer (l4 + 12) / 16 * 4)) (2 ^ 16)). lia.
    + destruct (Z.ltb_spec (l4 + byte_at buffer (l4 + 12) / 16 * 4) len) as [Hpay|];
        [|reflexivity].
      rewrite calculate_entropy_take; [reflexivity | lia | apply Z.mod_pos_bound; lia |].
      unfold wrap16. pose proof (Z.mod_le (len - (l4 + byte_at buffer (l4 + 12) / 16 * 4)) (2 ^ 16)). lia.
  - destruct (Z.eqb_spec (byte_at buffer (14 + 9)) IPPROTO_UDP) as [Hudp|Hnudp].
    + destruct (Z.leb_spec (l4 + 8) len) as [Hfit|Hcut].
      * rewrite !(load16_take buffer n) by lia.
        destruct (Z.ltb_spec (l4 + 8) len) as [Hpay|]; [|reflexivity].
        rewrite calculate_entropy_take; [reflexivity | lia | apply Z.mod_pos_bound; lia |].
        unfold wrap16. pose proof (Z.mod_le (len - (l4 + 8)) (2 ^ 16)). lia.
      * destruct (Z.ltb_spec (l4 + 8) len) as [Hpay|]; [|reflexivity].
        rewrite calculate_entropy_take; [reflexivity | lia | apply Z.mod_pos_bound; lia |].
        unfold wrap16. pose proof (Z.mod_le (len - (l4 + 8)) (2 ^ 16)). lia.
    + destruct (Z.ltb_spec l4 len) as [Hpay|]; [|reflexivity].
      rewrite calculate_entropy_take; [reflexivity | lia | apply Z.mod_pos_bound; lia |].
      unfold wrap16. pose proof (Z.mod_le (len - l4) (2 ^ 16)). lia.
Qed.

(** X10.  The extractor reads inside the frame except for one byte: what it
    extracts depends only on the first [len] bytes of the buffer, unless
    the packet is TCP and the frame ends before the data-offset byte of the
    TCP header, which is read unchecked.  In every case nothing at or
    beyond offset max(len, 87) is read. *)
Theorem extractor_reads_at_most_one_byte_outside now buffer len :
  extract_ml_features entropy_x32 now buffer len
  = extract_ml_features entropy_x32 now
      (take (Z.to_nat (Z.max len 87)) buffer) len /\
  (ip_protocol buffer 14 <> IPPROTO_TCP \/ l4_offset buffer + 13 <= len ->
   extract_ml_features entropy_x32 now buffer len
   = extract_ml_features entropy_x32 now (take (Z.to_nat len) buffer) len).
Proof.
  split.
  - symmetry. apply extract_ml_features_take; [lia|].
    intros _. unfold l4_offset, sizeof_ethhdr.
    pose proof (ip_ihl_range buffer 14). lia.
  - intros Hsafe. symmetry. apply extract_ml_features_take; [lia|].
    intros Htcp. destruct Hsafe; [contradiction | assumption].
Qed.

End Extract.

Lemma extractor_reads_at_most_one_byte_outside_witness :
  MlProcessor.extract_ml_features Samples.no_entropy 7
    (Samples.udp_dns ++ Samples.tcp_syn) 142
  = Some Samples.udp_dns_feature.
Proof.
  destruct (extractor_reads_at_most_one_byte_outside Samples.no_entropy 7
              (Samples.udp_dns ++ Samples.tcp_syn) 142) as [_ Hin].
  rewrite Hin by (left; vm_compute; discriminate).
  vm_compute. reflexivity.
Defined.

End ReadBounds.

(** ** The rings of the processor *)

Module RingFacts.
Import Wire WireFacts MlProcessor MlProcessorFacts DrainerFacts DrainerSpec.

Section Batch.
Variable entropy_x32 : list byte -> Z.
Variable get_time_ns : nat -> Z.
Variable ml_func : list ml_feature -> ml_feature -> Z.

(** X11.  A batch takes the first min(64, available) descriptors off the RX
    ring, in ring order, and leaves the rest; it does not write to the UMEM
    buffer and touches neither the fill ring nor the frame table. *)
Theorem batch_touches_only_the_rx_ring w :
  let r := process_rx_batch entropy_x32 get_time_ns ml_func w in
  r.1 = Nat.min RX_BATCH_SIZE (length (rx (xsk w))) /\
  rx (xsk w) = take r.1 (rx (xsk w)) ++ rx (xsk r.2) /\
  umem_buffer (xsk r.2) = umem_buffer (xsk w) /\
  fq (xsk r.2) = fq (xsk w) /\ fq_size (xsk r.2) = fq_size (xsk w) /\
  umem_frame_addr (xsk r.2) = umem_frame_addr (xsk w) /\
  umem_frame_free (xsk r.2) = umem_frame_free (xsk w).
Proof.
  cbv zeta. unfold process_rx_batch, xsk_ring_cons__peek, xsk_ring_cons__release.
  destruct (take RX_BATCH_SIZE (rx (xsk w))) as [|d batch] eqn:Hbatch.
  - cbn [length Nat.eqb fst snd].
    pose proof (length_take (rx (xsk w)) RX_BATCH_SIZE) as Hlen.
    rewrite Hbatch in Hlen. cbn [length] in Hlen.
    split; [lia|]. repeat (split; [reflexivity|]). reflexivity.
  - cbn [length Nat.eqb fst snd].
    pose proof (fold_process_desc_spec entropy_x32 get_time_ns ml_func (d :: batch) w)
      as H. cbv zeta in H.
    destruct H as (_ & Hring & Hfq & Hsz & Hbuf & Haddr & Hfree & _).
    cbn [xsk rx fq fq_size umem_buffer umem_frame_addr umem_frame_free].
    pose proof (length_take (rx (xsk w)) RX_BATCH_SIZE) as Hlen.
    rewrite Hbatch in Hlen. cbn [length] in Hlen.
    split; [lia|].
    split; [|by repeat split].
    rewrite Hring. symmetry. apply take_drop.
Qed.

Lemma process_desc_clock w d :
  let w' := process_desc entropy_x32 get_time_ns ml_func w d in
  rx_bytes (stats (xsk w')) = wrap64 (rx_bytes (stats (xsk w)) + len d) /\
  if desc_reparses (umem_buffer (xsk w)) d
  then ticks w' = (ticks w + 3)%nat /\
       exists f, ml_calls w' = ml_calls w ++ [f] /\
                 timestamp f = get_time_ns (ticks w)
  else ticks w' = ticks w /\ ml_calls w' = ml_calls w.
Proof.
  unfold process_desc, desc_reparses.
  destruct (extract_ml_features entropy_x32 (get_time_ns (ticks w))
              (xsk_umem__get_data (umem_buffer (xsk w)) (addr d)) (len d))
    as [f|] eqn:Hex; cbn.
  - split; [reflexivity|].
    replace (reparses _ _) with true
      by (symmetry; apply (extract_reparses entropy_x32 (get_time_ns (ticks w)));
          by eexists).
    split; [lia|]. exists f. split; [reflexivity|].
    apply extract_ml_features_Some in Hex. tauto.
  - split; [reflexivity|].
    destruct (reparses _ _) eqn:Hre; [|split; reflexivity].
    apply (extract_reparses entropy_x32 (get_time_ns (ticks w))) in Hre.
    rewrite Hex in Hre. by destruct Hre.
Qed.

Lemma fold_process_desc_clock batch : forall w,
  (forall a b, (a <= b)%nat -> get_time_ns a <= get_time_ns b) ->
  let w' := fold_left (process_desc entropy_x32 get_time_ns ml_func) batch w in
  (ticks w <= ticks w')%nat /\
  exists new,
    ml_calls w' = ml_calls w ++ new /\
    StronglySorted by_timestamp new /\
    Forall (fun f => get_time_ns (ticks w) <= timestamp f <= get_time_ns (ticks w')) new.
Proof.
  induction batch as [|d batch IH]; intros w Hmono.
  - cbn. split; [lia|]. exists []. rewrite app_nil_r. repeat split; constructor.
  - cbn [fold_left].
    pose proof (process_desc_spec entropy_x32 get_time_ns ml_func w d) as Hs.
    cbv zeta in Hs. destruct Hs as (_ & _ & _ & _ & Hbuf & _).
    pose proof (process_desc_clock w d) as Hd. cbv zeta in Hd. destruct Hd as [_ Hd].
    specialize (IH (process_desc entropy_x32 get_time_ns ml_func w d) Hmono).
    cbv zeta in IH. destruct IH as (Hticks & new & Hnew & Hsorted & Hall).
    destruct (desc_reparses (umem_buffer (xsk w)) d).
    + destruct Hd as (Ht & f & Hf & Hstamp). rewrite Ht in *.
      split; [lia|]. exists (f :: new). rewrite Hnew, Hf, <- app_assoc.
      split; [reflexivity|].
      assert (Forall (fun g => get_time_ns (ticks w) <= timestamp g
                               <= get_time_ns (ticks (fold_left
                                    (process_desc entropy_x32 get_time_ns ml_func)
                                    batch
                                    (process_desc entropy_x32 get_time_ns ml_func w d))))
                     new) as Hall'.
      { eapply Forall_impl; [exact Hall|]. cbn. intros g [Hlo Hhi].
        split; [|exact Hhi]. etrans; [|exact Hlo]. apply Hmono. lia. }
      split.
      * constructor; [exact Hsorted|].
        eapply Forall_impl; [exact Hall'|]. cbn. intros g [Hlo _].
        unfold by_timestamp. by rewrite Hstamp.
      * constructor; [|exact Hall'].
        rewrite Hstamp. split; [lia|]. apply Hmono. lia.
    + destruct Hd as (Ht & Hcalls). rewrite Ht, Hcalls in *.
      split; [exact Hticks|]. by exists new.
Qed.

(** X12.  With a clock that never goes back, the records a batch hands to
    the callback carry non-decreasing timestamps, all between the clock
    reading at the start of the batch and the one at its end; so
    timestamps never decrease from one callback invocation to the next,
    within a batch and across batches. *)
Theorem timestamps_never_go_back w :
  (forall a b, (a <= b)%nat -> get_time_ns a <= get_time_ns b) ->
  let w' := (process_rx_batch entropy_x32 get_time_ns ml_func w).2 in
  (ticks w <= ticks w')%nat /\
  exists new,
    ml_calls w' = ml_calls w ++ new /\
    StronglySorted by_timestamp new /\
    Forall (fun f => get_time_ns (ticks w) <= timestamp f <= get_time_ns (ticks w')) new.
Proof.
  intros Hmono. cbv zeta. unfold process_rx_batch.
  destruct (Nat.eqb _ 0) eqn:Hz.
  - cbn [snd]. split; [lia|]. exists []. rewrite app_nil_r. repeat split; constructor.
  - cbn [snd ticks ml_calls].
    apply (fold_process_desc_clock _ w Hmono).
Qed.

Lemma fold_process_desc_bytes batch : forall w,
  0 <= rx_bytes (stats (xsk w)) < 2 ^ 64 ->
  rx_bytes (stats (xsk (fold_left (process_desc entropy_x32 get_time_ns ml_func)
                                  batch w)))
  = wrap64 (rx_bytes (stats (xsk w)) + foldr Z.add 0 (len <$> batch)).
Proof.
  induction batch as [|d batch IH]; intros w Hr.
  - cbn. rewrite Z.add_0_r. symmetry. by apply wrap64_small.
  - cbn [fold_left fmap list_fmap foldr].
    pose proof (process_desc_clock w d) as Hd. cbv zeta in Hd. destruct Hd as [Hb _].
    rewrite IH by (rewrite Hb; apply wrap64_range).
    rewrite Hb. unfold wrap64. rewrite Z.add_mod_idemp_l by lia. f_equal. lia.
Qed.

(** X13.  [rx_bytes] grows by the lengths of all descriptors of the batch,
    those of frames that fail to re-parse included (modulo 2^64). *)
Theorem rx_bytes_counts_every_frame w :
  0 <= rx_bytes (stats (xsk w)) < 2 ^ 64 ->
  let batch := take RX_BATCH_SIZE (rx (xsk w)) in
  rx_bytes (stats (xsk (process_rx_batch entropy_x32 get_time_ns ml_func w).2))
  = wrap64 (rx_bytes (stats (xsk w)) + foldr Z.add 0 (len <$> batch)).
Proof.
  intros Hr. cbv zeta. unfold process_rx_batch, xsk_ring_cons__peek.
  destruct (take RX_BATCH_SIZE (rx (xsk w))) as [|d batch] eqn:Hbatch.
  - cbn. rewrite Z.add_0_r. symmetry. by apply wrap64_small.
  - cbn [length Nat.eqb snd xsk stats].
    by apply fold_process_desc_bytes.
Qed.

(** What a batch leaves of the socket, for the refill that follows. *)
Lemma process_rx_batch_rings w :
  let r := process_rx_batch entropy_x32 get_time_ns ml_func w in
  r.1 = Nat.min RX_BATCH_SIZE (length (rx (xsk w))) /\
  length (rx (xsk r.2)) = (length (rx (xsk w)) - r.1)%nat /\
  fq (xsk r.2) = fq (xsk w) /\ fq_size (xsk r.2) = fq_size (xsk w) /\
  umem_frame_addr (xsk r.2) = umem_frame_addr (xsk w) /\
  umem_frame_free (xsk r.2) = umem_frame_free (xsk w).
Proof.
  cbv zeta. unfold process_rx_batch, xsk_ring_cons__peek, xsk_ring_cons__release.
  pose proof (length_take (rx (xsk w)) RX_BATCH_SIZE) as Hlen.
  destruct (Nat.eqb (length (take RX_BATCH_SIZE (rx (xsk w)))) 0) eqn:Hz.
  - apply Nat.eqb_eq in Hz. cbn [fst snd]. rewrite Hz in *.
    repeat split; lia.
  - cbn [fst snd xsk rx fq fq_size umem_frame_addr umem_frame_free].
    pose proof (fold_process_desc_spec entropy_x32 get_time_ns ml_func
                  (take RX_BATCH_SIZE (rx (xsk w))) w) as H.
    cbv zeta in H. destruct H as (_ & Hring & Hfq & Hsz & _ & Haddr & Hfree & _).
    rewrite Hring, length_drop, Hlen. by repeat split.
Qed.

End Batch.

Lemma timestamps_never_go_back_witness :
  exists new,
    ml_calls (process_rx_batch Samples.no_entropy Samples.clock Samples.quiet_callback
                MoreSamples.three_frames).2 = [] ++ new /\
    StronglySorted by_timestamp new /\ length new = 2%nat.
Proof.
  destruct (timestamps_never_go_back Samples.no_entropy Samples.clock
              Samples.quiet_callback MoreSamples.three_frames)
    as (_ & new & Hnew & Hsorted & _).
  { intros a b Hab. unfold Samples.clock. lia. }
  exists new. split; [exact Hnew|]. split; [exact Hsorted|].
  assert (length (ml_calls (process_rx_batch Samples.no_entropy Samples.clock
            Samples.quiet_callback MoreSamples.three_frames).2) = 2%nat) as Hlen
    by (vm_compute; reflexivity).
  rewrite Hnew in Hlen. exact Hlen.
Defined.

Lemma rx_bytes_counts_every_frame_witness :
  rx_bytes (stats (xsk (process_rx_batch Samples.no_entropy Samples.clock
                          Samples.quiet_callback MoreSamples.three_frames).2))
  = 142 + 42 + 54.
Proof.
  rewrite (rx_bytes_counts_every_frame Samples.no_entropy Samples.clock
             Samples.quiet_callback MoreSamples.three_frames) by (cbn; lia).
  reflexivity.
Defined.

(** The refill loop works down from the free counter: asked for [ret]
    frames with [frame_free] left, it hands out the table entries
    [frame_free - 1], ..., [frame_free - ret] in that order and leaves the
    counter at [frame_free - ret]; asked for more than are left, it indexes
    the table out of bounds. *)
Lemma take_frames_spec table : forall ret frame_free,
  0 <= frame_free <= Z.of_nat (length table) ->
  Z.of_nat (length table) < 2 ^ 32 ->
  take_frames ret table frame_free
  = if Z.of_nat ret <=? frame_free
    then Some (reverse (take ret (drop (Z.to_nat frame_free - ret) table)),
               frame_free - Z.of_nat ret)
    else None.
Proof.
  induction ret as [|ret IH]; intros frame_free Hfree Hlen.
  - cbn [take_frames]. destruct (Z.leb_spec (Z.of_nat 0) frame_free); [|lia].
    cbn. f_equal. f_equal. lia.
  - destruct (Z.eq_dec frame_free 0) as [->|Hpos].
    + rewrite take_frames_underflow by exact Hlen.
      destruct (Z.leb_spec (Z.of_nat (S ret)) 0); [lia | reflexivity].
    + cbn [take_frames].
      assert (wrap32 (frame_free - 1) = frame_free - 1) as ->
        by (unfold wrap32; apply Z.mod_small; lia).
      destruct (lookup_lt_is_Some_2 table (Z.to_nat (frame_free - 1))) as [a Ha];
        [lia|].
      rewrite Ha, IH by lia.
      destruct (Z.leb_spec (Z.of_nat ret) (frame_free - 1));
        destruct (Z.leb_spec (Z.of_nat (S ret)) frame_free); try lia; [|reflexivity].
      f_equal. f_equal; [|lia].
      replace (Z.to_nat (frame_free - 1) - ret)%nat
        with (Z.to_nat frame_free - S ret)%nat by lia.
      rewrite (take_S_r _ ret a).
      * by rewrite reverse_snoc.
      * rewrite lookup_drop. rewrite <- Ha. f_equal. lia.
Qed.

(** X14.  When the fill ring has room and the free counter covers the
    batch, the refill appends exactly [rcvd] addresses to the fill ring,
    taken from the top of the frame table downwards, lowers the free
    counter by [rcvd], keeps the fill ring within its size and changes
    nothing else. *)
Theorem refill_appends_top_of_table rcvd x :
  (length (fq x) + rcvd <= fq_size x)%nat ->
  Z.of_nat rcvd <= umem_frame_free x <= Z.of_nat (length (umem_frame_addr x)) ->
  Z.of_nat (length (umem_frame_addr x)) < 2 ^ 32 ->
  exists x',
    refill_fq rcvd x = Some x' /\
    fq x' = fq x
            ++ reverse (take rcvd (drop (Z.to_nat (umem_frame_free x) - rcvd)
                                        (umem_frame_addr x))) /\
    length (fq x') = (length (fq x) + rcvd)%nat /\
    (length (fq x') <= fq_size x')%nat /\
    umem_frame_free x' = umem_frame_free x - Z.of_nat rcvd /\
    rx x' = rx x /\ fq_size x' = fq_size x /\
    umem_buffer x' = umem_buffer x /\
    umem_frame_addr x' = umem_frame_addr x /\ stats x' = stats x.
Proof.
  intros Hroom Hfree Hlen. unfold refill_fq, xsk_ring_prod__reserve.
  replace (_ <? _)%nat with false by (symmetry; apply Nat.ltb_ge; lia).
  rewrite take_frames_spec by lia.
  destruct (Z.leb_spec (Z.of_nat rcvd) (umem_frame_free x)); [|lia].
  eexists. split; [reflexivity|].
  cbn [fq rx fq_size umem_buffer umem_frame_addr umem_frame_free stats].
  split; [reflexivity|].
  assert (length (reverse (take rcvd (drop (Z.to_nat (umem_frame_free x) - rcvd)
                                           (umem_frame_addr x)))) = rcvd) as Hn.
  { rewrite length_reverse, length_take, length_drop. lia. }
  rewrite length_app, Hn.
  repeat (split; [first [reflexivity | lia]|]). reflexivity.
Qed.

Lemma refill_appends_top_of_table_witness :
  exists x',
    refill_fq 2 (xsk MoreSamples.three_frames) = Some x' /\
    fq x' = fq (xsk MoreSamples.three_frames) ++ [4095 * 4096; 4094 * 4096] /\
    umem_frame_free x' = 4096 - 2.
Proof.
  destruct (refill_appends_top_of_table 2 (xsk MoreSamples.three_frames))
    as (x' & Hx & Hfq & _ & _ & Hfree & _);
    [vm_compute; lia | vm_compute; split; discriminate
    | vm_compute; reflexivity |].
  exists x'. split; [exact Hx|]. split; [exact Hfq | exact Hfree].
Defined.

Section Iteration.
Variable entropy_x32 : list byte -> Z.
Variable get_time_ns : nat -> Z.
Variable ml_func : list ml_feature -> ml_feature -> Z.

(** X15.  One iteration with room in the fill ring: it fails (the frame
    table is indexed out of bounds) exactly when the batch is larger than
    the free counter; otherwise the fill ring receives as many addresses as
    the RX ring gave up, taken from below the free counter of the frame
    table, and the free counter drops by the size of the batch.  Nothing in
    the loop ever raises the counter or writes the table. *)
Theorem iteration_uses_up_the_free_counter w :
  let rcvd := Nat.min RX_BATCH_SIZE (length (rx (xsk w))) in
  (length (fq (xsk w)) + rcvd <= fq_size (xsk w))%nat ->
  0 <= umem_frame_free (xsk w) <= Z.of_nat (length (umem_frame_addr (xsk w))) ->
  Z.of_nat (length (umem_frame_addr (xsk w))) < 2 ^ 32 ->
  match run_ml_processor_iteration entropy_x32 get_time_ns ml_func w with
  | None => umem_frame_free (xsk w) < Z.of_nat rcvd
  | Some w' =>
    Z.of_nat rcvd <= umem_frame_free (xsk w) /\
    umem_frame_free (xsk w') = umem_frame_free (xsk w) - Z.of_nat rcvd /\
    fq (xsk w')
    = fq (xsk w)
      ++ reverse (take rcvd (drop (Z.to_nat (umem_frame_free (xsk w)) - rcvd)
                                  (umem_frame_addr (xsk w)))) /\
    (length (fq (xsk w')) + length (rx (xsk w'))
     = length (fq (xsk w)) + length (rx (xsk w)))%nat /\
    umem_frame_addr (xsk w') = umem_frame_addr (xsk w)
  end.
Proof.
  intros rcvd Hroom Hfree Hlen. unfold run_ml_processor_iteration.
  pose proof (process_rx_batch_rings entropy_x32 get_time_ns ml_func w) as Hb.
  cbv zeta in Hb.
  destruct (process_rx_batch entropy_x32 get_time_ns ml_func w) as [n w1] eqn:Hbatch.
  cbn [fst snd] in Hb.
  destruct Hb as (Hn & Hrx & Hfq & Hsz & Haddr & Hfr).
  fold rcvd in Hn. subst n.
  destruct (Nat.eqb rcvd 0) eqn:Hz.
  - apply Nat.eqb_eq in Hz. rewrite Hfq, Haddr, Hfr, Hrx, Hz.
    cbn [take reverse]. rewrite app_nil_r. repeat split; lia.
  - unfold refill_fq, xsk_ring_prod__reserve.
    rewrite Hfq, Hsz, Haddr, Hfr.
    replace (_ <? _)%nat with false by (symmetry; apply Nat.ltb_ge; lia).
    rewrite take_frames_spec by lia.
    destruct (Z.leb_spec (Z.of_nat rcvd) (umem_frame_free (xsk w))) as [Hok|Hshort];
      [|exact Hshort].
    cbn [xsk fq rx umem_frame_addr umem_frame_free].
    split; [exact Hok|]. split; [reflexivity|]. split; [reflexivity|].
    split; [|reflexivity].
    rewrite length_app, length_reverse, length_take, length_drop, Hrx.
    apply Nat.eqb_neq in Hz. unfold rcvd in *. lia.
Qed.

End Iteration.

Lemma iteration_uses_up_the_free_counter_witness :
  match run_ml_processor_iteration Samples.no_entropy Samples.clock
          Samples.quiet_callback MoreSamples.three_frames with
  | None => False
  | Some w' => umem_frame_free (xsk w') = 4096 - 3
  end.
Proof.
  pose proof (iteration_uses_up_the_free_counter Samples.no_entropy Samples.clock
                Samples.quiet_callback MoreSamples.three_frames) as H.
  cbv zeta in H.
  destruct (run_ml_processor_iteration Samples.no_entropy Samples.clock
              Samples.quiet_callback MoreSamples.three_frames) as [w'|].
  - destruct H as (_ & Hfree & _);
      [vm_compute; lia | vm_compute; split; discriminate
      | vm_compute; reflexivity |].
    exact Hfree.
  - apply (Z.lt_irrefl 3). etrans; [|apply H].
    + vm_compute. reflexivity.
    + vm_compute. lia.
    + vm_compute. split; discriminate.
    + vm_compute. reflexivity.
Defined.

Section Configure.
Variable FRAME_SIZE : Z.

Lemma frame_table_lookup i :
  (i < NUM_FRAMES)%nat ->
  frame_table FRAME_SIZE !! i = Some (wrap32 (Z.of_nat i * FRAME_SIZE)).
Proof.
  intros Hi. unfold frame_table.
  assert (forall (f : nat -> Z) l, map f l = f <$> l) as Hmap
    by (intros f l; induction l; cbn; congruence).
  rewrite Hmap, list_lookup_fmap, lookup_seq_lt by exact Hi. reflexivity.
Qed.

Lemma frame_table_length : length (frame_table FRAME_SIZE) = NUM_FRAMES.
Proof. unfold frame_table. by rewrite length_map, length_seq. Qed.

(** X16.  With room for the whole pool and frames of a size that keeps
    every address below 2^32, [configure_xsk_socket] puts the 4096 frame
    addresses 0, FRAME_SIZE, ..., 4095 * FRAME_SIZE on the fill ring, in
    that order and after what was there; the frame table holds the same
    addresses, all distinct, and the free counter reads 4096. *)
Theorem configure_fills_the_ring_with_distinct_frames x :
  (length (fq x) + NUM_FRAMES <= fq_size x)%nat ->
  0 < FRAME_SIZE -> Z.of_nat NUM_FRAMES * FRAME_SIZE <= 2 ^ 32 ->
  exists x',
    configure_xsk_socket FRAME_SIZE x = Some x' /\
    fq x' = fq x ++ umem_frame_addr x' /\
    length (umem_frame_addr x') = NUM_FRAMES /\
    (forall i, (i < NUM_FRAMES)%nat ->
               umem_frame_addr x' !! i = Some (Z.of_nat i * FRAME_SIZE)) /\
    NoDup (umem_frame_addr x') /\
    umem_frame_free x' = Z.of_nat NUM_FRAMES /\
    (length (fq x') <= fq_size x')%nat /\
    rx x' = rx x /\ umem_buffer x' = umem_buffer x /\ stats x' = stats x.
Proof.
  intros Hroom Hpos Hfit. unfold configure_xsk_socket, xsk_ring_prod__reserve.
  replace (_ <? _)%nat with false by (symmetry; apply Nat.ltb_ge; lia).
  rewrite Nat.eqb_refl. cbn [negb].
  eexists. split; [reflexivity|].
  cbn [fq rx fq_size umem_buffer umem_frame_addr umem_frame_free stats].
  assert (forall i, (i < NUM_FRAMES)%nat ->
            frame_table FRAME_SIZE !! i = Some (Z.of_nat i * FRAME_SIZE)) as Hlook.
  { intros i Hi. rewrite frame_table_lookup by exact Hi. f_equal.
    unfold wrap32. apply Z.mod_small. nia. }
  split; [reflexivity|]. split; [apply frame_table_length|].
  split; [exact Hlook|].
  split.
  - apply NoDup_alt. intros i j a Hi Hj.
    pose proof (lookup_lt_Some _ _ _ Hi) as Hi'.
    pose proof (lookup_lt_Some _ _ _ Hj) as Hj'.
    rewrite frame_table_length in Hi', Hj'.
    rewrite Hlook in Hi, Hj by assumption.
    assert (Z.of_nat i * FRAME_SIZE = Z.of_nat j * FRAME_SIZE) as Heq by congruence.
    nia.
  - split; [reflexivity|].
    split; [rewrite length_app, frame_table_length; lia|].
    repeat split; reflexivity.
Qed.

End Configure.

Lemma configure_fills_the_ring_with_distinct_frames_witness :
  exists x',
    MoreSamples.roomy_start = Some x' /\
    umem_frame_addr x' !! 4095%nat = Some (4095 * 4096) /\
    NoDup (umem_frame_addr x').
Proof.
  destruct (configure_fills_the_ring_with_distinct_frames 4096
              (xsk_umem__create (2 * NUM_FRAMES) MoreSamples.umem_three
                 xsk_info_zero))
    as (x' & Hx & _ & _ & Hlook & Hnodup & _);
    [cbn; unfold NUM_FRAMES; lia | lia | unfold NUM_FRAMES; lia |].
  exists x'. split; [exact Hx|]. split; [|exact Hnodup].
  apply (Hlook 4095%nat). unfold NUM_FRAMES. lia.
Defined.

End RingFacts.

(** ** The clock and the address printers *)

Module PrinterFacts.
Import Wire WireFacts.

Lemma octets_of_be32 b0 b1 b2 b3 :
  0 <= b0 < 256 -> 0 <= b1 < 256 -> 0 <= b2 < 256 -> 0 <= b3 < 256 ->
  let ip := 2 ^ 24 * b0 + 2 ^ 16 * b1 + 2 ^ 8 * b2 + b3 in
  Z.land (Z.shiftr ip 24) 0xFF = b0 /\
  Z.land (Z.shiftr ip 16) 0xFF = b1 /\
  Z.land (Z.shiftr ip 8) 0xFF = b2 /\
  Z.land ip 0xFF = b3.
Proof.
  intros H0 H1 H2 H3 ip. subst ip.
  change 0xFF with (Z.ones 8).
  rewrite !Z.land_ones, !Z.shiftr_div_pow2 by lia.
  change (2 ^ 24) with 16777216. change (2 ^ 16) with 65536.
  change (2 ^ 8) with 256.
  repeat split; Z.div_mod_to_equations; lia.
Qed.

Lemma octets_of_field mem off :
  let ip := be32 mem off in
  Z.land (Z.shiftr ip 24) 0xFF = byte_at mem off /\
  Z.land (Z.shiftr ip 16) 0xFF = byte_at mem (off + 1) /\
  Z.land (Z.shiftr ip 8) 0xFF = byte_at mem (off + 2) /\
  Z.land ip 0xFF = byte_at mem (off + 3).
Proof.
  apply octets_of_be32; apply byte_at_range.
Qed.

(** X17.  A clock reading loses nothing: while the seconds fit (the sum
    stays below 2^64), [get_time_ns] is [tv_sec * 10^9 + tv_nsec], the two
    fields come back by division and remainder, and readings compare like
    the [timespec] values they are made from. *)
Theorem get_time_ns_keeps_the_timespec tv_sec tv_nsec :
  0 <= tv_sec -> 0 <= tv_nsec < 1000000000 ->
  tv_sec * 1000000000 + tv_nsec < 2 ^ 64 ->
  FeatureH.get_time_ns tv_sec tv_nsec / 1000000000 = tv_sec /\
  FeatureH.get_time_ns tv_sec tv_nsec mod 1000000000 = tv_nsec /\
  forall tv_sec' tv_nsec',
    0 <= tv_sec' -> 0 <= tv_nsec' < 1000000000 ->
    tv_sec' * 1000000000 + tv_nsec' < 2 ^ 64 ->
    (FeatureH.get_time_ns tv_sec tv_nsec <= FeatureH.get_time_ns tv_sec' tv_nsec'
     <-> tv_sec < tv_sec' \/ (tv_sec = tv_sec' /\ tv_nsec <= tv_nsec')).
Proof.
  intros Hs Hn Hfit.
  assert (forall s n, 0 <= s -> 0 <= n < 1000000000 ->
                      s * 1000000000 + n < 2 ^ 64 ->
                      FeatureH.get_time_ns s n = s * 1000000000 + n) as Hval.
  { intros s n Hs' Hn' Hfit'. unfold FeatureH.get_time_ns.
    rewrite (wrap64_small s) by lia.
    rewrite (wrap64_small n) by lia.
    rewrite (wrap64_small (s * 1000000000)) by lia.
    apply wrap64_small. lia. }
  rewrite Hval by assumption.
  split; [|split].
  - Z.div_mod_to_equations. lia.
  - Z.div_mod_to_equations. lia.
  - intros s' n' Hs' Hn' Hfit'. rewrite Hval by assumption. lia.
Qed.

Lemma get_time_ns_keeps_the_timespec_witness :
  FeatureH.get_time_ns 12 345678901 / 1000000000 = 12.
Proof.
  apply (get_time_ns_keeps_the_timespec 12 345678901); [lia|lia|].
  vm_compute. reflexivity.
Defined.

(** X18.  The baseline's debug line shows an address as it is on the wire:
    [ip_to_str] of [feature.h], given [ntohl] of a stored address, prints
    the four address bytes of the frame in their order. *)
Theorem baseline_address_prints_in_wire_order now buffer len g :
  Baseline.received_feature now buffer len = Some g ->
  FeatureH.ip_to_str (ntohl (Baseline.src_ip g))
  = FeatureH.dotted (byte_at buffer 26) (byte_at buffer 27)
                    (byte_at buffer 28) (byte_at buffer 29) /\
  FeatureH.ip_to_str (ntohl (Baseline.dst_ip g))
  = FeatureH.dotted (byte_at buffer 30) (byte_at buffer 31)
                    (byte_at buffer 32) (byte_at buffer 33).
Proof.
  intros H.
  destruct (BaselineFacts.received_feature_network_order _ _ _ _ H)
    as (Hs & Hd & _).
  rewrite Hs, Hd. unfold FeatureH.ip_to_str.
  destruct (octets_of_field buffer 26) as (-> & -> & -> & ->).
  destruct (octets_of_field buffer 30) as (-> & -> & -> & ->).
  split; reflexivity.
Qed.

Lemma baseline_address_prints_in_wire_order_witness :
  FeatureH.ip_to_str (ntohl (Baseline.src_ip Samples.udp_dns_baseline_feature))
  = FeatureH.dotted (byte_at Samples.udp_dns 26) (byte_at Samples.udp_dns 27)
                    (byte_at Samples.udp_dns 28) (byte_at Samples.udp_dns 29).
Proof.
  refine (proj1 (baseline_address_prints_in_wire_order
                   7 Samples.udp_dns 142 Samples.udp_dns_baseline_feature _)).
  vm_compute. reflexivity.
Defined.

Section Example.

Variable entropy_x32 : list byte -> Z.

(** X19.  The processor's own [ip_to_str] starts from the low byte, and the
    extractor stores addresses in host order: the line printed for an
    extracted record shows each address with its four bytes reversed. *)
Theorem processor_address_prints_reversed now pkt len f :
  MlProcessor.extract_ml_features entropy_x32 now pkt len = Some f ->
  MlExample.ip_to_str (MlProcessor.src_ip f)
  = FeatureH.dotted (byte_at pkt 29) (byte_at pkt 28)
                    (byte_at pkt 27) (byte_at pkt 26) /\
  MlExample.ip_to_str (MlProcessor.dst_ip f)
  = FeatureH.dotted (byte_at pkt 33) (byte_at pkt 32)
                    (byte_at pkt 31) (byte_at pkt 30).
Proof.
  intros H.
  destruct (MlProcessorFacts.extract_ml_features_Some _ _ _ _ _ H)
    as (_ & Hs & Hd & _).
  rewrite Hs, Hd. unfold MlExample.ip_to_str.
  destruct (octets_of_field pkt 26) as (-> & -> & -> & ->).
  destruct (octets_of_field pkt 30) as (-> & -> & -> & ->).
  split; reflexivity.
Qed.

(** X20.  A frame that is neither TCP nor UDP is always reported: its record
    gets class 1, so [example_ml_processor] returns 1 and prints its line,
    whatever the packet count. *)
Theorem other_protocols_are_reported now pkt len f packet_count :
  MlProcessor.extract_ml_features entropy_x32 now pkt len = Some f ->
  ip_protocol pkt 14 <> IPPROTO_TCP -> ip_protocol pkt 14 <> IPPROTO_UDP ->
  MlExample.example_ml_processor packet_count f
  = (1, incr64 packet_count,
     Some (MlExample.report_line (incr64 packet_count) f true)).
Proof.
  intros H Htcp Hudp.
  destruct (MlProcessorFacts.extract_ml_features_Some _ _ _ _ _ H)
    as (_ & _ & _ & Hp & _ & _ & _ & Hsp & Hdp & _ & _ & _ & _ & _ & Hc & _).
  assert (MlProcessor.l4_present pkt len = false) as Hl4.
  { unfold MlProcessor.l4_present.
    apply Z.eqb_neq in Htcp, Hudp. rewrite Htcp, Hudp. reflexivity. }
  rewrite Hl4 in Hsp, Hdp.
  assert (MlProcessor.traffic_class f = 1) as Hclass.
  { rewrite Hc, Hsp, Hdp, Hp. unfold MlProcessor.traffic_class_rule.
    apply Z.eqb_neq in Htcp, Hudp. rewrite Htcp, Hudp. reflexivity. }
  unfold MlExample.example_ml_processor. cbv zeta. rewrite Hclass.
  change (1 =? 1) with true. cbv iota.
  destruct (_ && _); reflexivity.
Qed.

End Example.

Lemma processor_address_prints_reversed_witness :
  MlExample.ip_to_str (MlProcessor.src_ip Samples.udp_dns_feature)
  = FeatureH.dotted (byte_at Samples.udp_dns 29) (byte_at Samples.udp_dns 28)
                    (byte_at Samples.udp_dns 27) (byte_at Samples.udp_dns 26).
Proof.
  refine (proj1 (processor_address_prints_reversed
                   Samples.no_entropy 7 Samples.udp_dns 142
                   Samples.udp_dns_feature _)).
  vm_compute. reflexivity.
Defined.

Lemma other_protocols_are_reported_witness :
  MlExample.example_ml_processor 99 Samples.icmp_echo_feature
  = (1, incr64 99,
     Some (MlExample.report_line (incr64 99) Samples.icmp_echo_feature true)).
Proof.
  refine (other_protocols_are_reported
            Samples.no_entropy 7 Samples.icmp_echo 42
            Samples.icmp_echo_feature 99 _ _ _).
  - vm_compute. reflexivity.
  - vm_compute. discriminate.
  - vm_compute. discriminate.
Defined.

End PrinterFacts.

(** ** The sampling classifier *)

Module FilterFacts.
Import Wire WireFacts XdpMlFilter.

Lemma filter_update_stat key value stats :
  update_stat key value stats = XdpPreproc.update_stat key value stats.
Proof. reflexivity. Qed.

Lemma filter_update_stat_lookup stats i v j :
  update_stat i v stats !! j
  = (fun old => if Nat.eqb i j then wrap64 (old + v) else old) <$> stats !! j.
Proof.
  rewrite filter_update_stat.
  destruct (stats !! j) as [old|] eqn:Hj.
  - by apply XdpPreprocFacts.update_stat_lookup.
  - apply lookup_ge_None. rewrite XdpPreprocFacts.update_stat_length.
    by apply lookup_ge_None.
Qed.

(** The decisions of consecutive calls, while the counter does not wrap. *)
Lemma sample_calls_closed rate n : forall c,
  0 < rate -> 0 <= c -> c + Z.of_nat n < 2 ^ 32 ->
  sample_calls rate n c
  = map (fun k : nat => (c + Z.of_nat k) mod rate =? 0) (seq 1 n).
Proof.
  induction n as [|n IH]; intros c Hrate Hc Hn; [reflexivity|].
  cbn [sample_calls should_sample seq map]. unfold should_sample.
  assert (wrap32 (c + 1) = c + 1) as -> by (unfold wrap32; apply Z.mod_small; lia).
  assert ((rate =? 0) = false) as -> by (apply Z.eqb_neq; lia).
  rewrite IH by lia. rewrite <- (seq_shift n 1), map_map.
  f_equal. apply map_ext. intros k. do 2 f_equal. lia.
Qed.

Lemma filter_seq_none (P : nat -> bool) n : forall a,
  (forall k, (a <= k < a + n)%nat -> P k = false) ->
  List.filter P (seq a n) = [].
Proof.
  induction n as [|n IH]; intros a Hall; [reflexivity|].
  cbn [seq List.filter]. rewrite Hall by lia. apply IH. intros k Hk.
  apply Hall. lia.
Qed.

Lemma filter_seq_one (P : nat -> bool) k0 n : forall a,
  (a <= k0 < a + n)%nat ->
  (forall k, (a <= k < a + n)%nat -> P k = true <-> k = k0) ->
  List.filter P (seq a n) = [k0].
Proof.
  induction n as [|n IH]; intros a Hk0 Hiff; [lia|].
  cbn [seq List.filter].
  destruct (decide (a = k0)) as [->|Hne].
  - rewrite (proj2 (Hiff k0 ltac:(lia)) eq_refl).
    f_equal. apply filter_seq_none. intros k Hk.
    destruct (P k) eqn:HP; [|reflexivity].
    apply Hiff in HP; lia.
  - destruct (P a) eqn:HP; [apply Hiff in HP; lia|].
    apply IH; [lia|]. intros k Hk. apply Hiff. lia.
Qed.

(** X21.  [should_sample] with a rate N > 0 selects exactly one call out of
    every N consecutive ones, as long as the 32-bit counter does not wrap
    in between: the one that brings the counter to a multiple of N. *)
Theorem sampling_selects_one_in_rate rate c :
  0 < rate -> 0 <= c -> c + rate < 2 ^ 32 ->
  length (List.filter id (sample_calls rate (Z.to_nat rate) c)) = 1%nat.
Proof.
  intros Hrate Hc Hroom.
  rewrite sample_calls_closed by lia.
  assert (forall (f : nat -> bool) l,
            length (List.filter id (map f l)) = length (List.filter f l)) as Hmap.
  { intros f l. induction l as [|x l IH]; [reflexivity|].
    cbn [map List.filter]. unfold id at 1. destruct (f x); cbn [length]; lia. }
  rewrite Hmap.
  rewrite (filter_seq_one _ (Z.to_nat (rate - c mod rate))); [reflexivity| |].
  - pose proof (Z.mod_pos_bound c rate Hrate). lia.
  - intros k Hk. pose proof (Z.mod_pos_bound c rate Hrate) as Hm.
    split.
    + intros Hz. apply Z.eqb_eq in Hz.
      assert (Z.of_nat k = rate - c mod rate); [|lia].
      apply Z.mod_divide in Hz; [|lia]. destruct Hz as [q Hq].
      pose proof (Z.div_mod c rate ltac:(lia)) as Hdiv.
      assert (c mod rate + Z.of_nat k = (q - c / rate) * rate) as Hd by lia.
      assert (0 < q - c / rate) by nia.
      assert (q - c / rate < 2) by nia.
      assert (q - c / rate = 1) as H1 by lia.
      rewrite H1 in Hd. lia.
    + intros ->. apply Z.eqb_eq.
      rewrite Z2Nat.id by lia.
      replace (c + (rate - c mod rate)) with (c - c mod rate + 1 * rate) by lia.
      rewrite Z.mod_add by lia.
      rewrite Zminus_mod_idemp_r, Z.sub_diag. apply Z.mod_0_l. lia.
Qed.

Lemma sampling_selects_one_in_rate_witness :
  length (List.filter id (sample_calls 100 (Z.to_nat 100) 42)) = 1%nat.
Proof.
  apply (sampling_selects_one_in_rate 100 42); lia.
Defined.

Section Program.

Variable bpf_redirect_map : Z -> Z -> XdpPreproc.xdp_action.

(** X22.  The program never drops or aborts a frame: the verdict is
    [XDP_PASS] or [XDP_REDIRECT], and it is [XDP_REDIRECT] exactly when the
    frame parses as TCP or UDP over IPv4, the sampling counter selects it,
    its class is priority or suspicious, and the redirect helper accepts
    the configured queue. *)
Theorem filter_redirects_only_sampled_flagged_frames t0 t1 ctx m :
  let verdict := (xdp_ml_packet_processor bpf_redirect_map t0 t1 ctx m).1 in
  (verdict = XdpPreproc.XDP_PASS \/ verdict = XdpPreproc.XDP_REDIRECT) /\
  (verdict = XdpPreproc.XDP_REDIRECT <->
   exists sip dip sp dp proto,
     parsed ctx = Some (sip, dip, sp, dp, proto) /\
     (should_sample (rate_of (config_map m)) (counter m)).1 = true /\
     classify_traffic sip dip sp dp proto <> FLOW_NORMAL /\
     bpf_redirect_map (queue_of (config_map m)) 0 = XdpPreproc.XDP_REDIRECT).
Proof.
  cbv zeta. unfold xdp_ml_packet_processor, parsed. cbv zeta.
  destruct (parse_ethernet _ _ _) as [h|];
    [|cbn; split; [by left|]; split; [discriminate | by intros (?&?&?&?&?&?&_)]].
  destruct (parse_ip _ _ _) as [[[[[h' sip] dip] proto] l]|];
    [|cbn; split; [by left|]; split; [discriminate | by intros (?&?&?&?&?&?&_)]].
  destruct (parse_transport _ _ _ _) as [[[sp dp] fl]|];
    [|cbn; split; [by left|]; split; [discriminate | by intros (?&?&?&?&?&?&_)]].
  assert (forall k v m0, config_map (stat_add k v m0) = config_map m0) as Hcfg
    by reflexivity.
  assert (forall k v m0, counter (stat_add k v m0) = counter m0) as Hctr
    by reflexivity.
  assert (config_map
            (stat_add STAT_FILTERED_PACKETS 1
               (if proto =? IPPROTO_TCP
                then stat_add STAT_TCP_PACKETS 1 (stat_add STAT_TOTAL_PACKETS 1 m)
                else if proto =? IPPROTO_UDP
                     then stat_add STAT_UDP_PACKETS 1 (stat_add STAT_TOTAL_PACKETS 1 m)
                     else stat_add STAT_TOTAL_PACKETS 1 m)) = config_map m) as Hc
    by (destruct (proto =? IPPROTO_TCP), (proto =? IPPROTO_UDP); reflexivity).
  assert (counter
            (stat_add STAT_FILTERED_PACKETS 1
               (if proto =? IPPROTO_TCP
                then stat_add STAT_TCP_PACKETS 1 (stat_add STAT_TOTAL_PACKETS 1 m)
                else if proto =? IPPROTO_UDP
                     then stat_add STAT_UDP_PACKETS 1 (stat_add STAT_TOTAL_PACKETS 1 m)
                     else stat_add STAT_TOTAL_PACKETS 1 m)) = counter m) as Hn
    by (destruct (proto =? IPPROTO_TCP), (proto =? IPPROTO_UDP); reflexivity).
  rewrite Hc, Hn. fold (rate_of (config_map m)). fold (queue_of (config_map m)).
  destruct (should_sample (rate_of (config_map m)) (counter m)) as [sample n] eqn:Hs.
  cbn [fst].
  destruct sample; cbn [negb];
    [|cbn; split; [by left|]; split;
      [discriminate | by intros (?&?&?&?&?&?&?&_)]].
  destruct ((classify_traffic sip dip sp dp proto =? FLOW_PRIORITY)
            || (classify_traffic sip dip sp dp proto =? FLOW_SUSPICIOUS)) eqn:Hclass.
  - assert (classify_traffic sip dip sp dp proto <> FLOW_NORMAL) as Hne
      by (unfold FLOW_NORMAL, FLOW_PRIORITY, FLOW_SUSPICIOUS in *; bool_crush).
    destruct (bpf_redirect_map (queue_of (config_map m)) 0) eqn:Hret; cbn [fst].
    all: split; [by (left + right)|].
    all: split; try discriminate.
    all: try (intros (?&?&?&?&?&_&_&_&?); discriminate).
    + intros _. by exists sip, dip, sp, dp, proto.
    + intros _. reflexivity.
  - cbn [fst]. split; [by left|]. split; [discriminate|].
    intros (?&?&?&?&?&[= <- <- <- <- <-]&_&Hne&_).
    exfalso. apply Hne. unfold classify_traffic in *.
    repeat match goal with
           | H : context [if ?b then _ else _] |- _ => destruct b
           | |- context [if ?b then _ else _] => destruct b
           end; first [reflexivity | discriminate].
Qed.

(** A frame the sampling counter does not select is passed. *)
Lemma not_sampled_is_passed t0 t1 ctx m :
  (should_sample (rate_of (config_map m)) (counter m)).1 = false ->
  (xdp_ml_packet_processor bpf_redirect_map t0 t1 ctx m).1 = XdpPreproc.XDP_PASS.
Proof.
  intros Hs. unfold xdp_ml_packet_processor. cbv zeta.
  destruct (parse_ethernet _ _ _) as [h|]; [|reflexivity].
  destruct (parse_ip _ _ _) as [[[[[h' sip] dip] proto] l]|]; [|reflexivity].
  destruct (parse_transport _ _ _ _) as [[[sp dp] fl]|]; [|reflexivity].
  assert (forall b1 b2 (x y z : ml_maps),
            config_map x = config_map m -> config_map y = config_map m ->
            config_map z = config_map m ->
            config_map (stat_add STAT_FILTERED_PACKETS 1
                          (if b1 : bool then x else if b2 : bool then y else z))
            = config_map m) as Hc
    by (intros [] [] ? ? ? ? ? ?; assumption).
  assert (forall b1 b2 (x y z : ml_maps),
            counter x = counter m -> counter y = counter m ->
            counter z = counter m ->
            counter (stat_add STAT_FILTERED_PACKETS 1
                       (if b1 : bool then x else if b2 : bool then y else z))
            = counter m) as Hn
    by (intros [] [] ? ? ? ? ? ?; assumption).
  rewrite Hc, Hn by reflexivity.
  fold (rate_of (config_map m)).
  destruct (should_sample (rate_of (config_map m)) (counter m)) as [sample n].
  cbn [fst] in Hs. subst sample. reflexivity.
Qed.

Lemma parse_transport_protocol mem data data_end proto r :
  parse_transport mem data data_end proto = Some r ->
  (proto =? IPPROTO_TCP) = true \/
  ((proto =? IPPROTO_TCP) = false /\ (proto =? IPPROTO_UDP) = true).
Proof.
  unfold parse_transport.
  destruct (proto =? IPPROTO_TCP); [by left|].
  destruct (proto =? IPPROTO_UDP); [by right | discriminate].
Qed.

(** The configuration is only read; the sampling counter moves by one for
    a frame that parses and not at all for one that does not. *)
Lemma packet_state t0 t1 ctx m :
  let m' := (xdp_ml_packet_processor bpf_redirect_map t0 t1 ctx m).2 in
  config_map m' = config_map m /\
  counter m' = match parsed ctx with
               | Some _ => wrap32 (counter m + 1)
               | None => counter m
               end.
Proof.
  cbv zeta. unfold xdp_ml_packet_processor, parsed. cbv zeta.
  destruct (parse_ethernet _ _ _) as [h|]; [|by split].
  destruct (parse_ip _ _ _) as [[[[[h' sip] dip] proto] l]|]; [|by split].
  destruct (parse_transport _ _ _ _) as [[[sp dp] fl]|] eqn:Ht; [|by split].
  destruct (parse_transport_protocol _ _ _ _ _ Ht) as [Htcp|[Htcp Hudp]];
    rewrite Htcp; [|rewrite Hudp].
  all: cbn [config_map counter stat_add].
  all: unfold should_sample; cbv zeta.
  all: repeat match goal with
              | |- context [if ?b then _ else _] => destruct b
              | |- context [match bpf_redirect_map ?q ?fl with _ => _ end] =>
                destruct (bpf_redirect_map q fl)
              end.
  all: by split.
Qed.

(** X23.  A filter whose configuration slot holds a sampling rate of 0
    (the zero-initialised slot nobody has written) steers nothing: the
    remainder by 0 is the counter itself, which is not 0 before the 32-bit
    counter wraps, so every verdict is [XDP_PASS]. *)
Theorem unconfigured_filter_never_redirects arrivals : forall m c,
  config_map m = Some c -> sampling_rate c = 0 ->
  0 <= counter m -> counter m + Z.of_nat (length arrivals) < 2 ^ 32 ->
  Forall (fun v => v = XdpPreproc.XDP_PASS) (run bpf_redirect_map arrivals m).1.
Proof.
  induction arrivals as [|a rest IH]; intros m c Hc Hrate Hpos Hroom;
    [constructor|].
  cbn [run length] in *.
  pose proof (not_sampled_is_passed (XdpPreproc.a_start a) (XdpPreproc.a_end a)
                (XdpPreproc.a_frame a) m) as Hv.
  pose proof (packet_state (XdpPreproc.a_start a) (XdpPreproc.a_end a)
                (XdpPreproc.a_frame a) m) as Hs.
  cbv zeta in Hs.
  destruct (xdp_ml_packet_processor bpf_redirect_map (XdpPreproc.a_start a)
              (XdpPreproc.a_end a) (XdpPreproc.a_frame a) m) as [v m1].
  cbn [fst snd] in Hv, Hs. destruct Hs as [Hc1 Hn1].
  assert (v = XdpPreproc.XDP_PASS) as ->.
  { apply Hv. rewrite Hc. unfold rate_of, should_sample.
    rewrite Hrate. cbn [fst Z.eqb].
    unfold wrap32. rewrite Z.mod_small by lia.
    destruct (Z.eqb_spec (counter m + 1) 0); [lia | reflexivity]. }
  assert (0 <= counter m1 /\ counter m1 <= counter m + 1) as Hbound.
  { rewrite Hn1. destruct (parsed _); [|lia].
    unfold wrap32. rewrite Z.mod_small by lia. lia. }
  specialize (IH m1 c). 
  destruct (run bpf_redirect_map rest m1) as [vs m2]. cbn [fst] in *.
  constructor; [reflexivity|].
  apply IH; [by rewrite Hc1 | exact Hrate | lia | lia].
Qed.

(** What one invocation does to each counter. *)
Lemma packet_accounting t0 t1 ctx m :
  let stats := stats_map m in
  let stats' := stats_map (xdp_ml_packet_processor bpf_redirect_map t0 t1 ctx m).2 in
  stats' !! STAT_TOTAL_PACKETS = incr64 <$> stats !! STAT_TOTAL_PACKETS /\
  match parsed ctx with
  | None =>
    stats' !! STAT_DROPPED_PACKETS = incr64 <$> stats !! STAT_DROPPED_PACKETS /\
    stats' !! STAT_FILTERED_PACKETS = stats !! STAT_FILTERED_PACKETS /\
    stats' !! STAT_TCP_PACKETS = stats !! STAT_TCP_PACKETS /\
    stats' !! STAT_UDP_PACKETS = stats !! STAT_UDP_PACKETS /\
    stats' !! STAT_PROCESSING_TIME = stats !! STAT_PROCESSING_TIME
  | Some (_, _, _, _, proto) =>
    stats' !! STAT_DROPPED_PACKETS = stats !! STAT_DROPPED_PACKETS /\
    stats' !! STAT_FILTERED_PACKETS = incr64 <$> stats !! STAT_FILTERED_PACKETS /\
    stats' !! STAT_TCP_PACKETS
    = (if proto =? IPPROTO_TCP then incr64 else id) <$> stats !! STAT_TCP_PACKETS /\
    stats' !! STAT_UDP_PACKETS
    = (if proto =? IPPROTO_TCP then id else incr64) <$> stats !! STAT_UDP_PACKETS /\
    stats' !! STAT_PROCESSING_TIME
    = (fun old => wrap64 (old + wrap64 (t1 - t0))) <$> stats !! STAT_PROCESSING_TIME
  end.
Proof.
  cbv zeta. unfold xdp_ml_packet_processor, parsed. cbv zeta.
  destruct (parse_ethernet _ _ _) as [h|].
  2: { cbn [snd stats_map stat_add]. rewrite !filter_update_stat_lookup.
       repeat split; by destruct (stats_map m !! _). }
  destruct (parse_ip _ _ _) as [[[[[h' sip] dip] proto] l]|].
  2: { cbn [snd stats_map stat_add]. rewrite !filter_update_stat_lookup.
       repeat split; by destruct (stats_map m !! _). }
  destruct (parse_transport _ _ _ _) as [[[sp dp] fl]|] eqn:Ht.
  2: { cbn [snd stats_map stat_add]. rewrite !filter_update_stat_lookup.
       repeat split; by destruct (stats_map m !! _). }
  destruct (parse_transport_protocol _ _ _ _ _ Ht) as [Htcp|[Htcp Hudp]];
    rewrite Htcp; [|rewrite Hudp].
  all: cbn [config_map counter stat_add].
  all: destruct (should_sample _ _) as [sample n].
  all: destruct sample; cbn [negb].
  all: repeat match goal with
              | |- context [if ?b then _ else _] => destruct b
              | |- context [match bpf_redirect_map ?q ?fl with _ => _ end] =>
                destruct (bpf_redirect_map q fl)
              end.
  all: cbn [snd stats_map stat_add]; rewrite !filter_update_stat_lookup.
  all: repeat split; by destruct (stats_map m !! _).
Qed.

(** X24.  The counters stay in step over any sequence of frames: every
    frame is counted as total and then exactly once as dropped or as
    filtered, and every filtered frame exactly once as TCP or as UDP, so
    total = dropped + filtered and filtered = tcp + udp (modulo 2^64); one
    verdict is given per frame. *)
Theorem filter_books_balance arrivals : forall m,
  books_balance (stats_map m) ->
  books_balance (stats_map (run bpf_redirect_map arrivals m).2) /\
  length (run bpf_redirect_map arrivals m).1 = length arrivals.
Proof.
  induction arrivals as [|a rest IH]; intros m Hbal; [by split|].
  cbn [run].
  destruct (xdp_ml_packet_processor bpf_redirect_map (XdpPreproc.a_start a)
              (XdpPreproc.a_end a) (XdpPreproc.a_frame a) m) as [v m1] eqn:Hstep.
  assert (books_balance (stats_map m1)) as Hbal1.
  { pose proof (packet_accounting (XdpPreproc.a_start a) (XdpPreproc.a_end a)
                  (XdpPreproc.a_frame a) m) as Hacc.
    cbv zeta in Hacc. rewrite Hstep in Hacc. cbn [snd] in Hacc.
    destruct Hbal as (t & f & d & tcp & udp & Ht & Hf & Hd & Htcp & Hudp & E1 & E2).
    destruct Hacc as [Ht' Hrest]. rewrite Ht in Ht'.
    destruct (parsed (XdpPreproc.a_frame a)) as [[[[[? ?] ?] ?] proto]|].
    - destruct Hrest as (Hd' & Hf' & Htcp' & Hudp' & _).
      rewrite Hd in Hd'. rewrite Hf in Hf'. rewrite Htcp in Htcp'.
      rewrite Hudp in Hudp'.
      destruct (proto =? IPPROTO_TCP).
      + exists (incr64 t), (incr64 f), d, (incr64 tcp), udp.
        repeat (split; [assumption|]).
        unfold incr64, wrap64 in *. split; Z.div_mod_to_equations; lia.
      + exists (incr64 t), (incr64 f), d, tcp, (incr64 udp).
        repeat (split; [assumption|]).
        unfold incr64, wrap64 in *. split; Z.div_mod_to_equations; lia.
    - destruct Hrest as (Hd' & Hf' & Htcp' & Hudp' & _).
      rewrite Hd in Hd'. rewrite Hf in Hf'. rewrite Htcp in Htcp'.
      rewrite Hudp in Hudp'.
      exists (incr64 t), f, (incr64 d), tcp, udp.
      repeat (split; [assumption|]).
      unfold incr64, wrap64 in *. split; Z.div_mod_to_equations; lia. }
  destruct (IH m1 Hbal1) as [Hb Hl].
  destruct (run bpf_redirect_map rest m1) as [vs m2].
  cbn [fst snd length] in *. split; [exact Hb | by rewrite Hl].
Qed.


End Program.

(** The kernel's [classify_traffic] and the tag the user-space extractor
    computes are the same function of the ports and the protocol. *)
Lemma classify_traffic_is_the_extractor_rule sip dip sp dp proto :
  classify_traffic sip dip sp dp proto
  = MlProcessor.traffic_class_rule sp dp proto.
Proof.
  unfold classify_traffic, MlProcessor.traffic_class_rule, MlProcessor.service_port.
  unfold FLOW_PRIORITY, FLOW_SUSPICIOUS, FLOW_NORMAL,
    MlProcessor.FLOW_PRIORITY, MlProcessor.FLOW_SUSPICIOUS, MlProcessor.FLOW_NORMAL.
  rewrite !Z.gtb_ltb.
  destruct (sp =? 22), (dp =? 22), (sp =? 53), (dp =? 53), (sp =? 80), (dp =? 80),
    (sp =? 443), (dp =? 443), (49152 <? sp), (49152 <? dp),
    (proto =? IPPROTO_TCP), (proto =? IPPROTO_UDP); reflexivity.
Qed.

Section Handover.

Variable entropy_x32 : list byte -> Z.


End Handover.

Lemma filter_books_balance_witness :
  books_balance
    (stats_map (run MoreSamples.always_redirect MoreSamples.mixed_traffic
                    MoreSamples.filter_boot).2) /\
  length (run MoreSamples.always_redirect MoreSamples.mixed_traffic
              MoreSamples.filter_boot).1 = 4%nat.
Proof.
  apply (filter_books_balance MoreSamples.always_redirect
           MoreSamples.mixed_traffic MoreSamples.filter_boot).
  exists 0, 0, 0, 0, 0. repeat split; reflexivity.
Defined.

Lemma unconfigured_filter_never_redirects_witness :
  Forall (fun v => v = XdpPreproc.XDP_PASS)
    (run MoreSamples.always_redirect MoreSamples.mixed_traffic
         MoreSamples.filter_boot).1.
Proof.
  apply (unconfigured_filter_never_redirects MoreSamples.always_redirect
           MoreSamples.mixed_traffic MoreSamples.filter_boot
           (mk_ml_config 0 0 0 0)).
  - reflexivity.
  - reflexivity.
  - cbn. lia.
  - cbn. lia.
Defined.


End FilterFacts.

(** ** Collisions of the flow hash *)

Module HashFacts.
Import Wire WireFacts MlProcessor MlProcessorFacts.

Lemma wrap64_lxor a b : wrap64 (Z.lxor a b) = Z.lxor (wrap64 a) (wrap64 b).
Proof.
  unfold wrap64. rewrite <- !Z.land_ones by lia.
  apply Z.bits_inj'. intros i Hi.
  rewrite !Z.lxor_spec, !Z.land_spec, !Z.lxor_spec.
  destruct (Z.testbit (Z.ones 64) i), (Z.testbit a i), (Z.testbit b i); reflexivity.
Qed.

(** The source port is folded into the upper half of the source address:
    flipping the same bits in both leaves the hash where it was. *)
Lemma flow_hash_of_fold proto sip dip sp dp k :
  0 <= k < 2 ^ 16 ->
  flow_hash_of proto (Z.lxor sip (Z.shiftl k 16)) dip (Z.lxor sp k) dp
  = flow_hash_of proto sip dip sp dp.
Proof.
  intros Hk. unfold flow_hash_of, shl64.
  rewrite Z.shiftl_lxor, wrap64_lxor.
  assert (wrap64 (Z.shiftl k 16) = Z.shiftl k 16) as ->.
  { apply wrap64_small. rewrite Z.shiftl_mul_pow2 by lia. lia. }
  apply Z.bits_inj'. intros i Hi. rewrite !Z.lxor_spec.
  repeat match goal with
         | |- context [Z.testbit ?x i] =>
           let b := fresh "b" in
           generalize (Z.testbit x i); intros b
         end.
  repeat match goal with b : bool |- _ => destruct b end; reflexivity.
Qed.

Section Collision.

Variable entropy_x32 : list byte -> Z.

(** X26.  The flow hash does not tell flows apart: the source port is
    XOR-ed onto the upper 16 bits of the source address, so two packets
    with the same destination and protocol whose source ports differ by a
    mask [k] and whose source addresses differ by [k << 16] get the same
    hash. *)
Theorem distinct_flows_share_a_hash now1 pkt1 len1 f1 now2 pkt2 len2 f2 k :
  extract_ml_features entropy_x32 now1 pkt1 len1 = Some f1 ->
  extract_ml_features entropy_x32 now2 pkt2 len2 = Some f2 ->
  0 <= k < 2 ^ 16 ->
  protocol f2 = protocol f1 -> dst_ip f2 = dst_ip f1 -> dst_port f2 = dst_port f1 ->
  src_ip f2 = Z.lxor (src_ip f1) (Z.shiftl k 16) ->
  src_port f2 = Z.lxor (src_port f1) k ->
  flow_hash f2 = flow_hash f1.
Proof.
  intros H1 H2 Hk Hp Hd Hdp Hs Hsp.
  apply extract_ml_features_Some in H1, H2.
  destruct H1 as (_ & _ & _ & _ & _ & _ & _ & _ & _ & _ & _ & Hh1 & _).
  destruct H2 as (_ & _ & _ & _ & _ & _ & _ & _ & _ & _ & _ & Hh2 & _).
  rewrite Hh1, Hh2, Hp, Hd, Hdp, Hs, Hsp. by apply flow_hash_of_fold.
Qed.

End Collision.

Lemma distinct_flows_share_a_hash_witness :
  flow_hash MoreSamples.udp_dns_twin_feature = flow_hash Samples.udp_dns_feature.
Proof.
  refine (distinct_flows_share_a_hash Samples.no_entropy
            7 Samples.udp_dns 142 Samples.udp_dns_feature
            9 MoreSamples.udp_dns_twin 142 MoreSamples.udp_dns_twin_feature
            1 _ _ _ _ _ _ _ _).
  all: vm_compute; first [reflexivity | by split].
Defined.

End HashFacts.
